(** * Swing detection service: sliding window, peak detection, debounce,
      session registry and raw-buffer persistence.

    Shallow embedding of
      - [app/services/swing_detector.py] (SensorSample, SwingPeak,
        SwingDetector), and
      - [app/main.py] (active_sessions, the database helpers and the
        websocket message loop), and
      - the batching of [scripts/import_wristmotion.py],
    followed by the properties of the specification that concern them.

    Conventions.  A finite Python float is a rational ([Q]), compared with
    [Qle_bool]/[Qeq_bool].  The result of a float operation is rounded: the
    rounding [fl] is a parameter of the model, and a property that needs a
    fact about it states that fact as a hypothesis.  A timestamp of the
    detector is a [pyfloat], which may also be an infinity or NaN; the
    other readings of a sample are finite, and squaring one raises
    [OverflowError] when the square is out of range; sums of such squares
    and differences of finite timestamps are taken to stay in range.
    Python ints are [Z] where the code can hold a negative value and [nat]
    for lengths, counters and indices.  A call that may raise returns an
    [outcome]. *)

From Stdlib Require Import QArith Qabs Lqa Lia List Permutation Sorted.
From stdpp Require Import gmap strings list fin_maps.

Local Open Scope Q_scope.

(* ===================================================================== *)
(** * Floats and exceptions *)
(* ===================================================================== *)

(** [a < b] on floats. *)
Definition Qlt_bool (a b : Q) : bool := negb (Qle_bool b a).

(** A float that need not be finite: [json.loads] reads the literals
    [NaN], [Infinity] and [-Infinity], and the float fields of the
    validated models admit them. *)
Inductive pyfloat : Type :=
| Finite (q : Q)
| PosInf
| NegInf
| NaN.

(** [a < b] on such floats: false as soon as one side is NaN. *)
Definition float_lt (a b : pyfloat) : bool :=
  match a, b with
  | Finite x, Finite y => Qlt_bool x y
  | Finite _, PosInf => true
  | NegInf, Finite _ => true
  | NegInf, PosInf => true
  | _, _ => false
  end.

(** The value of a finite float. *)
Definition finite_value (x : pyfloat) : Q :=
  match x with Finite q => q | _ => 0 end.

(** [x ** 2] on a finite float raises [OverflowError] when the square
    is out of the range of a double; for a double that is from [2 ** 512]
    on in absolute value. *)
Definition pow2_overflows (x : Q) : bool :=
  Qle_bool (inject_Z (2 ^ 512)) (Qabs x).

(** Exceptions the modelled code can raise. *)
Inductive exn : Type :=
| ValueError (msg : string)
| IndexError
| OverflowError (msg : string)
| OSError (msg : string).

(** What [x ** 2] raises on overflow. *)
Definition pow_overflow : exn :=
  OverflowError "(34, 'Numerical result out of range')".

(** Result of a call: a returned value or a raised exception. *)
Inductive outcome (A : Type) : Type :=
| Returned (v : A)
| Raised (e : exn).
Arguments Returned {A} v.
Arguments Raised {A} e.

(** A square root that is exact on squares of rationals, used to run the
    model on concrete samples: sqrt(n/d) = sqrt(n*d)/d. *)
Definition exact_sqrt (q : Q) : Q :=
  Z.sqrt (Qnum q * Zpos (Qden q)) # Qden q.

(** A rounding that changes nothing, to run the model on concrete samples
    whose arithmetic is exact in doubles or is not looked at. *)
Definition no_rounding (q : Q) : Q := q.

(* ===================================================================== *)
(** * numpy / scipy.signal as called by the detector *)
(* ===================================================================== *)

(** [process_batch] finds its peaks with
    [scipy.signal.find_peaks(magnitudes, height=..., distance=...)].  The
    routine is library code; it is embedded here from scipy's
    [_peak_finding.py] and [_peak_finding_utils.pyx], restricted to the two
    conditions the detector passes: [_local_maxima_1d], then the height
    condition, then [_select_by_peak_distance]. *)
Module SciPy.

(** [x[i]] on a float array. *)
Definition at_ (x : list Q) (i : nat) : Q := nth i x 0.

(** [np.argsort(priority)]: the positions of [priority] in ascending order
    of value.  Modelled as an insertion sort, which keeps equal values in
    position order; the properties below do not depend on how ties are
    ordered. *)
Fixpoint argsort_insert (priority : list Q) (j : nat) (sorted : list nat) : list nat :=
  match sorted with
  | [] => [j]
  | k :: rest =>
      if Qlt_bool (at_ priority j) (at_ priority k)
      then j :: k :: rest
      else k :: argsort_insert priority j rest
  end.

Definition argsort (priority : list Q) : list nat :=
  fold_left (fun sorted j => argsort_insert priority j sorted)
            (seq 0 (length priority)) [].

(** Inner loop of [_local_maxima_1d]:
<<
    while i_ahead < i_max and x[i_ahead] == x[i]: i_ahead += 1
>> *)
Fixpoint plateau_ahead (fuel : nat) (x : list Q) (i i_ahead i_max : nat) : nat :=
  match fuel with
  | O => i_ahead
  | S fuel' =>
      if (i_ahead <? i_max)%nat && Qeq_bool (at_ x i_ahead) (at_ x i)
      then plateau_ahead fuel' x i (S i_ahead) i_max
      else i_ahead
  end.

(** Outer loop of [_local_maxima_1d]:
<<
    while i < i_max:
        if x[i - 1] < x[i]:
            i_ahead = i + 1
            (inner loop)
            if x[i_ahead] < x[i]:
                left_edges[m] = i; right_edges[m] = i_ahead - 1
                midpoints[m] = (left_edges[m] + right_edges[m]) // 2
                m += 1
                i = i_ahead
        i += 1
>> *)
Fixpoint local_maxima_loop (fuel : nat) (x : list Q) (i i_max : nat) : list nat :=
  match fuel with
  | O => []
  | S fuel' =>
      if (i <? i_max)%nat then
        if Qlt_bool (at_ x (i - 1)) (at_ x i) then
          let i_ahead := plateau_ahead (length x) x i (S i) i_max in
          if Qlt_bool (at_ x i_ahead) (at_ x i) then
            ((i + (i_ahead - 1)) / 2)%nat
              :: local_maxima_loop fuel' x (S i_ahead) i_max
          else local_maxima_loop fuel' x (S i) i_max
        else local_maxima_loop fuel' x (S i) i_max
      else []
  end.

(** [_local_maxima_1d(x)]: [i = 1], [i_max = x.shape[0] - 1]. *)
Definition local_maxima_1d (x : list Q) : list nat :=
  local_maxima_loop (length x) x 1 (length x - 1).

(** What [_local_maxima_1d] looks for: a run [x[l..r]] of equal values
    strictly inside the array, entered by a strict rise and left by a strict
    fall. *)
Definition plateau (x : list Q) (l r : nat) : Prop :=
  (1 <= l)%nat /\ (l <= r)%nat /\ (r + 1 < length x)%nat /\
  at_ x (l - 1) < at_ x l /\
  (forall k, (l <= k <= r)%nat -> at_ x k == at_ x l) /\
  at_ x (r + 1) < at_ x l.

(** The midpoint (rounded down) of a plateau of [x]. *)
Definition plateau_midpoint (x : list Q) (m : nat) : Prop :=
  exists l r, plateau x l r /\ m = ((l + r) / 2)%nat.

(** [_select_by_property(x[peaks], hmin, None)] applied to [peaks]:
    keep the peaks with [hmin <= x[peak]]. *)
Definition select_by_height (x : list Q) (hmin : Q) (peaks : list nat) : list nat :=
  List.filter (fun p => Qle_bool hmin (at_ x p)) peaks.

(** [peaks[k]] on the index array. *)
Definition peak_at (peaks : list nat) (k : nat) : Z := Z.of_nat (nth k peaks O).

(** Left scan of [_select_by_peak_distance], [k] running from [j - 1] down
    to [0]; [cnt] is [k + 1]:
<<
    while 0 <= k and peaks[j] - peaks[k] < distance_:
        keep[k] = 0; k -= 1
>> *)
Fixpoint mark_left (peaks : list nat) (distance_ : Z) (j cnt : nat)
         (keep : list bool) : list bool :=
  match cnt with
  | O => keep
  | S k =>
      if (peak_at peaks j - peak_at peaks k <? distance_)%Z
      then mark_left peaks distance_ j k (<[k:=false]> keep)
      else keep
  end.

(** Right scan, [k] running from [j + 1] up:
<<
    while k < peaks_size and peaks[k] - peaks[j] < distance_:
        keep[k] = 0; k += 1
>> *)
Fixpoint mark_right (fuel : nat) (peaks : list nat) (distance_ : Z) (j k : nat)
         (keep : list bool) : list bool :=
  match fuel with
  | O => keep
  | S fuel' =>
      if (k <? length peaks)%nat && (peak_at peaks k - peak_at peaks j <? distance_)%Z
      then mark_right fuel' peaks distance_ j (S k) (<[k:=false]> keep)
      else keep
  end.

(** One iteration of the priority loop of [_select_by_peak_distance]:
<<
    j = priority_to_position[i]
    if keep[j] == 0: continue
    (left scan) (right scan)
>> *)
Definition suppress_around (peaks : list nat) (distance_ : Z)
           (keep : list bool) (j : nat) : list bool :=
  match keep !! j with
  | Some true =>
      mark_right (length peaks) peaks distance_ j (S j)
                 (mark_left peaks distance_ j j keep)
  | _ => keep
  end.

(** [_select_by_peak_distance(peaks, priority, distance)]: the keep flags.
    The loop runs over [priority_to_position] from its last entry (highest
    priority) to its first. *)
Definition select_by_peak_distance (peaks : list nat) (priority : list Q)
           (distance_ : Z) : list bool :=
  fold_left (suppress_around peaks distance_)
            (rev (argsort priority))
            (replicate (length peaks) true).

(** [peaks[keep]]. *)
Fixpoint mask (peaks : list nat) (keep : list bool) : list nat :=
  match peaks, keep with
  | p :: peaks', b :: keep' => if b then p :: mask peaks' keep' else mask peaks' keep'
  | _, _ => []
  end.

(** [find_peaks(x, height=height, distance=distance)], the peak indices. *)
Definition find_peaks (x : list Q) (height : Q) (distance : Z) : outcome (list nat) :=
  if (distance <? 1)%Z then
    Raised (ValueError "`distance` must be greater or equal to 1")
  else
    let peaks := select_by_height x height (local_maxima_1d x) in
    let keep := select_by_peak_distance peaks (map (at_ x) peaks) distance in
    Returned (mask peaks keep).

End SciPy.

(* ===================================================================== *)
(** * The peak procedure of the specification (section 4.2) *)
(* ===================================================================== *)

(** The candidate test as the specification words it: an interior
    position whose value is not below either neighbour (ties allowed) and
    not below the threshold. *)
Definition spec_candidate (magnitude : list Q) (threshold : Q) (i : nat) : bool :=
  (1 <=? i)%nat && (i + 1 <? length magnitude)%nat
  && Qle_bool (SciPy.at_ magnitude (i - 1)) (SciPy.at_ magnitude i)
  && Qle_bool (SciPy.at_ magnitude (i + 1)) (SciPy.at_ magnitude i)
  && Qle_bool threshold (SciPy.at_ magnitude i).

(** Insertion into a list kept in descending order of magnitude; fed with
    indices in increasing order it puts an index after the earlier ones of
    the same magnitude. *)
Fixpoint insert_descending (magnitude : list Q) (i : nat) (sorted : list nat) : list nat :=
  match sorted with
  | [] => [i]
  | k :: rest =>
      if Qlt_bool (SciPy.at_ magnitude k) (SciPy.at_ magnitude i)
      then i :: k :: rest
      else k :: insert_descending magnitude i rest
  end.

Definition by_descending_magnitude (magnitude : list Q) (candidates : list nat) : list nat :=
  fold_left (fun sorted i => insert_descending magnitude i sorted) candidates [].

(** Two positions within [min_distance] samples of each other, read as an
    index difference below [min_distance]: peaks [min_distance] or more
    apart are both kept (section 8 of the specification). *)
Definition closer_than (min_distance : Z) (p a : nat) : bool :=
  (Z.abs (Z.of_nat p - Z.of_nat a) <? min_distance)%Z.

(** The scan: a candidate is accepted only if no candidate accepted before
    it lies within [min_distance] samples. *)
Fixpoint accept_in_order (min_distance : Z) (order accepted : list nat) : list nat :=
  match order with
  | [] => accepted
  | p :: rest =>
      if existsb (closer_than min_distance p) accepted
      then accept_in_order min_distance rest accepted
      else accept_in_order min_distance rest (p :: accepted)
  end.

(** The accepted positions below [n], by increasing index. *)
Definition ordered_by_index (n : nat) (accepted : list nat) : list nat :=
  List.filter (fun i => existsb (Nat.eqb i) accepted) (seq 0 n).

(** The whole procedure as specified. *)
Definition spec_peaks (magnitude : list Q) (threshold : Q) (min_distance : Z) : list nat :=
  let candidates :=
    List.filter (spec_candidate magnitude threshold) (seq 0 (length magnitude)) in
  ordered_by_index (length magnitude)
    (accept_in_order min_distance (by_descending_magnitude magnitude candidates) []).

(** The keep flag at position [k]; positions outside the array count as
    dropped. *)
Definition flag (keep : list bool) (k : nat) : bool := nth k keep false.

(** Position [k] lies within [distance_] of position [j] of [peaks], and is
    not [j] itself. *)
Definition near (peaks : list nat) (distance_ : Z) (j k : nat) : bool :=
  negb (k =? j)%nat && (k <? length peaks)%nat
  && (Z.abs (SciPy.peak_at peaks k - SciPy.peak_at peaks j) <? distance_)%Z.

(** [p] has an accepted position other than itself within [distance_]. *)
Definition blocked (distance_ : Z) (accepted : list nat) (p : nat) : bool :=
  existsb (fun a => negb (a =? p)%nat && closer_than distance_ p a) accepted.

(** What holds between the passes of the priority loop of
    [_select_by_peak_distance]: [done] are the positions handled so far,
    [keep] the flags, [accepted] the peaks the scan of the specification has
    accepted over the same positions. *)
Definition loop_invariant (peaks : list nat) (distance_ : Z)
           (done : list nat) (keep : list bool) (accepted : list nat) : Prop :=
  (forall k, flag keep k
             = (k <? length peaks)%nat
               && negb (blocked distance_ accepted (nth k peaks O))) /\
  (forall j, In j done -> flag keep j = true -> In (nth j peaks O) accepted) /\
  (forall a, In a accepted ->
             exists k, In k done /\ nth k peaks O = a /\ flag keep k = true).

(* ===================================================================== *)
(** * app/services/swing_detector.py *)
(* ===================================================================== *)

(** [SensorSample]: one reading; the constructor unpacks the tuples. *)
Record SensorSample : Type := mkSensorSample {
  timestamp : pyfloat;
  rotation_x : Q; rotation_y : Q; rotation_z : Q;
  gravity_x : Q; gravity_y : Q; gravity_z : Q;
  accel_x : Q; accel_y : Q; accel_z : Q;
  quat_w : Q; quat_x : Q; quat_y : Q; quat_z : Q
}.

(** [SwingPeak]. *)
Record SwingPeak : Type := mkSwingPeak {
  peak_timestamp : pyfloat;
  peak_index : nat;
  peak_rotation_magnitude : Q;
  peak_acceleration_magnitude : Q;
  sensor_data : SensorSample
}.

(** The instance fields of [SwingDetector]. *)
Record SwingDetector : Type := mkSwingDetector {
  buffer_size : nat;
  threshold : Q;
  min_distance : Z;
  height_multiplier : Q;
  buffer : list SensorSample;
  last_peak_timestamp : pyfloat;
  min_peak_interval : Q;
  total_samples_processed : nat;
  total_peaks_detected : nat;
  session_start_time : Q
}.

(** [SwingDetector.__init__]; [now] is the reading of [time.time()]. *)
Definition SwingDetector_init (buffer_size : nat) (threshold : Q)
           (min_distance : Z) (height_multiplier : Q) (now : Q) : SwingDetector :=
  {| buffer_size := buffer_size;
     threshold := threshold;
     min_distance := min_distance;
     height_multiplier := height_multiplier;
     buffer := [];
     last_peak_timestamp := Finite 0;
     min_peak_interval := 1 # 2;
     total_samples_processed := 0;
     total_peaks_detected := 0;
     session_start_time := now |}.

(** [SwingDetector()] with the default arguments. *)
Definition SwingDetector_default (now : Q) : SwingDetector :=
  SwingDetector_init 300 2 50 1 now.

(** [deque.append] on a deque with [maxlen]: the item is added on the
    right, and the leftmost one is dropped when the length exceeds
    [maxlen]. *)
Definition deque_append {A : Type} (maxlen : nat) (dq : list A) (item : A) : list A :=
  let dq' := dq ++ [item] in
  if (maxlen <? length dq')%nat then tail dq' else dq'.

(** [deque.extend]: appends the items one by one. *)
Definition deque_extend {A : Type} (maxlen : nat) (dq items : list A) : list A :=
  fold_left (deque_append maxlen) items dq.

(** The [n] most recent items of [l], in arrival order. *)
Definition last_n {A : Type} (n : nat) (l : list A) : list A :=
  drop (length l - n) l.

(** State changes of [process_batch]. *)
Definition add_samples (d : SwingDetector) (samples : list SensorSample) : SwingDetector :=
  {| buffer_size := buffer_size d;
     threshold := threshold d;
     min_distance := min_distance d;
     height_multiplier := height_multiplier d;
     buffer := deque_extend (buffer_size d) (buffer d) samples;
     last_peak_timestamp := last_peak_timestamp d;
     min_peak_interval := min_peak_interval d;
     total_samples_processed := total_samples_processed d + length samples;
     total_peaks_detected := total_peaks_detected d;
     session_start_time := session_start_time d |}.

Definition record_peak (d : SwingDetector) (peak_timestamp : pyfloat) : SwingDetector :=
  {| buffer_size := buffer_size d;
     threshold := threshold d;
     min_distance := min_distance d;
     height_multiplier := height_multiplier d;
     buffer := buffer d;
     last_peak_timestamp := peak_timestamp;
     min_peak_interval := min_peak_interval d;
     total_samples_processed := total_samples_processed d;
     total_peaks_detected := total_peaks_detected d + 1;
     session_start_time := session_start_time d |}.

(** [SwingDetector.reset]. *)
Definition reset (d : SwingDetector) (now : Q) : SwingDetector :=
  {| buffer_size := buffer_size d;
     threshold := threshold d;
     min_distance := min_distance d;
     height_multiplier := height_multiplier d;
     buffer := [];
     last_peak_timestamp := Finite 0;
     min_peak_interval := min_peak_interval d;
     total_samples_processed := 0;
     total_peaks_detected := 0;
     session_start_time := now |}.

(** Fields that [process_batch] never assigns. *)
Definition same_settings (d d' : SwingDetector) : Prop :=
  buffer_size d' = buffer_size d /\ threshold d' = threshold d /\
  min_distance d' = min_distance d /\ height_multiplier d' = height_multiplier d /\
  min_peak_interval d' = min_peak_interval d /\
  session_start_time d' = session_start_time d.

(** The dictionary returned by [get_statistics]. *)
Record Statistics : Type := mkStatistics {
  stat_total_samples_processed : nat;
  stat_total_peaks_detected : nat;
  stat_buffer_size : nat;
  stat_buffer_capacity : nat;
  stat_elapsed_time_seconds : Q;
  stat_sample_rate_hz : Q;
  stat_threshold : Q;
  stat_min_distance : Z
}.

(** Statistics with the peak count blanked, to compare the rest. *)
Definition without_peak_count (st : Statistics) : Statistics :=
  {| stat_total_samples_processed := stat_total_samples_processed st;
     stat_total_peaks_detected := 0;
     stat_buffer_size := stat_buffer_size st;
     stat_buffer_capacity := stat_buffer_capacity st;
     stat_elapsed_time_seconds := stat_elapsed_time_seconds st;
     stat_sample_rate_hz := stat_sample_rate_hz st;
     stat_threshold := stat_threshold st;
     stat_min_distance := stat_min_distance st |}.

(** [classify_swing_type]. *)
Definition classify_swing_type (peak : SwingPeak) : string := "unknown".

Section Model.

(** [np.sqrt], library code, acts on the model as an arbitrary function. *)
Variable np_sqrt : Q -> Q.

(** The rounding of a float result to a double, an arbitrary function
    here: [a + b] on finite floats is [fl (a + b)], and so on. *)
Variable fl : Q -> Q.

(** [a - b] on floats that need not be finite. *)
Definition float_sub (a b : pyfloat) : pyfloat :=
  match a, b with
  | NaN, _ => NaN
  | _, NaN => NaN
  | Finite x, Finite y => Finite (fl (x - y))
  | Finite _, PosInf => NegInf
  | Finite _, NegInf => PosInf
  | PosInf, PosInf => NaN
  | PosInf, _ => PosInf
  | NegInf, NegInf => NaN
  | NegInf, _ => NegInf
  end.

(** The test of the peak loop of [process_batch]:
    [peak_timestamp - self.last_peak_timestamp < self.min_peak_interval]
    (true: the peak is skipped). *)
Definition too_close (d : SwingDetector) (peak_timestamp : pyfloat) : bool :=
  float_lt (float_sub peak_timestamp (last_peak_timestamp d))
           (Finite (min_peak_interval d)).

(** [get_statistics]; [now] is the reading of [time.time()]. *)
Definition get_statistics (d : SwingDetector) (now : Q) : Statistics :=
  let elapsed_time := fl (now - session_start_time d) in
  let sample_rate :=
    if Qlt_bool 0 elapsed_time
    then fl (inject_Z (Z.of_nat (total_samples_processed d)) / elapsed_time)
    else 0 in
  {| stat_total_samples_processed := total_samples_processed d;
     stat_total_peaks_detected := total_peaks_detected d;
     stat_buffer_size := length (buffer d);
     stat_buffer_capacity := buffer_size d;
     stat_elapsed_time_seconds := elapsed_time;
     stat_sample_rate_hz := sample_rate;
     stat_threshold := threshold d;
     stat_min_distance := min_distance d |}.

(** [estimate_swing_speed]; the literals are the doubles nearest to 0.6,
    0.7 and 2.237. *)
Definition estimate_swing_speed (peak : SwingPeak) : Q :=
  let arm_length_m := fl (6 # 10) in
  let racket_length_m := fl (7 # 10) in
  let total_length_m := fl (arm_length_m + racket_length_m) in
  let linear_velocity_ms := fl (peak_rotation_magnitude peak * total_length_m) in
  fl (linear_velocity_ms * fl (2237 # 1000)).

(** The value of the properties [rotation_magnitude] and
    [acceleration_magnitude] when the squares are in range. *)
Definition rotation_magnitude (s : SensorSample) : Q :=
  np_sqrt (fl (fl (fl (rotation_x s * rotation_x s) + fl (rotation_y s * rotation_y s))
               + fl (rotation_z s * rotation_z s))).

Definition acceleration_magnitude (s : SensorSample) : Q :=
  np_sqrt (fl (fl (fl (accel_x s * accel_x s) + fl (accel_y s * accel_y s))
               + fl (accel_z s * accel_z s))).

(** Reading either property squares the three components first, and
    raises when a square overflows. *)
Definition rotation_overflows (s : SensorSample) : bool :=
  pow2_overflows (rotation_x s) || pow2_overflows (rotation_y s)
  || pow2_overflows (rotation_z s).

Definition acceleration_overflows (s : SensorSample) : bool :=
  pow2_overflows (accel_x s) || pow2_overflows (accel_y s)
  || pow2_overflows (accel_z s).

(** The [SwingPeak] built in the peak loop for the buffer item
    [sample_at_peak] at [peak_idx]. *)
Definition swing_peak_at (peak_idx : nat) (sample_at_peak : SensorSample) : SwingPeak :=
  {| peak_timestamp := timestamp sample_at_peak;
     peak_index := peak_idx;
     peak_rotation_magnitude := rotation_magnitude sample_at_peak;
     peak_acceleration_magnitude := acceleration_magnitude sample_at_peak;
     sensor_data := sample_at_peak |}.

(** The loop over [peaks] in [process_batch], [detected] being
    [detected_swings]:
<<
    for peak_idx in peaks:
        peak_timestamp = timestamps[peak_idx]
        if peak_timestamp - self.last_peak_timestamp < self.min_peak_interval:
            continue
        sample_at_peak = list(self.buffer)[peak_idx]
        swing_peak = SwingPeak(...)
        detected_swings.append(swing_peak)
        self.last_peak_timestamp = peak_timestamp
        self.total_peaks_detected += 1
>>
    [timestamps] and [magnitudes] are read off the buffer; an index outside
    the buffer raises.  [SwingPeak(...)] reads
    [sample_at_peak.acceleration_magnitude], which may raise: the loop then
    ends with the detector as the passes before left it. *)
Fixpoint filter_peaks (d : SwingDetector) (peaks : list nat)
         (detected : list SwingPeak) : SwingDetector * outcome (list SwingPeak) :=
  match peaks with
  | [] => (d, Returned detected)
  | peak_idx :: rest =>
      match buffer d !! peak_idx with
      | None => (d, Raised IndexError)
      | Some sample_at_peak =>
          let peak_timestamp := timestamp sample_at_peak in
          if too_close d peak_timestamp then filter_peaks d rest detected
          else if acceleration_overflows sample_at_peak then (d, Raised pow_overflow)
          else
            let swing_peak := swing_peak_at peak_idx sample_at_peak in
            filter_peaks (record_peak d peak_timestamp) rest (detected ++ [swing_peak])
      end
  end.

(** [SwingDetector.process_batch]: the detector after the call and what
    the call returned.  The list of magnitudes is built by reading
    [rotation_magnitude] on every sample of the buffer, which raises at the
    first sample with a component whose square overflows. *)
Definition process_batch (d : SwingDetector) (samples : list SensorSample)
  : SwingDetector * outcome (list SwingPeak) :=
  match samples with
  | [] => (d, Returned [])
  | _ :: _ =>
      let d1 := add_samples d samples in
      if (Z.of_nat (length (buffer d1)) <? min_distance d1 * 2)%Z then (d1, Returned [])
      else if existsb rotation_overflows (buffer d1) then (d1, Raised pow_overflow)
      else
        let magnitudes := map rotation_magnitude (buffer d1) in
        match SciPy.find_peaks magnitudes (threshold d1) (min_distance d1) with
        | Raised e => (d1, Raised e)
        | Returned peaks => filter_peaks d1 peaks []
        end
  end.

(** [SwingDetector.process_sample]. *)
Definition process_sample (d : SwingDetector) (sample : SensorSample) :=
  process_batch d [sample].

(** The events a call hands to its caller: none when it raised. *)
Definition returned_events {A : Type} (o : outcome (list A)) : list A :=
  match o with Returned v => v | Raised _ => [] end.

(** Successive [process_batch] calls on one detector, the caller going on
    after a raised exception as the message loop does; the events are
    collected in emission order. *)
Fixpoint ingest_all (d : SwingDetector) (batches : list (list SensorSample))
  : SwingDetector * list SwingPeak :=
  match batches with
  | [] => (d, [])
  | b :: rest =>
      let '(d1, o) := process_batch d b in
      let '(d2, events) := ingest_all d1 rest in
      (d2, returned_events o ++ events)
  end.

(* ===================================================================== *)
(** * app/main.py *)
(* ===================================================================== *)

(** [ENABLE_REALTIME_SWING_DETECTION]. *)
Definition ENABLE_REALTIME_SWING_DETECTION : bool := false.

(** [SensorSampleModel]; the dictionaries of [sample_dicts] have the same
    keys.  The message loop is modelled on messages whose timestamps are
    finite. *)
Record SensorSampleModel : Type := mkSensorSampleModel {
  m_timestamp : Q;
  rotationRateX : Q; rotationRateY : Q; rotationRateZ : Q;
  gravityX : Q; gravityY : Q; gravityZ : Q;
  accelerationX : Q; accelerationY : Q; accelerationZ : Q;
  quaternionW : Q; quaternionX : Q; quaternionY : Q; quaternionZ : Q
}.

(** Rows of the tables written by the helpers.  A column left out of an
    INSERT holds [None] until an UPDATE sets it. *)
Record SessionRow : Type := mkSessionRow {
  ses_session_id : string;
  ses_device : string;
  ses_date : string;
  ses_start_time : Z;
  ses_data_json : string;
  ses_end_time : option Z;
  ses_duration_minutes : option Z;
  ses_shot_count : option nat
}.

Record ShotRow : Type := mkShotRow {
  shot_shot_id : string;
  shot_session_id : string;
  shot_timestamp : pyfloat;
  shot_sequence_number : nat;
  shot_rotation_magnitude : Q;
  shot_acceleration_magnitude : Q;
  shot_speed_mph : Q;
  shot_data_json : string
}.

Record RawBufferRow : Type := mkRawBufferRow {
  raw_buffer_id : string;
  raw_session_id : string;
  raw_start_timestamp : Q;
  raw_end_timestamp : Q;
  raw_sample_count : nat;
  raw_compressed_data : string
}.

Record Database : Type := mkDatabase {
  sessions : list SessionRow;
  shots : list ShotRow;
  raw_sensor_buffer : list RawBufferRow
}.

(** What one pass of the message loop reads from its environment. *)
Record Env : Type := mkEnv {
  time_time : Q;          (* time.time() *)
  datetime_now : Q;       (* datetime.now().timestamp() *)
  uuid4_hex12 : string    (* uuid.uuid4().hex[:12] *)
}.

(** Library code and the table declarations of [schema.sql], which act on
    the model as arbitrary functions: string formatting of times and
    floats, JSON and gzip encoding, and whether the schema lets a row into a
    table.  An INSERT the schema refuses raises inside the helper's [try];
    the [except] prints and the table is left as it was.

    [format_shot_id t n] is the f-string of the sensor-batch branch,
    [shot_{datetime.fromtimestamp(t).strftime(...)}_{n:03d}]:
    [datetime.fromtimestamp] raises on a timestamp that is not finite or
    is out of the range of the platform, which timestamp that is being
    left to the library. *)
Variable strftime_date : Q -> string.
Variable format_shot_id : pyfloat -> nat -> outcome string.
Variable json_dumps_session : string -> Q -> string.
Variable json_dumps_sample : SensorSample -> string.
Variable gzip_csv : list SensorSampleModel -> string.
Variable str_exn : exn -> string.
Variable schema_admits_session : Database -> SessionRow -> bool.
Variable schema_admits_shot : Database -> ShotRow -> bool.
Variable schema_admits_raw : Database -> RawBufferRow -> bool.

(** [int(x)] on a float: truncation towards zero. *)
Definition int_of_float (x : Q) : Z := Z.quot (Qnum x) (Zpos (Qden x)).

(** [insert_session]. *)
Definition insert_session (db : Database) (session_id device : string)
           (start_time : Q) : Database :=
  let date := strftime_date start_time in
  let data_json := json_dumps_session device start_time in
  let row := {| ses_session_id := session_id; ses_device := device;
                ses_date := date; ses_start_time := int_of_float start_time;
                ses_data_json := data_json; ses_end_time := None;
                ses_duration_minutes := None; ses_shot_count := None |} in
  if schema_admits_session db row
  then {| sessions := sessions db ++ [row]; shots := shots db;
          raw_sensor_buffer := raw_sensor_buffer db |}
  else db.

(** [insert_shot]. *)
Definition insert_shot (db : Database) (shot_id session_id : string)
           (timestamp : pyfloat) (sequence_number : nat)
           (rotation_magnitude acceleration_magnitude speed_mph : Q)
           (sensor_data : SensorSample) : Database :=
  let data_json := json_dumps_sample sensor_data in
  let row := {| shot_shot_id := shot_id; shot_session_id := session_id;
                shot_timestamp := timestamp;
                shot_sequence_number := sequence_number;
                shot_rotation_magnitude := rotation_magnitude;
                shot_acceleration_magnitude := acceleration_magnitude;
                shot_speed_mph := speed_mph; shot_data_json := data_json |} in
  if schema_admits_shot db row
  then {| sessions := sessions db; shots := shots db ++ [row];
          raw_sensor_buffer := raw_sensor_buffer db |}
  else db.

(** [min(...)] and [max(...)] over the timestamps of a non-empty batch;
    the first of several equal items is returned. *)
Definition min_timestamp (first : Q) (rest : list Q) : Q :=
  fold_left (fun m t => if Qlt_bool t m then t else m) rest first.

Definition max_timestamp (first : Q) (rest : list Q) : Q :=
  fold_left (fun m t => if Qlt_bool m t then t else m) rest first.

(** The WHERE clause of the duplicate check of [insert_raw_sensor_buffer]. *)
Definition same_range (session_id : string) (start_timestamp end_timestamp : Q)
           (row : RawBufferRow) : bool :=
  String.eqb (raw_session_id row) session_id
  && Qeq_bool (raw_start_timestamp row) start_timestamp
  && Qeq_bool (raw_end_timestamp row) end_timestamp.

(** The row [insert_raw_sensor_buffer] builds for a non-empty batch
    [s0 :: rest]; [uuid] is [uuid.uuid4().hex[:12]]. *)
Definition raw_buffer_row (uuid session_id : string) (s0 : SensorSampleModel)
           (rest : list SensorSampleModel) : RawBufferRow :=
  let start_timestamp := min_timestamp (m_timestamp s0) (map m_timestamp rest) in
  let end_timestamp := max_timestamp (m_timestamp s0) (map m_timestamp rest) in
  let sample_count := length (s0 :: rest) in
  let compressed_data := gzip_csv (s0 :: rest) in
  let buffer_id := String.append "buffer_" uuid in
  {| raw_buffer_id := buffer_id; raw_session_id := session_id;
     raw_start_timestamp := start_timestamp;
     raw_end_timestamp := end_timestamp;
     raw_sample_count := sample_count;
     raw_compressed_data := compressed_data |}.

(** [insert_raw_sensor_buffer]. *)
Definition insert_raw_sensor_buffer (db : Database) (uuid : string)
           (session_id : string) (samples : list SensorSampleModel) : Database :=
  match samples with
  | [] => db
  | s0 :: rest =>
      let start_timestamp := min_timestamp (m_timestamp s0) (map m_timestamp rest) in
      let end_timestamp := max_timestamp (m_timestamp s0) (map m_timestamp rest) in
      match List.find (same_range session_id start_timestamp end_timestamp)
                      (raw_sensor_buffer db) with
      | Some existing_buffer => db
      | None =>
          let row := raw_buffer_row uuid session_id s0 rest in
          if schema_admits_raw db row
          then {| sessions := sessions db; shots := shots db;
                  raw_sensor_buffer := raw_sensor_buffer db ++ [row] |}
          else db
      end
  end.


(** [update_session_end]. *)
Definition update_session_end (db : Database) (session_id : string)
           (end_time : Q) (shot_count : nat) : Database :=
  match List.find (fun r => String.eqb (ses_session_id r) session_id) (sessions db) with
  | Some row =>
      let start_time := ses_start_time row in
      let duration_minutes :=
        int_of_float (fl (fl (end_time - inject_Z start_time) / 60)) in
      let update r :=
        if String.eqb (ses_session_id r) session_id
        then {| ses_session_id := ses_session_id r; ses_device := ses_device r;
                ses_date := ses_date r; ses_start_time := ses_start_time r;
                ses_data_json := ses_data_json r;
                ses_end_time := Some (int_of_float end_time);
                ses_duration_minutes := Some duration_minutes;
                ses_shot_count := Some shot_count |}
        else r in
      {| sessions := map update (sessions db); shots := shots db;
         raw_sensor_buffer := raw_sensor_buffer db |}
  | None => db
  end.

(** A text frame received on the socket, after [json.loads] and, for a
    sensor batch, the validation by [SensorBatchMessage]. *)
Inductive Message : Type :=
| InvalidJson (err : string)
| SessionStart (session_id : option string) (device : string)
| SensorBatch (session_id device : string) (samples : list SensorSampleModel)
| SensorBatchInvalid (err : string)
| SessionEnd (session_id : option string)
| OtherType (message_type : string).

(** The [swing_data] dictionary. *)
Record SwingData : Type := mkSwingData {
  sd_shot_id : string;
  sd_timestamp : pyfloat;
  sd_rotation_magnitude : Q;
  sd_acceleration_magnitude : Q;
  sd_estimated_speed_mph : Q;
  sd_sensor_data : SensorSample
}.

(** What [websocket.send_json] sends. *)
Inductive Response : Type :=
| ErrorResponse (message : string)
| SessionStarted (session_id message : string)
| SwingDetected (session_id : string) (swing : SwingData)
| SessionEnded (session_id : string) (statistics : Statistics).

(** The process-wide state and the [current_session_id] of a connection.
    The local [detector] of the loop is assigned before each use and is
    not part of the state. *)
Record Server : Type := mkServer {
  active_sessions : gmap string SwingDetector;
  database : Database;
  current_session_id : option string
}.

(** The conversion of a validated sample to a [SensorSample].  The samples
    of a frame are taken to carry finite numbers. *)
Definition to_sensor_sample (sample_data : SensorSampleModel) : SensorSample :=
  {| timestamp := Finite (m_timestamp sample_data);
     rotation_x := rotationRateX sample_data;
     rotation_y := rotationRateY sample_data;
     rotation_z := rotationRateZ sample_data;
     gravity_x := gravityX sample_data;
     gravity_y := gravityY sample_data;
     gravity_z := gravityZ sample_data;
     accel_x := accelerationX sample_data;
     accel_y := accelerationY sample_data;
     accel_z := accelerationZ sample_data;
     quat_w := quaternionW sample_data;
     quat_x := quaternionX sample_data;
     quat_y := quaternionY sample_data;
     quat_z := quaternionZ sample_data |}.

(** The entries of [sample_dicts], built from the [SensorSample]s of the
    frame, whose timestamps are finite. *)
Definition to_sample_dict (s : SensorSample) : SensorSampleModel :=
  {| m_timestamp := finite_value (timestamp s);
     rotationRateX := rotation_x s; rotationRateY := rotation_y s;
     rotationRateZ := rotation_z s;
     gravityX := gravity_x s; gravityY := gravity_y s; gravityZ := gravity_z s;
     accelerationX := accel_x s; accelerationY := accel_y s;
     accelerationZ := accel_z s;
     quaternionW := quat_w s; quaternionX := quat_x s;
     quaternionY := quat_y s; quaternionZ := quat_z s |}.

(** The [swing_data] dictionary built for [peak] once its id is made. *)
Definition swing_data_of (shot_id : string) (peak : SwingPeak) : SwingData :=
  {| sd_shot_id := shot_id;
     sd_timestamp := peak_timestamp peak;
     sd_rotation_magnitude := peak_rotation_magnitude peak;
     sd_acceleration_magnitude := peak_acceleration_magnitude peak;
     sd_estimated_speed_mph := estimate_swing_speed peak;
     sd_sensor_data := sensor_data peak |}.

(** The loop over [detected_peaks] of the sensor-batch branch; [detector]
    is the detector after [process_batch].  The shot id is made first; when
    that raises, the loop ends there: the peaks before it are stored and
    sent, the peak itself and those after it are not. *)
Fixpoint send_swings (db : Database) (session_id : string) (detector : SwingDetector)
         (detected_peaks : list SwingPeak) : Database * list Response * outcome unit :=
  match detected_peaks with
  | [] => (db, [], Returned tt)
  | peak :: rest =>
      match format_shot_id (peak_timestamp peak) (total_peaks_detected detector) with
      | Raised e => (db, [], Raised e)
      | Returned shot_id =>
          let swing_data := swing_data_of shot_id peak in
          let db1 := insert_shot db shot_id session_id (peak_timestamp peak)
                                 (total_peaks_detected detector)
                                 (peak_rotation_magnitude peak)
                                 (peak_acceleration_magnitude peak)
                                 (sd_estimated_speed_mph swing_data)
                                 (sd_sensor_data swing_data) in
          let '(db2, sent, result) := send_swings db1 session_id detector rest in
          (db2, SwingDetected session_id swing_data :: sent, result)
      end
  end.

(** [not session_id] for the value of [message.get("session_id")]. *)
Definition falsy (session_id : option string) : bool :=
  match session_id with
  | None => true
  | Some s => String.eqb s EmptyString
  end.

(** One pass of the [while True] loop of [websocket_endpoint]: the frame
    is handled, the state is updated, the responses are sent in order.
    [realtime] is the value of [ENABLE_REALTIME_SWING_DETECTION].  An
    exception raised while a frame is handled is caught by the
    [except Exception] of the loop, which sends an error message; what
    the frame changed before it stays changed. *)
Definition websocket_step (realtime : bool) (env : Env) (srv : Server)
           (message : Message) : Server * list Response :=
  match message with
  | InvalidJson err =>
      (srv, [ErrorResponse (String.append "Invalid JSON: " err)])
  | SessionStart session_id device =>
      match session_id with
      | Some sid =>
          if falsy session_id
          then (srv, [ErrorResponse "session_id is required"])
          else
            let detector := SwingDetector_init 300 2 50 1 (time_time env) in
            let db := insert_session (database srv) sid device (datetime_now env) in
            ({| active_sessions := <[sid := detector]> (active_sessions srv);
                database := db;
                current_session_id := Some sid |},
             [SessionStarted sid
                (String.append "Session " (String.append sid " started"))])
      | None => (srv, [ErrorResponse "session_id is required"])
      end
  | SensorBatchInvalid err =>
      (srv, [ErrorResponse (String.append "Processing error: " err)])
  | SensorBatch session_id device batch_samples =>
      let known := bool_decide (is_Some (active_sessions srv !! session_id)) in
      let detector :=
        match active_sessions srv !! session_id with
        | Some detector => detector
        | None => SwingDetector_default (time_time env)
        end in
      let current := if known then current_session_id srv else Some session_id in
      let samples := map to_sensor_sample batch_samples in
      let sample_dicts := map to_sample_dict samples in
      let db := insert_raw_sensor_buffer (database srv) (uuid4_hex12 env)
                                         session_id sample_dicts in
      if realtime then
        let '(detector', result) := process_batch detector samples in
        let sessions' := <[session_id := detector']> (active_sessions srv) in
        match result with
        | Returned detected_peaks =>
            let '(db', sent, sending) :=
              send_swings db session_id detector' detected_peaks in
            ({| active_sessions := sessions'; database := db';
                current_session_id := current |},
             match sending with
             | Returned _ => sent
             | Raised e =>
                 sent ++ [ErrorResponse (String.append "Processing error: " (str_exn e))]
             end)
        | Raised e =>
            ({| active_sessions := sessions'; database := db;
                current_session_id := current |},
             [ErrorResponse (String.append "Processing error: " (str_exn e))])
        end
      else
        ({| active_sessions := <[session_id := detector]> (active_sessions srv);
            database := db;
            current_session_id := current |}, [])
  | SessionEnd session_id =>
      match session_id with
      | Some sid =>
          match active_sessions srv !! sid with
          | Some detector =>
              let stats := get_statistics detector (time_time env) in
              let shot_count :=
                if realtime then stat_total_peaks_detected stats else O in
              let db := update_session_end (database srv) sid (datetime_now env)
                                           shot_count in
              ({| active_sessions := delete sid (active_sessions srv);
                  database := db;
                  current_session_id := current_session_id srv |},
               [SessionEnded sid stats])
          | None => (srv, [])
          end
      | None => (srv, [])
      end
  | OtherType message_type =>
      (srv, [ErrorResponse (String.append "Unknown message type: " message_type)])
  end.

(** The [except WebSocketDisconnect] handler. *)
Definition handle_disconnect (srv : Server) : Server :=
  match current_session_id srv with
  | Some sid =>
      if falsy (Some sid) then srv
      else
        match active_sessions srv !! sid with
        | Some _ =>
            {| active_sessions := delete sid (active_sessions srv);
               database := database srv;
               current_session_id := current_session_id srv |}
        | None => srv
        end
  | None => srv
  end.

(** The frames of a connection handled in order; the responses are
    collected in sending order. *)
Fixpoint websocket_loop (realtime : bool) (srv : Server)
         (frames : list (Env * Message)) : Server * list Response :=
  match frames with
  | [] => (srv, [])
  | (env, message) :: rest =>
      let '(srv1, sent) := websocket_step realtime env srv message in
      let '(srv2, sent') := websocket_loop realtime srv1 rest in
      (srv2, sent ++ sent')
  end.

(** [websocket_endpoint] for a connection that sends [frames] and then
    disconnects: [current_session_id] starts as [None]. *)
Definition websocket_endpoint (realtime : bool) (srv : Server)
           (frames : list (Env * Message)) : Server * list Response :=
  let connected := {| active_sessions := active_sessions srv;
                      database := database srv;
                      current_session_id := None |} in
  let '(srv1, sent) := websocket_loop realtime connected frames in
  (handle_disconnect srv1, sent).

(** ** The query endpoints of app/main.py *)

(** [datetime(t, 'unixepoch')] of SQLite, library code. *)
Variable sql_datetime : Z -> string.

(** Rows in the order an [ORDER BY] gives them, [before a b] telling that
    [a] sorts strictly before [b].  Rows that sort alike keep their table
    order here; SQLite does not promise any order among them, and the
    properties below do not depend on it. *)
Fixpoint insert_by {A : Type} (before : A -> A -> bool) (a : A) (sorted : list A) : list A :=
  match sorted with
  | [] => [a]
  | b :: rest => if before a b then a :: b :: rest else b :: insert_by before a rest
  end.

Definition order_by {A : Type} (before : A -> A -> bool) (rows : list A) : list A :=
  fold_left (fun sorted a => insert_by before a sorted) rows [].


(** A session as [list_sessions] and [get_session] report it. *)
Record SessionInfo : Type := mkSessionInfo {
  si_session_id : string;
  si_device : string;
  si_date : string;
  si_start_time : string;
  si_end_time : option string;
  si_duration_minutes : option Z;
  si_shot_count : option nat
}.

Definition session_info (row : SessionRow) : SessionInfo :=
  {| si_session_id := ses_session_id row;
     si_device := ses_device row;
     si_date := ses_date row;
     si_start_time := sql_datetime (ses_start_time row);
     si_end_time := option_map sql_datetime (ses_end_time row);
     si_duration_minutes := ses_duration_minutes row;
     si_shot_count := ses_shot_count row |}.

(** A shot as [get_session] reports it. *)
Record ShotInfo : Type := mkShotInfo {
  sh_shot_id : string;
  sh_timestamp : pyfloat;
  sh_sequence_number : nat;
  sh_rotation_magnitude : Q;
  sh_acceleration_magnitude : Q;
  sh_speed_mph : Q
}.

Definition shot_info (row : ShotRow) : ShotInfo :=
  {| sh_shot_id := shot_shot_id row;
     sh_timestamp := shot_timestamp row;
     sh_sequence_number := shot_sequence_number row;
     sh_rotation_magnitude := shot_rotation_magnitude row;
     sh_acceleration_magnitude := shot_acceleration_magnitude row;
     sh_speed_mph := shot_speed_mph row |}.




(** The shots [get_session] selects:
    [WHERE session_id = ? ORDER BY sequence_number]. *)
Definition session_shots (db : Database) (session_id : string) : list ShotRow :=
  order_by (fun a b => (shot_sequence_number a <? shot_sequence_number b)%nat)
           (List.filter (fun r => String.eqb (shot_session_id r) session_id) (shots db)).

(** What [get_session] returns or raises. *)
Inductive SessionAnswer : Type :=
| AnswerActive (session_id : string) (statistics : Statistics)
| AnswerCompleted (info : SessionInfo) (shots : list ShotInfo)
| AnswerHttpError (status_code : nat) (detail : string).

(** [get_session(session_id)], the database being reachable; [now] is the
    reading of [time.time()] in [get_statistics]. *)
Definition get_session (srv : Server) (now : Q) (session_id : string) : SessionAnswer :=
  match active_sessions srv !! session_id with
  | Some detector => AnswerActive session_id (get_statistics detector now)
  | None =>
      match List.find (fun r => String.eqb (ses_session_id r) session_id)
                      (sessions (database srv)) with
      | None => AnswerHttpError 404 (String.append "Session not found: " session_id)
      | Some session_row =>
          AnswerCompleted (session_info session_row)
                          (map shot_info (session_shots (database srv) session_id))
      end
  end.

(* ===================================================================== *)
(** * scripts/import_wristmotion.py *)
(* ===================================================================== *)

(** [range(0, stop, step)] for a positive [step]. *)
Definition range_step (stop step : nat) : list nat :=
  map (fun k => (k * step)%nat) (seq 0 ((stop + step - 1) / step)).

(** The batches of [process_csv_file]:
    [samples[i:i+batch_size]] for [i] in [range(0, len(samples), batch_size)]. *)
Definition csv_batches (batch_size : nat) (samples : list SensorSample)
  : list (list SensorSample) :=
  map (fun i => take batch_size (drop i samples)) (range_step (length samples) batch_size).

(* ===================================================================== *)
(** * Concrete inputs *)
(* ===================================================================== *)

(** A sample at time [t] whose rotation is [magnitude] about the x axis. *)
Definition sample_at (t magnitude : Q) : SensorSample :=
  {| timestamp := Finite t;
     rotation_x := magnitude; rotation_y := 0; rotation_z := 0;
     gravity_x := 0; gravity_y := -1; gravity_z := 0;
     accel_x := 0; accel_y := 0; accel_z := 0;
     quat_w := 1; quat_x := 0; quat_y := 0; quat_z := 0 |}.

(** [n] samples at 100 Hz from [start] hundredths of a second on, at rest
    except for a rotation of 3 rad/s at the positions picked by [pulse]. *)
Definition pulse_stream (start : Z) (n : nat) (pulse : nat -> bool) : list SensorSample :=
  map (fun i => sample_at ((start + Z.of_nat i) # 100) (if pulse i then 3 else 0))
      (seq 0 n).

(** The same at 1000 Hz, [start] counting thousandths of a second. *)
Definition fast_pulse_stream (start : Z) (n : nat) (pulse : nat -> bool)
  : list SensorSample :=
  map (fun i => sample_at ((start + Z.of_nat i) # 1000) (if pulse i then 3 else 0))
      (seq 0 n).

(** [s] with another timestamp, and with another acceleration along x. *)
Definition stamped (t : pyfloat) (s : SensorSample) : SensorSample :=
  {| timestamp := t;
     rotation_x := rotation_x s; rotation_y := rotation_y s; rotation_z := rotation_z s;
     gravity_x := gravity_x s; gravity_y := gravity_y s; gravity_z := gravity_z s;
     accel_x := accel_x s; accel_y := accel_y s; accel_z := accel_z s;
     quat_w := quat_w s; quat_x := quat_x s; quat_y := quat_y s; quat_z := quat_z s |}.

Definition accelerated (a : Q) (s : SensorSample) : SensorSample :=
  {| timestamp := timestamp s;
     rotation_x := rotation_x s; rotation_y := rotation_y s; rotation_z := rotation_z s;
     gravity_x := gravity_x s; gravity_y := gravity_y s; gravity_z := gravity_z s;
     accel_x := a; accel_y := accel_y s; accel_z := accel_z s;
     quat_w := quat_w s; quat_x := quat_x s; quat_y := quat_y s; quat_z := quat_z s |}.

(** Stand-ins for the library functions and for a schema without
    constraints, to run the message loop on concrete frames. *)
Definition no_text {A : Type} (_ : A) : string := EmptyString.

(** A shot id that says nothing, and one that [datetime.fromtimestamp]
    refuses outside the years 1970 to 9999 and for a timestamp that is not
    finite. *)
Definition plain_shot_id (_ : pyfloat) (_ : nat) : outcome string := Returned "shot".

Definition shot_id_to_year_9999 (t : pyfloat) (_ : nat) : outcome string :=
  match t with
  | Finite q =>
      if Qle_bool 0 q && Qlt_bool q 253402300800 then Returned "shot"
      else Raised (ValueError "year is out of range")
  | _ => Raised (ValueError "cannot convert float NaN to integer")
  end.
Definition admit_all {A B : Type} (_ : A) (_ : B) : bool := true.


(** A service with no session and an empty database. *)
Definition empty_server : Server :=
  {| active_sessions := ∅;
     database := {| sessions := []; shots := []; raw_sensor_buffer := [] |};
     current_session_id := None |}.

Definition env_at (t : Q) : Env :=
  {| time_time := t; datetime_now := t; uuid4_hex12 := "0123456789ab" |}.

(* ===================================================================== *)
(** * Notions used to state further properties *)
(* ===================================================================== *)

(** Two accepted peaks of one call, the earlier before the later: at least
    [distance] positions apart. *)
Definition apart (distance : Z) (a b : SwingPeak) : Prop :=
  (Z.of_nat (peak_index a) + distance <= Z.of_nat (peak_index b))%Z.


(** Frames the loop answers with an error and nothing else: undecodable
    text, a batch that fails validation, an unknown type, a start without a
    session id. *)
Definition malformed (message : Message) : bool :=
  match message with
  | InvalidJson _ | SensorBatchInvalid _ | OtherType _ => true
  | SessionStart session_id _ => falsy session_id
  | SensorBatch _ _ _ | SessionEnd _ => false
  end.

Definition is_error (response : Response) : bool :=
  match response with ErrorResponse _ => true | _ => false end.

Definition is_swing_detected (response : Response) : bool :=
  match response with SwingDetected _ _ => true | _ => false end.

(** A detector as the message loop creates them (capacity 300, threshold
    2.0, distance 50, interval 0.5) whose window is within capacity. *)
Definition service_detector (d : SwingDetector) : Prop :=
  buffer_size d = 300%nat /\ threshold d = 2 /\ min_distance d = 50%Z /\
  min_peak_interval d = 1 # 2 /\ (length (buffer d) <= 300)%nat.

(** Two finite timestamps, the later accepted by the gate after the
    earlier: the rounded difference is not below [interval]. *)
Definition passed_gate (interval a b : Q) : Prop := interval <= fl (b - a).

(** A detector that has processed nothing. *)
Definition unused (d : SwingDetector) : Prop :=
  total_samples_processed d = O /\ total_peaks_detected d = O /\ buffer d = [].

Definition is_session_start (message : Message) : bool :=
  match message with SessionStart _ _ => true | _ => false end.

(* ===================================================================== *)
(** * Properties *)
(* ===================================================================== *)

(** ** Comparisons on floats *)

Lemma Qlt_bool_true (a b : Q) : Qlt_bool a b = true <-> a < b.
Proof.
  unfold Qlt_bool. rewrite negb_true_iff.
  destruct (Qle_bool b a) eqn:E.
  - apply Qle_bool_iff in E. split; [discriminate | intros H; lra].
  - split; [intros _ | reflexivity].
    destruct (Qlt_le_dec a b) as [H | H]; [exact H |].
    apply Qle_bool_iff in H. congruence.
Qed.

Lemma Qlt_bool_false (a b : Q) : Qlt_bool a b = false <-> b <= a.
Proof.
  destruct (Qlt_bool a b) eqn:E.
  - apply Qlt_bool_true in E. split; [discriminate | intros H; lra].
  - split; [intros _ | reflexivity].
    destruct (Qlt_le_dec a b) as [H | H]; [| exact H].
    apply Qlt_bool_true in H. congruence.
Qed.

(** ** The sliding window *)

Lemma last_n_length {A : Type} (n : nat) (l : list A) :
  length (last_n n l) = Nat.min n (length l).
Proof. unfold last_n. rewrite length_drop. lia. Qed.

Lemma last_n_all {A : Type} (n : nat) (l : list A) :
  (length l <= n)%nat -> last_n n l = l.
Proof.
  intros H. unfold last_n. replace (length l - n)%nat with O by lia. reflexivity.
Qed.

Lemma last_n_app {A : Type} (n : nat) (l m : list A) :
  last_n n (last_n n l ++ m) = last_n n (l ++ m).
Proof.
  destruct (Nat.le_gt_cases (length l) n) as [H | H].
  - rewrite (last_n_all n l) by exact H. reflexivity.
  - unfold last_n. rewrite !length_app, length_drop.
    replace (length l - (length l - n) + length m - n)%nat with (length m) by lia.
    replace (length l + length m - n)%nat with ((length l - n) + length m)%nat by lia.
    rewrite <- drop_drop.
    rewrite (drop_app_le l m (length l - n)) by lia.
    reflexivity.
Qed.

Lemma deque_append_last_n {A : Type} (maxlen : nat) (dq : list A) (item : A) :
  (length dq <= maxlen)%nat ->
  deque_append maxlen dq item = last_n maxlen (dq ++ [item]).
Proof.
  intros H. unfold deque_append, last_n.
  rewrite length_app. simpl.
  destruct (Nat.ltb_spec maxlen (length dq + 1)) as [Hlt | Hge].
  - replace (length dq + 1 - maxlen)%nat with 1%nat by lia.
    destruct (dq ++ [item]); reflexivity.
  - replace (length dq + 1 - maxlen)%nat with O by lia. reflexivity.
Qed.

Lemma deque_extend_last_n {A : Type} (maxlen : nat) (items dq : list A) :
  (length dq <= maxlen)%nat ->
  deque_extend maxlen dq items = last_n maxlen (dq ++ items).
Proof.
  unfold deque_extend. revert dq.
  induction items as [| x items IH]; intros dq H; simpl.
  - rewrite app_nil_r. symmetry. apply last_n_all. exact H.
  - rewrite IH.
    + rewrite deque_append_last_n by exact H.
      rewrite last_n_app, <- app_assoc. reflexivity.
    + rewrite deque_append_last_n by exact H. rewrite last_n_length. lia.
Qed.


(** ** The local maxima found by scipy *)

Lemma plateau_ahead_spec (x : list Q) (i i_max fuel a : nat) :
  (i_max - a <= fuel)%nat ->
  let r := SciPy.plateau_ahead fuel x i a i_max in
  (a <= r)%nat /\ (r <= Nat.max a i_max)%nat /\
  (forall k, (a <= k < r)%nat -> SciPy.at_ x k == SciPy.at_ x i) /\
  ((r < i_max)%nat -> ~ SciPy.at_ x r == SciPy.at_ x i).
Proof.
  revert a. induction fuel as [| fuel IH]; intros a Hfuel; simpl.
  - split; [lia | split; [lia | split]]; [intros k Hk | intros Hr]; lia.
  - destruct (Nat.ltb_spec a i_max) as [Hlt | Hge]; simpl.
    + destruct (Qeq_bool (SciPy.at_ x a) (SciPy.at_ x i)) eqn:E.
      * destruct (IH (S a)) as (H1 & H2 & H3 & H4); [lia |].
        split; [lia | split; [lia | split]]; [| exact H4].
        intros k Hk. destruct (Nat.eq_dec k a) as [-> | Hne].
        -- apply Qeq_bool_iff. exact E.
        -- apply H3. lia.
      * split; [lia | split; [lia | split]]; [intros k Hk; lia |].
        intros _ H. apply Qeq_bool_iff in H. congruence.
    + split; [lia | split; [lia | split]]; [intros k Hk | intros Hr]; lia.
Qed.

Lemma local_maxima_loop_sound (x : list Q) (fuel i m : nat) :
  (1 <= i)%nat ->
  In m (SciPy.local_maxima_loop fuel x i (length x - 1)) ->
  exists l r, SciPy.plateau x l r /\ (i <= l)%nat /\ m = ((l + r) / 2)%nat.
Proof.
  revert i. induction fuel as [| fuel IH]; intros i Hi Hin; cbn [SciPy.local_maxima_loop] in Hin.
  - contradiction.
  - destruct (Nat.ltb_spec i (length x - 1)) as [Hlt | Hge]; [| contradiction].
    destruct (Qlt_bool (SciPy.at_ x (i - 1)) (SciPy.at_ x i)) eqn:Erise.
    + destruct (plateau_ahead_spec x i (length x - 1) (length x) (S i))
        as (H1 & H2 & H3 & H4); [lia |].
      set (a := SciPy.plateau_ahead (length x) x i (S i) (length x - 1)) in *.
      destruct (Qlt_bool (SciPy.at_ x a) (SciPy.at_ x i)) eqn:Efall.
      * destruct Hin as [Hm | Hin].
        -- exists i, (a - 1)%nat. split; [| split; [lia | symmetry; exact Hm]].
           apply Qlt_bool_true in Erise, Efall.
           unfold SciPy.plateau. repeat split; try lia; try assumption.
           ++ intros k Hk. destruct (Nat.eq_dec k i) as [-> | Hne]; [reflexivity |].
              apply H3. lia.
           ++ replace (a - 1 + 1)%nat with a by lia. exact Efall.
        -- destruct (IH (S a)) as (l & r & Hp & Hl & Hm); [lia | exact Hin |].
           exists l, r. split; [exact Hp | split; [lia | exact Hm]].
      * destruct (IH (S i)) as (l & r & Hp & Hl & Hm); [lia | exact Hin |].
        exists l, r. split; [exact Hp | split; [lia | exact Hm]].
    + destruct (IH (S i)) as (l & r & Hp & Hl & Hm); [lia | exact Hin |].
      exists l, r. split; [exact Hp | split; [lia | exact Hm]].
Qed.

(** A plateau that starts at [i] ends where the inner loop stops. *)
Lemma plateau_right_edge (x : list Q) (i r : nat) :
  SciPy.plateau x i r ->
  let a := SciPy.plateau_ahead (length x) x i (S i) (length x - 1) in
  a = (r + 1)%nat.
Proof.
  intros (Hl & Hlr & Hr & Hrise & Heq & Hfall) a.
  destruct (plateau_ahead_spec x i (length x - 1) (length x) (S i))
    as (H1 & H2 & H3 & H4); [lia |].
  fold a in H1, H2, H3, H4.
  destruct (Nat.lt_trichotomy a (r + 1)) as [Hlt | [Heq' | Hgt]].
  - exfalso. apply H4; [lia |]. apply Heq. lia.
  - exact Heq'.
  - exfalso. assert (Hk : SciPy.at_ x (r + 1) == SciPy.at_ x i) by (apply H3; lia).
    lra.
Qed.

(** No plateau starts strictly inside a run of equal values or at the
    position that ends it with a fall. *)
Lemma plateau_not_inside (x : list Q) (i a l r : nat) :
  (forall k, (i <= k < a)%nat -> SciPy.at_ x k == SciPy.at_ x i) ->
  SciPy.at_ x a < SciPy.at_ x i ->
  (i < l <= a)%nat -> ~ SciPy.plateau x l r.
Proof.
  intros Hrun Hfall Hl (_ & _ & _ & Hrise & _ & _).
  destruct (Nat.eq_dec l a) as [-> | Hne].
  - assert (H : SciPy.at_ x (a - 1) == SciPy.at_ x i) by (apply Hrun; lia). lra.
  - assert (H1 : SciPy.at_ x (l - 1) == SciPy.at_ x i) by (apply Hrun; lia).
    assert (H2 : SciPy.at_ x l == SciPy.at_ x i) by (apply Hrun; lia).
    lra.
Qed.

Lemma local_maxima_loop_complete (x : list Q) (fuel i l r : nat) :
  (1 <= i)%nat -> (length x - 1 - i <= fuel)%nat ->
  SciPy.plateau x l r -> (i <= l)%nat ->
  In ((l + r) / 2)%nat (SciPy.local_maxima_loop fuel x i (length x - 1)).
Proof.
  revert i. induction fuel as [| fuel IH]; intros i Hi Hfuel Hp Hil.
  - exfalso. destruct Hp as (? & ? & ? & _). lia.
  - cbn [SciPy.local_maxima_loop].
    assert (Hp' := Hp). destruct Hp' as (Hl1 & Hlr & Hr & _).
    destruct (Nat.ltb_spec i (length x - 1)) as [Hlt | Hge]; [| lia].
    destruct (Qlt_bool (SciPy.at_ x (i - 1)) (SciPy.at_ x i)) eqn:Erise.
    + destruct (plateau_ahead_spec x i (length x - 1) (length x) (S i))
        as (H1 & H2 & H3 & H4); [lia |].
      set (a := SciPy.plateau_ahead (length x) x i (S i) (length x - 1)) in *.
      destruct (Qlt_bool (SciPy.at_ x a) (SciPy.at_ x i)) eqn:Efall.
      * destruct (Nat.eq_dec l i) as [-> | Hne].
        -- left. pose proof (plateau_right_edge x i r Hp) as Ha. simpl in Ha.
           fold a in Ha. rewrite Ha.
           replace (r + 1 - 1)%nat with r by lia. reflexivity.
        -- right. apply IH; [lia | lia | exact Hp |].
           destruct (Nat.le_gt_cases l a) as [Hla | Hla]; [| lia].
           exfalso. apply (plateau_not_inside x i a l r); try lia; try assumption.
           ++ intros k Hk. destruct (Nat.eq_dec k i) as [-> | Hki]; [reflexivity |].
              apply H3. lia.
           ++ apply Qlt_bool_true. exact Efall.
      * destruct (Nat.eq_dec l i) as [-> | Hne].
        -- exfalso. pose proof (plateau_right_edge x i r Hp) as Ha. simpl in Ha.
           fold a in Ha. apply Qlt_bool_false in Efall.
           destruct Hp as (_ & _ & _ & _ & _ & Hfall). rewrite Ha in Efall. lra.
        -- apply IH; [lia | lia | exact Hp | lia].
    + destruct (Nat.eq_dec l i) as [-> | Hne].
      * exfalso. apply Qlt_bool_false in Erise.
        destruct Hp as (_ & _ & _ & Hrise & _). lra.
      * apply IH; [lia | lia | exact Hp | lia].
Qed.

(** [_local_maxima_1d] returns exactly the plateau midpoints. *)
Lemma local_maxima_1d_spec (x : list Q) (m : nat) :
  In m (SciPy.local_maxima_1d x) <-> SciPy.plateau_midpoint x m.
Proof.
  unfold SciPy.local_maxima_1d, SciPy.plateau_midpoint. split.
  - intros H. apply local_maxima_loop_sound in H; [| lia].
    destruct H as (l & r & Hp & _ & Hm). eauto.
  - intros (l & r & Hp & ->).
    apply local_maxima_loop_complete; try lia; [exact Hp |].
    destruct Hp as (? & _). lia.
Qed.

Lemma plateau_midpoint_range (x : list Q) (m : nat) :
  SciPy.plateau_midpoint x m -> (1 <= m)%nat /\ (m + 1 < length x)%nat.
Proof.
  intros (l & r & (Hl & Hlr & Hr & _) & ->).
  split.
  - apply (Nat.div_le_lower_bound (l + r) 2 1); lia.
  - assert ((l + r) / 2 <= r)%nat; [| lia].
    apply Nat.Div0.div_le_upper_bound; lia.
Qed.

(** The midpoints come out in strictly increasing order. *)
Lemma local_maxima_loop_sorted (x : list Q) (fuel i : nat) :
  (1 <= i)%nat ->
  StronglySorted lt (SciPy.local_maxima_loop fuel x i (length x - 1)).
Proof.
  revert i. induction fuel as [| fuel IH]; intros i Hi; cbn [SciPy.local_maxima_loop].
  - constructor.
  - destruct (Nat.ltb_spec i (length x - 1)) as [Hlt | Hge]; [| constructor].
    destruct (Qlt_bool (SciPy.at_ x (i - 1)) (SciPy.at_ x i)); [| apply IH; lia].
    destruct (plateau_ahead_spec x i (length x - 1) (length x) (S i))
      as (H1 & H2 & _); [lia |].
    set (a := SciPy.plateau_ahead (length x) x i (S i) (length x - 1)) in *.
    destruct (Qlt_bool (SciPy.at_ x a) (SciPy.at_ x i)); [| apply IH; lia].
    constructor; [apply IH; lia |].
    apply List.Forall_forall. intros m Hm.
    apply local_maxima_loop_sound in Hm; [| lia].
    destruct Hm as (l & r & (_ & Hlr & _) & Hl & ->).
    assert ((i + (a - 1)) / 2 <= a - 1)%nat by (apply Nat.Div0.div_le_upper_bound; lia).
    assert (l <= (l + r) / 2)%nat by (apply Nat.div_le_lower_bound; lia).
    lia.
Qed.

Lemma local_maxima_1d_sorted (x : list Q) :
  StronglySorted lt (SciPy.local_maxima_1d x).
Proof. apply local_maxima_loop_sorted. lia. Qed.


(** ** What [find_peaks] returns lies inside the array *)

Lemma mask_In (peaks : list nat) (keep : list bool) (p : nat) :
  In p (SciPy.mask peaks keep) -> In p peaks.
Proof.
  revert keep. induction peaks as [| q peaks IH]; intros keep H; simpl in H.
  - contradiction.
  - destruct keep as [| b keep]; [contradiction |].
    destruct b.
    + destruct H as [-> | H]; [left; reflexivity | right; eauto].
    + right; eauto.
Qed.

Lemma find_peaks_in_range (x : list Q) (height : Q) (distance : Z) (peaks : list nat) :
  SciPy.find_peaks x height distance = Returned peaks ->
  List.Forall (fun p => (p < length x)%nat) peaks.
Proof.
  unfold SciPy.find_peaks. destruct (distance <? 1)%Z; [discriminate |].
  intros H. injection H as <-.
  apply List.Forall_forall. intros p Hp.
  apply mask_In in Hp. unfold SciPy.select_by_height in Hp.
  apply List.filter_In in Hp. destruct Hp as [Hp _].
  apply local_maxima_1d_spec, plateau_midpoint_range in Hp. lia.
Qed.

Lemma find_peaks_raises (x : list Q) (height : Q) (distance : Z) (e : exn) :
  SciPy.find_peaks x height distance = Raised e -> (distance < 1)%Z.
Proof.
  unfold SciPy.find_peaks. destruct (Z.ltb_spec distance 1); [lia | discriminate].
Qed.

(** ** The peak loop of [process_batch] *)

Lemma same_settings_refl (d : SwingDetector) : same_settings d d.
Proof. unfold same_settings. repeat split. Qed.

Lemma same_settings_trans (d1 d2 d3 : SwingDetector) :
  same_settings d1 d2 -> same_settings d2 d3 -> same_settings d1 d3.
Proof.
  unfold same_settings. intros (?&?&?&?&?&?) (?&?&?&?&?&?).
  repeat split; congruence.
Qed.

Lemma last_cons_default {A : Type} (q : A) (ts : list A) (a b : A) :
  List.last (q :: ts) a = List.last (q :: ts) b.
Proof.
  revert q. induction ts as [| t ts IH]; intros q; [reflexivity |].
  change (List.last (q :: t :: ts) a) with (List.last (t :: ts) a).
  change (List.last (q :: t :: ts) b) with (List.last (t :: ts) b).
  apply IH.
Qed.

Lemma last_app_default {A : Type} (ts us : list A) (prev : A) :
  List.last (ts ++ us) prev = List.last us (List.last ts prev).
Proof.
  revert prev. induction ts as [| t ts IH]; intros prev.
  - reflexivity.
  - destruct ts as [| t' ts].
    + destruct us as [| u us]; [reflexivity |].
      change (List.last ([t] ++ u :: us) prev) with (List.last (u :: us) prev).
      apply last_cons_default.
    + change (List.last ((t :: t' :: ts) ++ us) prev)
        with (List.last ((t' :: ts) ++ us) prev).
      rewrite IH. reflexivity.
Qed.

(** The peak loop, whether it returns or raises: [accepted] are the swings
    it built, each of which moved [last_peak_timestamp] and was counted.
    With the indices inside the buffer the loop returns them, or raises on
    an acceleration that overflows. *)
Lemma filter_peaks_spec (peaks : list nat) (d : SwingDetector) (detected : list SwingPeak) :
  List.Forall (fun p => (p < length (buffer d))%nat) peaks ->
  exists d' o accepted,
    filter_peaks d peaks detected = (d', o) /\
    (o = Returned (detected ++ accepted) \/ o = Raised pow_overflow) /\
    last_peak_timestamp d'
      = List.last (map peak_timestamp accepted) (last_peak_timestamp d) /\
    total_peaks_detected d' = (total_peaks_detected d + length accepted)%nat /\
    buffer d' = buffer d /\
    total_samples_processed d' = total_samples_processed d /\
    same_settings d d'.
Proof.
  revert d detected. induction peaks as [| p peaks IH]; intros d detected Hrange.
  - exists d, (Returned detected), []. simpl. rewrite app_nil_r.
    split; [reflexivity |]. split; [left; reflexivity |].
    repeat split; try reflexivity. lia.
  - inversion Hrange as [| ? ? Hp Hrest]; subst.
    cbn [filter_peaks].
    destruct (lookup_lt_is_Some_2 (buffer d) p Hp) as [s Hs]. rewrite Hs.
    destruct (too_close d (timestamp s)) eqn:Eclose; [apply IH; exact Hrest |].
    destruct (acceleration_overflows s).
    { exists d, (Raised pow_overflow), []. simpl.
      split; [reflexivity |]. split; [right; reflexivity |].
      repeat split; try reflexivity. lia. }
    destruct (IH (record_peak d (timestamp s)) (detected ++ [swing_peak_at p s]))
      as (d' & o & accepted & Hrun & Ho & Hlast & Hcount & Hbuf & Htot & Hset);
      [exact Hrest |].
    exists d', o, (swing_peak_at p s :: accepted). rewrite Hrun.
    split; [reflexivity |].
    split; [destruct Ho as [-> | ->]; [left; rewrite <- app_assoc | right]; reflexivity |].
    simpl in *.
    split; [rewrite Hlast; destruct (map peak_timestamp accepted);
            [reflexivity | apply last_cons_default] |].
    split; [lia |].
    split; [exact Hbuf |]. split; [exact Htot |].
    eapply same_settings_trans; [| exact Hset].
    unfold same_settings. repeat split.
Qed.

(** ** One call of [process_batch] *)

Lemma deque_extend_app {A : Type} (maxlen : nat) (dq a b : list A) :
  deque_extend maxlen (deque_extend maxlen dq a) b = deque_extend maxlen dq (a ++ b).
Proof. unfold deque_extend. rewrite fold_left_app. reflexivity. Qed.

Lemma add_samples_nil (d : SwingDetector) : add_samples d [] = d.
Proof.
  destruct d. unfold add_samples, deque_extend. simpl.
  rewrite Nat.add_0_r. reflexivity.
Qed.

(** One call, whether it returns or raises: the batch is in the buffer and
    counted, the settings are kept, and the peak bookkeeping has moved by
    the swings [accepted], which are the swings returned when the call
    returns. *)
Lemma process_batch_spec (d : SwingDetector) (samples : list SensorSample) :
  exists d' o accepted,
    process_batch d samples = (d', o) /\
    (o = Returned accepted \/ exists e, o = Raised e) /\
    last_peak_timestamp d'
      = List.last (map peak_timestamp accepted) (last_peak_timestamp d) /\
    total_peaks_detected d' = (total_peaks_detected d + length accepted)%nat /\
    buffer d' = deque_extend (buffer_size d) (buffer d) samples /\
    total_samples_processed d' = (total_samples_processed d + length samples)%nat /\
    same_settings d d'.
Proof.
  destruct samples as [| s0 samples].
  - exists d, (Returned []), []. simpl.
    split; [reflexivity |]. split; [left; reflexivity |].
    repeat split; try reflexivity; lia.
  - unfold process_batch.
    set (d1 := add_samples d (s0 :: samples)).
    assert (Hset1 : same_settings d d1) by (unfold same_settings; repeat split).
    destruct (Z.of_nat (length (buffer d1)) <? min_distance d1 * 2)%Z.
    { exists d1, (Returned []), []. simpl.
      split; [reflexivity |]. split; [left; reflexivity |].
      repeat split; try reflexivity; lia. }
    destruct (existsb rotation_overflows (buffer d1)).
    { exists d1, (Raised pow_overflow), []. simpl.
      split; [reflexivity |]. split; [right; eauto |].
      repeat split; try reflexivity; lia. }
    destruct (SciPy.find_peaks (map rotation_magnitude (buffer d1)) (threshold d1)
                               (min_distance d1)) as [peaks | e] eqn:Efp.
    + apply find_peaks_in_range in Efp. rewrite length_map in Efp.
      destruct (filter_peaks_spec peaks d1 [] Efp)
        as (d' & o & accepted & Hrun & Ho & Hlast & Hcount & Hbuf & Htot & Hset).
      exists d', o, accepted.
      split; [exact Hrun |].
      split; [destruct Ho as [-> | ->]; [left; reflexivity | right; eauto] |].
      split; [exact Hlast |].
      split; [exact Hcount |]. split; [exact Hbuf |]. split; [exact Htot |].
      exact (same_settings_trans _ _ _ Hset1 Hset).
    + exists d1, (Raised e), []. simpl.
      split; [reflexivity |]. split; [right; eauto |].
      repeat split; try reflexivity; lia.
Qed.

(** ** Several calls in a row *)

(** [accepted] are the swings the calls accepted; those of a call that
    raised are not among the events handed to the caller. *)
Lemma ingest_all_spec (batches : list (list SensorSample)) (d : SwingDetector) :
  exists d' events accepted,
    ingest_all d batches = (d', events) /\
    (length events <= length accepted)%nat /\
    last_peak_timestamp d'
      = List.last (map peak_timestamp accepted) (last_peak_timestamp d) /\
    total_peaks_detected d' = (total_peaks_detected d + length accepted)%nat /\
    buffer d' = deque_extend (buffer_size d) (buffer d) (concat batches) /\
    total_samples_processed d'
      = (total_samples_processed d + length (concat batches))%nat /\
    same_settings d d'.
Proof.
  revert d. induction batches as [| b batches IH]; intros d.
  - exists d, [], []. simpl. repeat split; try reflexivity; lia.
  - destruct (process_batch_spec d b)
      as (d1 & o & accepted & Hrun & Ho & Hlast & Hcount & Hbuf & Htot & Hset).
    destruct (IH d1)
      as (d2 & events & accepted2 & Hrun2 & Hlen2 & Hlast2 & Hcount2 & Hbuf2 & Htot2 & Hset2).
    exists d2, (returned_events o ++ events), (accepted ++ accepted2).
    cbn [ingest_all]. rewrite Hrun, Hrun2.
    assert (Hs := Hset). destruct Hs as (Hbs & _ & _ & _ & Hmpi & _).
    split; [reflexivity |].
    split.
    { rewrite !length_app.
      destruct Ho as [-> | [e ->]]; simpl; lia. }
    rewrite map_app.
    split.
    { rewrite last_app_default, <- Hlast. exact Hlast2. }
    split; [rewrite length_app; lia |].
    split.
    { rewrite Hbuf2, Hbuf, Hbs. simpl. apply deque_extend_app. }
    split; [simpl; rewrite length_app; lia |].
    eapply same_settings_trans; eassumption.
Qed.

(** ** The claims on the detector *)

(** C3.  However the samples are appended to a new detector of capacity
    [capacity], the window never holds more than [capacity] samples and holds
    exactly the most recent [capacity] samples received, in arrival order
    (the oldest leave first); and on any detector an empty batch changes
    nothing and returns no event. *)
Theorem window_keeps_most_recent
        (capacity : nat) (threshold : Q) (min_distance : Z)
        (height_multiplier now : Q) (batches : list (list SensorSample)) :
  let d0 := SwingDetector_init capacity threshold min_distance height_multiplier now in
  let d := (ingest_all d0 batches).1 in
  (length (buffer d) <= capacity)%nat /\
  buffer d = last_n capacity (concat batches) /\
  (forall d' : SwingDetector, process_batch d' [] = (d', Returned [])).
Proof.
  intros d0 d.
  destruct (ingest_all_spec batches d0)
    as (d' & events & accepted & Hrun & _ & _ & _ & Hbuf & _).
  subst d. rewrite Hrun. simpl fst.
  rewrite Hbuf. simpl.
  rewrite deque_extend_last_n by (simpl; lia). simpl.
  split; [rewrite last_n_length; lia |].
  split; reflexivity.
Qed.

(** A window of capacity 3 holding 1, 2 and receiving 3, 4, 5. *)
Example window_evicts_oldest : deque_extend 3 [1; 2]%nat [3; 4; 5]%nat = [3; 4; 5]%nat.
Proof. reflexivity. Qed.

(** C7 (amended).  Take the detector reached from a new one by any
    batches, and a further batch.  The length test of [process_batch] comes
    after the append: when the window as it stands with the batch appended,
    the most recent [capacity] samples received, holds fewer than
    [2 * min_distance] samples, the call returns the empty list without
    raising; that window is the buffer afterwards, the samples of the
    batch are counted, and the peak bookkeeping is untouched. *)
Theorem insufficient_window_defers
        (capacity : nat) (threshold : Q) (min_distance : Z)
        (height_multiplier now : Q) (batches : list (list SensorSample))
        (samples : list SensorSample) :
  let d := (ingest_all (SwingDetector_init capacity threshold min_distance
                                           height_multiplier now) batches).1 in
  let window := last_n capacity (concat batches ++ samples) in
  (Z.of_nat (length window) < 2 * min_distance)%Z ->
  exists d',
    process_batch d samples = (d', Returned []) /\
    buffer d' = window /\
    total_samples_processed d' = (length (concat batches) + length samples)%nat /\
    total_peaks_detected d' = total_peaks_detected d /\
    last_peak_timestamp d' = last_peak_timestamp d.
Proof.
  intros d window Hshort.
  destruct (ingest_all_spec batches
              (SwingDetector_init capacity threshold min_distance height_multiplier now))
    as (d1 & events & accepted & Hrun & _ & _ & _ & Hbuf & Htot & Hset).
  assert (Hd : d = d1) by (subst d; rewrite Hrun; reflexivity).
  clearbody d. subst d1. clear Hrun.
  destruct Hset as (Hbs & _ & Hmd & _).
  simpl in Hbs, Hmd, Hbuf, Htot.
  rewrite deque_extend_last_n in Hbuf by (simpl; lia). simpl in Hbuf.
  assert (Hwin : deque_extend (buffer_size d) (buffer d) samples = window).
  { rewrite Hbs, Hbuf, deque_extend_last_n by (rewrite last_n_length; lia).
    apply last_n_app. }
  destruct samples as [| s0 samples].
  - exists d. simpl. rewrite <- Hwin. simpl.
    repeat split; try reflexivity. lia.
  - exists (add_samples d (s0 :: samples)). unfold process_batch.
    destruct (_ <? _)%Z eqn:Elen.
    + split; [reflexivity |]. split; [exact Hwin |].
      split; [simpl; rewrite Htot; reflexivity |]. split; reflexivity.
    + apply Z.ltb_ge in Elen. unfold add_samples in Elen. cbn [buffer] in Elen.
      rewrite Hwin in Elen. clearbody window. simpl in Elen.
      rewrite Hmd in Elen. lia.
Qed.

(** The gate of the peak loop.  A new detector has
    [last_peak_timestamp = 0.0] and [min_peak_interval = 0.5].  A candidate
    peak at buffer position [peak_idx] with timestamp [t] whose acceleration
    can be read is accepted exactly when the test
    [t - last_peak_timestamp < min_peak_interval] is false: it is then
    emitted and [last_peak_timestamp] becomes [t]; otherwise nothing is
    emitted and the detector is unchanged.  On finite timestamps the test is
    false exactly when the rounded difference reaches [min_peak_interval]. *)
Theorem debounce_gate (d : SwingDetector) (peak_idx : nat) (s : SensorSample) :
  buffer d !! peak_idx = Some s ->
  acceleration_overflows s = false ->
  (filter_peaks d [peak_idx] []
     = (record_peak d (timestamp s), Returned [swing_peak_at peak_idx s])
   <-> too_close d (timestamp s) = false) /\
  (filter_peaks d [peak_idx] [] = (d, Returned [])
   <-> too_close d (timestamp s) = true) /\
  last_peak_timestamp (record_peak d (timestamp s)) = timestamp s /\
  (forall t last : Q,
      timestamp s = Finite t -> last_peak_timestamp d = Finite last ->
      (too_close d (timestamp s) = false <-> min_peak_interval d <= fl (t - last))) /\
  (forall buffer_size threshold min_distance height_multiplier now,
      let d0 := SwingDetector_init buffer_size threshold min_distance
                                   height_multiplier now in
      last_peak_timestamp d0 = Finite 0 /\ min_peak_interval d0 = 1 # 2).
Proof.
  intros Hs Hacc. cbn [filter_peaks]. rewrite Hs, Hacc.
  assert (Hfin : forall t last : Q,
             timestamp s = Finite t -> last_peak_timestamp d = Finite last ->
             (too_close d (timestamp s) = false
              <-> min_peak_interval d <= fl (t - last))).
  { intros t last Ht Hl. unfold too_close. rewrite Ht, Hl. cbn [float_sub float_lt].
    apply Qlt_bool_false. }
  destruct (too_close d (timestamp s)) eqn:E.
  - split; [split; [discriminate | discriminate] |].
    split; [split; reflexivity |].
    split; [reflexivity |]. split; [exact Hfin | intros; split; reflexivity].
  - split; [split; reflexivity |].
    split; [split; [discriminate | discriminate] |].
    split; [reflexivity |]. split; [exact Hfin | intros; split; reflexivity].
Qed.

(** C2 (amended).  However a sample sequence is split into batches, the
    calls leave [total_samples_processed] raised by the sum of the batch
    sizes, and leave the same count, the same window and, the peak count
    apart, the same statistics as one call on the whole sequence. *)
Theorem batching_preserves_counts (d : SwingDetector) (batches : list (list SensorSample)) :
  let many := (ingest_all d batches).1 in
  let one := (process_batch d (concat batches)).1 in
  total_samples_processed many
    = (total_samples_processed d + list_sum (map (@length SensorSample) batches))%nat /\
  total_samples_processed one = total_samples_processed many /\
  buffer one = buffer many /\
  (forall now, without_peak_count (get_statistics one now)
               = without_peak_count (get_statistics many now)).
Proof.
  intros many one.
  destruct (ingest_all_spec batches d)
    as (d1 & events & accepted & Hrun & _ & _ & _ & Hbuf & Htot & Hset).
  destruct (process_batch_spec d (concat batches))
    as (d2 & o & accepted2 & Hrun2 & _ & _ & _ & Hbuf2 & Htot2 & Hset2).
  subst many one. rewrite Hrun, Hrun2. simpl fst.
  assert (Hlen : length (concat batches) = list_sum (map (@length SensorSample) batches)).
  { clear. induction batches as [| b batches IH]; [reflexivity |].
    simpl. rewrite length_app, IH. reflexivity. }
  destruct Hset as (Hbs & Hth & Hmd & _ & _ & Hst).
  destruct Hset2 as (Hbs2 & Hth2 & Hmd2 & _ & _ & Hst2).
  split; [rewrite Htot, Hlen; reflexivity |].
  split; [rewrite Htot, Htot2; reflexivity |].
  split; [rewrite Hbuf, Hbuf2; reflexivity |].
  intros now. unfold without_peak_count, get_statistics. simpl.
  rewrite Htot, Htot2, Hbuf, Hbuf2, Hbs, Hbs2, Hth, Hth2, Hmd, Hmd2, Hst, Hst2.
  reflexivity.
Qed.


(** ** The raw-buffer store *)




Lemma find_app_hit {A : Type} (f : A -> bool) (l : list A) (x : A) :
  f x = true -> exists y, List.find f (l ++ [x]) = Some y.
Proof.
  intros Hx. induction l as [| z l IH]; simpl.
  - rewrite Hx. eauto.
  - destruct (f z); eauto.
Qed.






(** ** The message loop *)

Lemma insert_shot_raw (db : Database) (shot_id session_id : string) (t : pyfloat)
      (n : nat) (rot acc speed : Q) (s : SensorSample) :
  raw_sensor_buffer (insert_shot db shot_id session_id t n rot acc speed s)
  = raw_sensor_buffer db.
Proof. unfold insert_shot. destruct (schema_admits_shot db _); reflexivity. Qed.

Lemma insert_shot_sessions (db : Database) (shot_id session_id : string) (t : pyfloat)
      (n : nat) (rot acc speed : Q) (s : SensorSample) :
  sessions (insert_shot db shot_id session_id t n rot acc speed s) = sessions db.
Proof. unfold insert_shot. destruct (schema_admits_shot db _); reflexivity. Qed.

(** The loop that stores and sends the swings of a batch: it handles the
    peaks in order up to the first whose shot id cannot be made, [done]
    being those handled; each of them is sent, and stored when the schema
    admits the row; nothing else in the database changes. *)
Lemma send_swings_spec (peaks : list SwingPeak) (db : Database) (session_id : string)
      (detector : SwingDetector) :
  exists db' sent result done rest new,
    send_swings db session_id detector peaks = (db', sent, result) /\
    peaks = done ++ rest /\
    Forall2 (fun peak response =>
               exists shot_id,
                 format_shot_id (peak_timestamp peak) (total_peaks_detected detector)
                 = Returned shot_id /\
                 response = SwingDetected session_id (swing_data_of shot_id peak))
            done sent /\
    (result = Returned tt /\ rest = [] \/
     exists e peak rest',
       result = Raised e /\ rest = peak :: rest' /\
       format_shot_id (peak_timestamp peak) (total_peaks_detected detector) = Raised e) /\
    sessions db' = sessions db /\
    raw_sensor_buffer db' = raw_sensor_buffer db /\
    shots db' = shots db ++ new /\
    (length new <= length done)%nat /\
    List.Forall (fun row => shot_sequence_number row = total_peaks_detected detector
                            /\ shot_session_id row = session_id) new.
Proof.
  revert db. induction peaks as [| peak peaks IH]; intros db.
  - exists db, [], (Returned tt), [], [], []. simpl. rewrite app_nil_r.
    split; [reflexivity |]. split; [reflexivity |]. split; [constructor |].
    split; [left; split; reflexivity |].
    repeat split; try reflexivity; constructor.
  - cbn [send_swings].
    destruct (format_shot_id (peak_timestamp peak) (total_peaks_detected detector))
      as [shot_id | e] eqn:Eid.
    + set (db1 := insert_shot db shot_id session_id _ _ _ _ _ _).
      destruct (IH db1)
        as (db' & sent & result & done & rest & new & Hrun & Hsplit & Hsent & Hres
            & Hses & Hraw & Hshots & Hlen & Hrows).
      rewrite Hrun.
      assert (Hdb1 : exists new1, shots db1 = shots db ++ new1 /\ (length new1 <= 1)%nat /\
                       List.Forall (fun row =>
                                      shot_sequence_number row = total_peaks_detected detector
                                      /\ shot_session_id row = session_id) new1).
      { subst db1. unfold insert_shot. destruct (schema_admits_shot db _).
        - eexists [_]. simpl. split; [reflexivity |]. split; [lia |].
          constructor; [split; reflexivity | constructor].
        - exists []. simpl. rewrite app_nil_r. split; [reflexivity |].
          split; [lia | constructor]. }
      destruct Hdb1 as (new1 & Hshots1 & Hlen1 & Hrows1).
      exists db', (SwingDetected session_id (swing_data_of shot_id peak) :: sent),
             result, (peak :: done), rest, (new1 ++ new).
      split; [reflexivity |]. split; [rewrite Hsplit; reflexivity |].
      split; [constructor; [exists shot_id; split; [exact Eid | reflexivity] | exact Hsent] |].
      split; [exact Hres |].
      split; [rewrite Hses; apply insert_shot_sessions |].
      split; [rewrite Hraw; apply insert_shot_raw |].
      split; [rewrite Hshots, Hshots1, app_assoc; reflexivity |].
      split; [rewrite length_app; simpl; lia |].
      apply List.Forall_app. split; assumption.
    + exists db, [], (Raised e), [], (peak :: peaks), []. simpl. rewrite app_nil_r.
      split; [reflexivity |]. split; [reflexivity |]. split; [constructor |].
      split; [right; exists e, peak, peaks; split; [reflexivity |]; split; [reflexivity | exact Eid] |].
      repeat split; try reflexivity; constructor.
Qed.

Lemma send_swings_raw (peaks : list SwingPeak) (db : Database) (session_id : string)
      (detector : SwingDetector) :
  raw_sensor_buffer (send_swings db session_id detector peaks).1.1 = raw_sensor_buffer db.
Proof.
  destruct (send_swings_spec peaks db session_id detector)
    as (db' & sent & result & done & rest & new & Hrun & _ & _ & _ & _ & Hraw & _).
  rewrite Hrun. exact Hraw.
Qed.

Lemma sample_dict_roundtrip (samples : list SensorSampleModel) :
  map to_sample_dict (map to_sensor_sample samples) = samples.
Proof.
  induction samples as [| m samples IH]; [reflexivity |].
  simpl. rewrite IH. destruct m. reflexivity.
Qed.

(** What the sensor-batch branch does with real-time detection disabled:
    it sends nothing to the caller and hands the raw samples to
    [insert_raw_sensor_buffer] exactly as with detection enabled; the
    detector is not run: the session keeps the detector it had, buffer and
    counters untouched (a session first seen gets a new, empty detector),
    and no other session changes. *)
Theorem disabled_detection_only_stores
        (env : Env) (srv : Server) (session_id device : string)
        (samples : list SensorSampleModel) :
  let off := websocket_step ENABLE_REALTIME_SWING_DETECTION env srv
                            (SensorBatch session_id device samples) in
  let on := websocket_step true env srv (SensorBatch session_id device samples) in
  off.2 = [] /\
  database off.1
    = insert_raw_sensor_buffer (database srv) (uuid4_hex12 env) session_id samples /\
  raw_sensor_buffer (database on.1) = raw_sensor_buffer (database off.1) /\
  active_sessions off.1 !! session_id
    = Some (default (SwingDetector_default (time_time env))
                    (active_sessions srv !! session_id)) /\
  (forall other, other <> session_id ->
                 active_sessions off.1 !! other = active_sessions srv !! other).
Proof.
  intros off on. subst off on.
  unfold ENABLE_REALTIME_SWING_DETECTION. cbn [websocket_step].
  rewrite sample_dict_roundtrip.
  split; [reflexivity |]. split; [reflexivity |].
  split.
  { destruct (process_batch _ _) as [detector' result].
    destruct result as [detected | e]; [| reflexivity].
    destruct (send_swings _ session_id detector' detected) as [[db' sent] sending] eqn:E.
    cbn [fst database].
    change db' with (db', sent, sending).1.1. rewrite <- E. apply send_swings_raw. }
  split.
  { cbn [fst active_sessions]. rewrite lookup_insert_eq.
    destruct (active_sessions srv !! session_id); reflexivity. }
  intros other Hother. cbn [fst active_sessions].
  rewrite lookup_insert_ne by congruence. reflexivity.
Qed.

(** C5 (amended).  A [session_start] with a non-empty id always puts a new
    detector under that id, whether or not the id is already active: an
    existing controller is replaced by an empty one created at the time of
    the second start (last writer wins); the other sessions are unchanged
    and the start is acknowledged. *)
Theorem session_start_replaces
        (realtime : bool) (env : Env) (srv : Server) (sid device : string) :
  sid <> EmptyString ->
  let after := websocket_step realtime env srv (SessionStart (Some sid) device) in
  active_sessions after.1 !! sid = Some (SwingDetector_init 300 2 50 1 (time_time env)) /\
  (forall other, other <> sid ->
                 active_sessions after.1 !! other = active_sessions srv !! other) /\
  current_session_id after.1 = Some sid /\
  after.2 = [SessionStarted sid (String.append "Session " (String.append sid " started"))].
Proof.
  intros Hsid after. subst after. cbn [websocket_step falsy].
  destruct (String.eqb_spec sid EmptyString) as [-> | _]; [congruence |].
  cbn [fst snd active_sessions current_session_id].
  split; [apply lookup_insert_eq |].
  split; [| split; reflexivity].
  intros other Hother. rewrite lookup_insert_ne by congruence. reflexivity.
Qed.

(** C6 (amended).  A [session_end] for an id that is not active (never
    started, already ended, or absent from the message) sends nothing to
    the caller, does not fail, and leaves the registry, the database and the
    connection state as they were. *)
Theorem session_end_unknown_is_silent
        (realtime : bool) (env : Env) (srv : Server) (sid : string) :
  active_sessions srv !! sid = None ->
  websocket_step realtime env srv (SessionEnd (Some sid)) = (srv, []) /\
  websocket_step realtime env srv (SessionEnd None) = (srv, []) /\
  (forall (env0 : Env) (srv0 : Server),
      let ended := (websocket_step realtime env0 srv0 (SessionEnd (Some sid))).1 in
      websocket_step realtime env ended (SessionEnd (Some sid)) = (ended, [])).
Proof.
  intros Hnone. cbn [websocket_step]. rewrite Hnone.
  split; [reflexivity |]. split; [reflexivity |].
  intros env0 srv0.
  destruct (active_sessions srv0 !! sid) as [detector |] eqn:E.
  - cbn [fst active_sessions]. rewrite lookup_delete_eq. reflexivity.
  - cbn [fst]. rewrite E. reflexivity.
Qed.


(** ** Suppression by distance in scipy *)

Lemma flag_insert_false (keep : list bool) (i k : nat) :
  flag (<[i:=false]> keep) k = flag keep k && negb (k =? i)%nat.
Proof.
  unfold flag. revert i k. induction keep as [| b keep IH]; intros i k.
  - simpl. destruct k; reflexivity.
  - destruct i as [| i]; destruct k as [| k]; simpl.
    + rewrite andb_false_r. reflexivity.
    + rewrite andb_true_r. reflexivity.
    + rewrite andb_true_r. reflexivity.
    + apply IH.
Qed.

Lemma flag_lookup (keep : list bool) (j : nat) :
  keep !! j = Some true <-> flag keep j = true.
Proof.
  unfold flag. revert j. induction keep as [| b keep IH]; intros j.
  - destruct j; simpl; split; discriminate.
  - destruct j as [| j]; simpl.
    + split; [intros [= ->]; reflexivity | intros ->; reflexivity].
    + apply IH.
Qed.

Lemma flag_replicate (n k : nat) : flag (replicate n true) k = (k <? n)%nat.
Proof.
  unfold flag. revert k. induction n as [| n IH]; intros k.
  - destruct k; reflexivity.
  - destruct k as [| k]; [reflexivity |]. simpl replicate. simpl nth.
    rewrite IH. reflexivity.
Qed.

(** Strictly increasing peak positions. *)
Lemma sorted_peak_at (peaks : list nat) (k1 k2 : nat) :
  StronglySorted lt peaks -> (k1 < k2)%nat -> (k2 < length peaks)%nat ->
  (SciPy.peak_at peaks k1 < SciPy.peak_at peaks k2)%Z.
Proof.
  unfold SciPy.peak_at. intros Hs. revert k1 k2.
  induction Hs as [| p peaks Hs IH Hall]; intros k1 k2 Hlt Hlen; simpl in Hlen.
  - lia.
  - destruct k2 as [| k2]; [lia |]. destruct k1 as [| k1]; simpl.
    + rewrite List.Forall_forall in Hall.
      assert (p < nth k2 peaks O)%nat by (apply Hall, nth_In; lia). lia.
    + apply IH; lia.
Qed.

Lemma mark_left_spec (peaks : list nat) (distance_ : Z) (j cnt : nat)
      (keep : list bool) (k : nat) :
  StronglySorted lt peaks -> (cnt <= j)%nat -> (j < length peaks)%nat ->
  flag (SciPy.mark_left peaks distance_ j cnt keep) k
  = flag keep k
    && negb ((k <? cnt)%nat
             && (SciPy.peak_at peaks j - SciPy.peak_at peaks k <? distance_)%Z).
Proof.
  intros Hs. revert keep. induction cnt as [| c IH]; intros keep Hc Hj; simpl.
  - rewrite andb_true_r. reflexivity.
  - destruct (Z.ltb_spec (SciPy.peak_at peaks j - SciPy.peak_at peaks c) distance_)
      as [Hnear | Hfar].
    + rewrite IH by lia. rewrite flag_insert_false.
      destruct (Nat.eqb_spec k c) as [-> | Hne].
      * rewrite !andb_false_r. simpl.
        destruct (Nat.ltb_spec c (S c)); [| lia].
        destruct (Z.ltb_spec (SciPy.peak_at peaks j - SciPy.peak_at peaks c) distance_);
          [| lia].
        simpl. rewrite andb_false_r. reflexivity.
      * rewrite andb_true_r.
        destruct (Nat.ltb_spec k c), (Nat.ltb_spec k (S c)); try lia; reflexivity.
    + destruct (Nat.ltb_spec k (S c)) as [Hk | Hk]; simpl;
        [| rewrite andb_true_r; reflexivity].
      destruct (Z.ltb_spec (SciPy.peak_at peaks j - SciPy.peak_at peaks k) distance_)
        as [Hk' | _]; [| rewrite andb_true_r; reflexivity].
      exfalso. destruct (Nat.eq_dec k c) as [-> | Hne]; [lia |].
      pose proof (sorted_peak_at peaks k c Hs ltac:(lia) ltac:(lia)). lia.
Qed.

Lemma mark_right_spec (peaks : list nat) (distance_ : Z) (j : nat)
      (fuel k0 : nat) (keep : list bool) (k : nat) :
  StronglySorted lt peaks -> (j < k0)%nat -> (length peaks - k0 <= fuel)%nat ->
  flag (SciPy.mark_right fuel peaks distance_ j k0 keep) k
  = flag keep k
    && negb ((k0 <=? k)%nat && (k <? length peaks)%nat
             && (SciPy.peak_at peaks k - SciPy.peak_at peaks j <? distance_)%Z).
Proof.
  intros Hs. revert k0 keep. induction fuel as [| fuel IH]; intros k0 keep Hj Hfuel; simpl.
  - destruct (Nat.leb_spec k0 k), (Nat.ltb_spec k (length peaks)); try lia;
      simpl; rewrite andb_true_r; reflexivity.
  - destruct (Nat.ltb_spec k0 (length peaks)) as [Hin | Hout]; simpl.
    + destruct (Z.ltb_spec (SciPy.peak_at peaks k0 - SciPy.peak_at peaks j) distance_)
        as [Hnear | Hfar].
      * rewrite IH by lia. rewrite flag_insert_false.
        destruct (Nat.eqb_spec k k0) as [-> | Hne].
        -- rewrite !andb_false_r. simpl.
           destruct (Nat.leb_spec k0 k0); [| lia].
           destruct (Nat.ltb_spec k0 (length peaks)); [| lia].
           destruct (Z.ltb_spec (SciPy.peak_at peaks k0 - SciPy.peak_at peaks j) distance_);
             [| lia].
           simpl. rewrite andb_false_r. reflexivity.
        -- rewrite andb_true_r.
           destruct (Nat.leb_spec (S k0) k), (Nat.leb_spec k0 k); try lia; reflexivity.
      * destruct (Nat.leb_spec k0 k) as [Hk | Hk]; simpl;
          [| rewrite andb_true_r; reflexivity].
        destruct (Nat.ltb_spec k (length peaks)) as [Hk2 | Hk2]; simpl;
          [| rewrite andb_true_r; reflexivity].
        destruct (Z.ltb_spec (SciPy.peak_at peaks k - SciPy.peak_at peaks j) distance_)
          as [Hk' | _]; [| rewrite andb_true_r; reflexivity].
        exfalso. destruct (Nat.eq_dec k k0) as [-> | Hne]; [lia |].
        pose proof (sorted_peak_at peaks k0 k Hs ltac:(lia) ltac:(lia)). lia.
    + destruct (Nat.leb_spec k0 k), (Nat.ltb_spec k (length peaks)); try lia;
        simpl; rewrite andb_true_r; reflexivity.
Qed.

(** One pass of the priority loop: a kept peak drops every other peak
    closer than [distance_]; a dropped one changes nothing. *)
Lemma suppress_around_spec (peaks : list nat) (distance_ : Z)
      (keep : list bool) (j k : nat) :
  StronglySorted lt peaks -> (j < length peaks)%nat ->
  flag (SciPy.suppress_around peaks distance_ keep j) k
  = if flag keep j then flag keep k && negb (near peaks distance_ j k)
    else flag keep k.
Proof.
  intros Hs Hj. unfold SciPy.suppress_around.
  destruct (flag keep j) eqn:Ej.
  - apply flag_lookup in Ej. rewrite Ej.
    rewrite mark_right_spec by (try assumption; lia).
    rewrite mark_left_spec by (try assumption; lia).
    rewrite <- andb_assoc. f_equal. unfold near.
    destruct (Nat.lt_trichotomy k j) as [Hlt | [-> | Hgt]].
    + pose proof (sorted_peak_at peaks k j Hs Hlt Hj).
      destruct (Nat.ltb_spec k j); [| lia].
      destruct (Nat.leb_spec (S j) k); [lia |].
      destruct (Nat.eqb_spec k j); [lia |].
      destruct (Nat.ltb_spec k (length peaks)); [| lia]. simpl.
      rewrite andb_true_r. f_equal.
      replace (Z.abs (SciPy.peak_at peaks k - SciPy.peak_at peaks j))
        with (SciPy.peak_at peaks j - SciPy.peak_at peaks k)%Z by lia.
      reflexivity.
    + rewrite Nat.ltb_irrefl, Nat.eqb_refl.
      destruct (Nat.leb_spec (S j) j); [lia |]. reflexivity.
    + destruct (Nat.ltb_spec k j); [lia |].
      destruct (Nat.leb_spec (S j) k); [| lia].
      destruct (Nat.eqb_spec k j); [lia |]. simpl.
      destruct (Nat.ltb_spec k (length peaks)) as [Hk | Hk]; [| reflexivity]. simpl.
      pose proof (sorted_peak_at peaks j k Hs Hgt Hk).
      replace (Z.abs (SciPy.peak_at peaks k - SciPy.peak_at peaks j))
        with (SciPy.peak_at peaks k - SciPy.peak_at peaks j)%Z by lia.
      reflexivity.
  - destruct (keep !! j) as [[|] |] eqn:E; try reflexivity.
    apply flag_lookup in E. congruence.
Qed.


Lemma sorted_nth_inj (peaks : list nat) (k1 k2 : nat) :
  StronglySorted lt peaks -> (k1 < length peaks)%nat -> (k2 < length peaks)%nat ->
  nth k1 peaks O = nth k2 peaks O -> k1 = k2.
Proof.
  intros Hs H1 H2 Heq.
  destruct (Nat.lt_trichotomy k1 k2) as [Hlt | [-> | Hgt]]; [| reflexivity |].
  - pose proof (sorted_peak_at peaks k1 k2 Hs Hlt H2) as H.
    unfold SciPy.peak_at in H. lia.
  - pose proof (sorted_peak_at peaks k2 k1 Hs Hgt H1) as H.
    unfold SciPy.peak_at in H. lia.
Qed.

Lemma closer_than_sym (distance_ : Z) (p a : nat) :
  closer_than distance_ p a = closer_than distance_ a p.
Proof.
  unfold closer_than.
  replace (Z.abs (Z.of_nat a - Z.of_nat p)) with (Z.abs (Z.of_nat p - Z.of_nat a)) by lia.
  reflexivity.
Qed.

Lemma invariant_in_range (peaks : list nat) (distance_ : Z) (done : list nat)
      (keep : list bool) (accepted : list nat) (k : nat) :
  loop_invariant peaks distance_ done keep accepted ->
  flag keep k = true -> (k < length peaks)%nat.
Proof.
  intros (H1 & _) Hk. rewrite H1 in Hk.
  apply andb_true_iff in Hk. destruct Hk as [Hk _].
  apply Nat.ltb_lt. exact Hk.
Qed.

(** One pass keeps the invariant, the specification's scan taking the same
    decision on the peak at [j]. *)
Lemma loop_invariant_step (peaks : list nat) (distance_ : Z) (done : list nat)
      (keep : list bool) (accepted : list nat) (j : nat) :
  StronglySorted lt peaks -> (j < length peaks)%nat -> ~ In j done ->
  loop_invariant peaks distance_ done keep accepted ->
  loop_invariant peaks distance_ (done ++ [j])
                 (SciPy.suppress_around peaks distance_ keep j)
                 (if existsb (closer_than distance_ (nth j peaks O)) accepted
                  then accepted else nth j peaks O :: accepted).
Proof.
  intros Hs Hj Hfresh Hinv.
  assert (Hinv' := Hinv). destruct Hinv' as (H1 & H2 & H3).
  assert (Hother : forall a, In a accepted -> a <> nth j peaks O).
  { intros a Ha Heq. destruct (H3 a Ha) as (k & Hk & Hka & Hkf).
    assert (k = j); [| congruence].
    apply (sorted_nth_inj peaks); try assumption; [| congruence].
    eapply invariant_in_range; eassumption. }
  assert (Hsame : existsb (closer_than distance_ (nth j peaks O)) accepted
                  = blocked distance_ accepted (nth j peaks O)).
  { unfold blocked. clear -Hother.
    induction accepted as [| a accepted IH]; [reflexivity |]. simpl.
    rewrite IH by (intros b Hb; apply Hother; right; exact Hb).
    destruct (Nat.eqb_spec a (nth j peaks O)) as [Ha | _]; [| reflexivity].
    exfalso. apply (Hother a); [left; reflexivity | exact Ha]. }
  assert (Hflag : flag keep j = negb (blocked distance_ accepted (nth j peaks O))).
  { rewrite H1. destruct (Nat.ltb_spec j (length peaks)); [reflexivity | lia]. }
  rewrite Hsame.
  destruct (blocked distance_ accepted (nth j peaks O)) eqn:Eb; simpl in Hflag.
  - (* the peak at j was dropped earlier *)
    assert (Hk : forall k, flag (SciPy.suppress_around peaks distance_ keep j) k
                           = flag keep k).
    { intros k. rewrite suppress_around_spec by assumption. rewrite Hflag. reflexivity. }
    split; [intros k; rewrite Hk; apply H1 |].
    split.
    + intros j' Hj' Hf. rewrite Hk in Hf. apply in_app_or in Hj'.
      destruct Hj' as [Hj' | [<- | []]]; [apply H2; assumption | congruence].
    + intros a Ha. destruct (H3 a Ha) as (k & Hkd & Hka & Hkf).
      exists k. rewrite Hk. split; [apply in_or_app; left; exact Hkd | split; assumption].
  - (* the peak at j is kept and drops its neighbours *)
    assert (Hk : forall k, flag (SciPy.suppress_around peaks distance_ keep j) k
                           = flag keep k && negb (near peaks distance_ j k)).
    { intros k. rewrite suppress_around_spec by assumption. rewrite Hflag. reflexivity. }
    assert (Hnear : forall k, (k < length peaks)%nat ->
                              near peaks distance_ j k
                              = negb (nth j peaks O =? nth k peaks O)%nat
                                && closer_than distance_ (nth k peaks O) (nth j peaks O)).
    { intros k Hklt. unfold near, closer_than, SciPy.peak_at.
      destruct (Nat.ltb_spec k (length peaks)); [| lia]. rewrite andb_true_r.
      f_equal. f_equal.
      destruct (Nat.eqb_spec k j) as [-> | Hne].
      - rewrite Nat.eqb_refl. reflexivity.
      - destruct (Nat.eqb_spec (nth j peaks O) (nth k peaks O)) as [Heq | _];
          [| reflexivity].
        exfalso. apply Hne. symmetry. apply (sorted_nth_inj peaks); assumption. }
    split.
    + intros k. rewrite Hk, H1. unfold blocked at 2. simpl.
      fold (blocked distance_ accepted (nth k peaks O)).
      destruct (Nat.ltb_spec k (length peaks)) as [Hklt | _]; [| reflexivity].
      rewrite (Hnear k Hklt). simpl. rewrite negb_orb. apply andb_comm.
    + split.
      * intros j' Hj' Hf. rewrite Hk in Hf. apply andb_true_iff in Hf.
        destruct Hf as [Hf _]. apply in_app_or in Hj'.
        destruct Hj' as [Hj' | [<- | []]]; [right; apply H2; assumption | left; reflexivity].
      * intros a [<- | Ha].
        -- exists j. rewrite Hk, Hflag. unfold near. rewrite Nat.eqb_refl.
           split; [apply in_or_app; right; left; reflexivity | split; reflexivity].
        -- destruct (H3 a Ha) as (k & Hkd & Hka & Hkf).
           exists k. rewrite Hk, Hkf.
           split; [apply in_or_app; left; exact Hkd | split; [exact Hka |]].
           assert (Hklt : (k < length peaks)%nat)
             by (eapply invariant_in_range; eassumption).
           rewrite (Hnear k Hklt), Hka.
           rewrite closer_than_sym.
           rewrite <- Hsame in Eb.
           assert (Hc : closer_than distance_ (nth j peaks O) a = false).
           { destruct (closer_than distance_ (nth j peaks O) a) eqn:Ec; [| reflexivity].
             assert (Hex : existsb (closer_than distance_ (nth j peaks O)) accepted = true)
               by (apply existsb_exists; exists a; split; assumption).
             congruence. }
           rewrite Hc, andb_false_r. reflexivity.
Qed.

(** The whole loop against the scan of the specification. *)
Lemma loop_invariant_fold (peaks : list nat) (distance_ : Z) (todo : list nat) :
  StronglySorted lt peaks ->
  forall (done : list nat) (keep : list bool) (accepted : list nat),
    List.NoDup (done ++ todo) ->
    (forall j, In j todo -> (j < length peaks)%nat) ->
    loop_invariant peaks distance_ done keep accepted ->
    loop_invariant peaks distance_ (done ++ todo)
                   (fold_left (SciPy.suppress_around peaks distance_) todo keep)
                   (accept_in_order distance_ (map (fun j => nth j peaks O) todo) accepted).
Proof.
  intros Hs. induction todo as [| j todo IH]; intros done keep accepted Hnd Hrange Hinv.
  - rewrite app_nil_r. exact Hinv.
  - cbn [fold_left map accept_in_order].
    assert (Hfresh : ~ In j done).
    { intros Hin. apply NoDup_remove_2 in Hnd. apply Hnd.
      apply in_or_app. left. exact Hin. }
    pose proof (loop_invariant_step peaks distance_ done keep accepted j Hs
                  (Hrange j (or_introl eq_refl)) Hfresh Hinv) as Hstep.
    replace (done ++ j :: todo) with ((done ++ [j]) ++ todo) in *
      by (rewrite <- app_assoc; reflexivity).
    destruct (existsb (closer_than distance_ (nth j peaks O)) accepted);
      apply IH; try assumption; intros j' Hj'; apply Hrange; right; exact Hj'.
Qed.

Lemma loop_invariant_init (peaks : list nat) (distance_ : Z) :
  loop_invariant peaks distance_ [] (replicate (length peaks) true) [].
Proof.
  split; [| split].
  - intros k. rewrite flag_replicate. unfold blocked. simpl.
    rewrite andb_true_r. reflexivity.
  - intros j [].
  - intros a [].
Qed.


(** ** numpy's argsort *)

Lemma argsort_insert_perm (priority : list Q) (j : nat) (sorted : list nat) :
  Permutation (SciPy.argsort_insert priority j sorted) (j :: sorted).
Proof.
  induction sorted as [| k rest IH]; simpl; [reflexivity |].
  destruct (Qlt_bool _ _); [reflexivity |].
  rewrite IH. apply perm_swap.
Qed.

Lemma argsort_fold_perm (priority : list Q) (l acc : list nat) :
  Permutation (fold_left (fun sorted j => SciPy.argsort_insert priority j sorted) l acc)
              (l ++ acc).
Proof.
  revert acc. induction l as [| j l IH]; intros acc; simpl; [reflexivity |].
  rewrite IH, argsort_insert_perm. symmetry. apply Permutation_middle.
Qed.

Lemma argsort_perm (priority : list Q) :
  Permutation (SciPy.argsort priority) (seq 0 (length priority)).
Proof. unfold SciPy.argsort. rewrite argsort_fold_perm, app_nil_r. reflexivity. Qed.

Lemma argsort_insert_sorted (priority : list Q) (j : nat) (sorted : list nat) :
  StronglySorted (fun a b => SciPy.at_ priority a <= SciPy.at_ priority b) sorted ->
  StronglySorted (fun a b => SciPy.at_ priority a <= SciPy.at_ priority b)
                 (SciPy.argsort_insert priority j sorted).
Proof.
  intros Hs. induction Hs as [| k rest Hs IH Hall]; simpl.
  - constructor; constructor.
  - destruct (Qlt_bool (SciPy.at_ priority j) (SciPy.at_ priority k)) eqn:E.
    + apply Qlt_bool_true in E. constructor; [constructor; assumption |].
      constructor; [lra |].
      eapply List.Forall_impl; [| exact Hall]. intros r Hr. simpl in Hr. lra.
    + apply Qlt_bool_false in E. constructor; [exact IH |].
      apply List.Forall_forall. intros r Hr.
      apply (Permutation_in _ (argsort_insert_perm priority j rest)) in Hr.
      destruct Hr as [<- | Hr]; [exact E |].
      rewrite List.Forall_forall in Hall. apply Hall. exact Hr.
Qed.

Lemma argsort_sorted (priority : list Q) :
  StronglySorted (fun a b => SciPy.at_ priority a <= SciPy.at_ priority b)
                 (SciPy.argsort priority).
Proof.
  unfold SciPy.argsort.
  assert (H : forall l acc,
             StronglySorted (fun a b => SciPy.at_ priority a <= SciPy.at_ priority b) acc ->
             StronglySorted (fun a b => SciPy.at_ priority a <= SciPy.at_ priority b)
               (fold_left (fun sorted j => SciPy.argsort_insert priority j sorted) l acc)).
  { induction l as [| j l IH]; intros acc Hacc; simpl; [exact Hacc |].
    apply IH, argsort_insert_sorted, Hacc. }
  apply H. constructor.
Qed.

(** ** Sorted lists *)

Lemma sorted_rev {A : Type} (R : A -> A -> Prop) (l : list A) :
  StronglySorted R l -> StronglySorted (fun a b => R b a) (rev l).
Proof.
  intros Hs. induction Hs as [| a l Hs IH Hall]; simpl; [constructor |].
  assert (Happ : forall l1 : list A,
             StronglySorted (fun a b => R b a) l1 ->
             List.Forall (fun b => R a b) l1 ->
             StronglySorted (fun a b => R b a) (l1 ++ [a])).
  { clear. intros l1 H1. induction H1 as [| c l1 H1 IH1 Hc]; intros Hall; simpl.
    - constructor; constructor.
    - inversion Hall as [| ? ? Hac Hrest]; subst.
      constructor; [apply IH1; exact Hrest |].
      apply List.Forall_app. split; [exact Hc | constructor; [exact Hac | constructor]]. }
  apply Happ; [exact IH |].
  apply List.Forall_forall. intros b Hb. apply List.in_rev in Hb.
  rewrite List.Forall_forall in Hall. apply Hall. exact Hb.
Qed.

Lemma sorted_map_rel {A B : Type} (R : A -> A -> Prop) (R' : B -> B -> Prop)
      (f : A -> B) (l : list A) :
  StronglySorted R l ->
  (forall a b, In a l -> In b l -> R a b -> R' (f a) (f b)) ->
  StronglySorted R' (map f l).
Proof.
  intros Hs. induction Hs as [| a l Hs IH Hall]; intros Hrel; simpl; [constructor |].
  constructor.
  - apply IH. intros b c Hb Hc. apply Hrel; right; assumption.
  - apply List.Forall_forall. intros y Hy. apply List.in_map_iff in Hy.
    destruct Hy as (b & <- & Hb).
    rewrite List.Forall_forall in Hall.
    apply Hrel; [left; reflexivity | right; exact Hb | apply Hall; exact Hb].
Qed.

Lemma sorted_filter {A : Type} (R : A -> A -> Prop) (f : A -> bool) (l : list A) :
  StronglySorted R l -> StronglySorted R (List.filter f l).
Proof.
  intros Hs. induction Hs as [| a l Hs IH Hall]; simpl; [constructor |].
  destruct (f a); [| exact IH].
  constructor; [exact IH |].
  apply List.Forall_forall. intros b Hb. apply List.filter_In in Hb.
  rewrite List.Forall_forall in Hall. apply Hall, Hb.
Qed.

Lemma sorted_lt_seq (a n : nat) : StronglySorted lt (seq a n).
Proof.
  revert a. induction n as [| n IH]; intros a; simpl; constructor; [apply IH |].
  apply List.Forall_forall. intros b Hb. apply List.in_seq in Hb. lia.
Qed.

Lemma sorted_lt_NoDup (l : list nat) : StronglySorted lt l -> List.NoDup l.
Proof.
  intros Hs. induction Hs as [| a l Hs IH Hall]; constructor; [| exact IH].
  intros Hin. rewrite List.Forall_forall in Hall. apply Hall in Hin. lia.
Qed.

(** Two strictly increasing lists with the same members are equal. *)
Lemma sorted_lt_ext (l1 l2 : list nat) :
  StronglySorted lt l1 -> StronglySorted lt l2 ->
  (forall i, In i l1 <-> In i l2) -> l1 = l2.
Proof.
  intros H1. revert l2. induction H1 as [| a l1 H1 IH Ha]; intros l2 H2 Hmem.
  - destruct l2 as [| b l2]; [reflexivity |].
    exfalso. apply (Hmem b). left. reflexivity.
  - destruct H2 as [| b l2 H2 Hb].
    + exfalso. apply (Hmem a). left. reflexivity.
    + rewrite List.Forall_forall in Ha, Hb.
      assert (a = b).
      { destruct (proj1 (Hmem a) (or_introl eq_refl)) as [Hab | Hab]; [congruence |].
        destruct (proj2 (Hmem b) (or_introl eq_refl)) as [Hba | Hba]; [congruence |].
        apply Ha in Hba. apply Hb in Hab. lia. }
      subst b. f_equal. apply IH; [exact H2 |].
      intros i. split; intros Hi.
      * destruct (proj1 (Hmem i) (or_intror Hi)) as [<- | Hi']; [| exact Hi'].
        apply Ha in Hi. lia.
      * destruct (proj2 (Hmem i) (or_intror Hi)) as [<- | Hi']; [| exact Hi'].
        apply Hb in Hi. lia.
Qed.

(** ** The peaks kept by the mask *)

Lemma mask_spec (peaks : list nat) (keep : list bool) (p : nat) :
  In p (SciPy.mask peaks keep) <->
  exists k, (k < length peaks)%nat /\ nth k peaks O = p /\ flag keep k = true.
Proof.
  unfold flag. revert keep. induction peaks as [| q peaks IH]; intros keep.
  - simpl. split; [intros [] | intros (k & Hk & _); lia].
  - destruct keep as [| b keep].
    + simpl. split; [intros [] | intros (k & _ & _ & Hk); destruct k; discriminate].
    + assert (Htail : In p (SciPy.mask peaks keep) <->
                      exists k, (S k < length (q :: peaks))%nat
                                /\ nth (S k) (q :: peaks) O = p
                                /\ nth (S k) (b :: keep) false = true).
      { rewrite IH. simpl. split; intros (k & Hk & H); exists k; (split; [lia | exact H]). }
      destruct b; simpl SciPy.mask.
      * split.
        -- intros [<- | Hin].
           ++ exists O. simpl. repeat split. lia.
           ++ apply Htail in Hin. destruct Hin as (k & H). exists (S k). exact H.
        -- intros (k & Hk & Hp & Hf). destruct k as [| k].
           ++ left. exact Hp.
           ++ right. apply Htail. exists k. repeat split; assumption.
      * split.
        -- intros Hin. apply Htail in Hin. destruct Hin as (k & H). exists (S k). exact H.
        -- intros (k & Hk & Hp & Hf). destruct k as [| k]; [discriminate |].
           apply Htail. exists k. repeat split; assumption.
Qed.

Lemma mask_sorted (peaks : list nat) (keep : list bool) :
  StronglySorted lt peaks -> StronglySorted lt (SciPy.mask peaks keep).
Proof.
  intros Hs. revert keep. induction Hs as [| q peaks Hs IH Hall]; intros keep.
  - destruct keep; constructor.
  - destruct keep as [| b keep]; [constructor |].
    destruct b; simpl; [| apply IH].
    constructor; [apply IH |].
    apply List.Forall_forall. intros p Hp. apply mask_In in Hp.
    rewrite List.Forall_forall in Hall. apply Hall. exact Hp.
Qed.

Lemma ordered_by_index_spec (n : nat) (accepted : list nat) (i : nat) :
  In i (ordered_by_index n accepted) <-> (i < n)%nat /\ In i accepted.
Proof.
  unfold ordered_by_index. rewrite List.filter_In, List.in_seq, existsb_exists.
  split.
  - intros (Hi & a & Ha & Heq). apply Nat.eqb_eq in Heq. subst a. split; [lia | exact Ha].
  - intros (Hi & Ha). split; [lia |]. exists i. split; [exact Ha | apply Nat.eqb_refl].
Qed.

Lemma nth_seq_map (peaks : list nat) :
  map (fun j => nth j peaks O) (seq 0 (length peaks)) = peaks.
Proof.
  induction peaks as [| p peaks IH]; [reflexivity |].
  simpl. f_equal. rewrite <- seq_shift, map_map. exact IH.
Qed.


Lemma select_by_height_spec (x : list Q) (height : Q) (p : nat) :
  In p (SciPy.select_by_height x height (SciPy.local_maxima_1d x)) <->
  SciPy.plateau_midpoint x p /\ height <= SciPy.at_ x p.
Proof.
  unfold SciPy.select_by_height.
  rewrite List.filter_In, local_maxima_1d_spec, Qle_bool_iff. reflexivity.
Qed.

Lemma at_map (x : list Q) (peaks : list nat) (j : nat) :
  (j < length peaks)%nat ->
  SciPy.at_ (map (SciPy.at_ x) peaks) j = SciPy.at_ x (nth j peaks O).
Proof.
  unfold SciPy.at_. revert j. induction peaks as [| p peaks IH]; intros j Hj; simpl in *.
  - lia.
  - destruct j as [| j]; [reflexivity | apply IH; lia].
Qed.

(** C1 (amended).  For [min_distance >= 1] the peaks [find_peaks] returns
    are those of the following procedure.  A position is a candidate when it
    is the midpoint (rounded down) of a run of equal values lying strictly
    inside the sequence, entered by a strict rise and left by a strict fall,
    and its value is at least the threshold.  The candidates are scanned in
    some order of descending magnitude, and one is accepted only if no
    candidate accepted before it is closer than [min_distance] samples.  The
    accepted positions are returned by increasing index. *)
Theorem find_peaks_procedure (x : list Q) (height : Q) (distance : Z) :
  (1 <= distance)%Z ->
  exists order : list nat,
    List.NoDup order /\
    (forall i, In i order <-> SciPy.plateau_midpoint x i /\ height <= SciPy.at_ x i) /\
    StronglySorted (fun i j => SciPy.at_ x j <= SciPy.at_ x i) order /\
    SciPy.find_peaks x height distance
    = Returned (ordered_by_index (length x) (accept_in_order distance order [])).
Proof.
  intros Hd.
  set (peaks := SciPy.select_by_height x height (SciPy.local_maxima_1d x)).
  set (priority := map (SciPy.at_ x) peaks).
  set (positions := rev (SciPy.argsort priority)).
  assert (Hsorted : StronglySorted lt peaks)
    by (apply sorted_filter, local_maxima_1d_sorted).
  assert (Hperm : Permutation positions (seq 0 (length peaks))).
  { unfold positions. rewrite <- Permutation_rev, argsort_perm.
    unfold priority. rewrite length_map. reflexivity. }
  assert (Hpos : forall j, In j positions <-> (j < length peaks)%nat).
  { intros j. split; intros H.
    - apply (Permutation_in _ Hperm), List.in_seq in H. lia.
    - apply (Permutation_in _ (Permutation_sym Hperm)), List.in_seq. lia. }
  assert (Hnodup : List.NoDup positions).
  { apply (Permutation_NoDup (Permutation_sym Hperm)), List.seq_NoDup. }
  set (order := map (fun j => nth j peaks O) positions).
  assert (Horder : Permutation order peaks).
  { unfold order.
    apply (Permutation_trans
             (l' := map (fun j => nth j peaks O) (seq 0 (length peaks))));
      [apply Permutation_map; exact Hperm | rewrite nth_seq_map; reflexivity]. }
  exists order.
  split.
  { apply (Permutation_NoDup (Permutation_sym Horder)), sorted_lt_NoDup, Hsorted. }
  split.
  { intros i. rewrite <- select_by_height_spec. fold peaks.
    split; apply Permutation_in; [exact Horder | symmetry; exact Horder]. }
  split.
  { unfold order, positions.
    apply (sorted_map_rel
             (fun a b => SciPy.at_ priority b <= SciPy.at_ priority a)).
    - apply (sorted_rev (fun a b => SciPy.at_ priority a <= SciPy.at_ priority b)).
      apply argsort_sorted.
    - intros a b Ha Hb Hab. fold positions in Ha, Hb.
      apply Hpos in Ha, Hb. unfold priority in Hab.
      rewrite !at_map in Hab by assumption. exact Hab. }
  unfold SciPy.find_peaks. destruct (Z.ltb_spec distance 1) as [Hlt | _]; [lia |].
  fold peaks. fold priority. f_equal.
  pose proof (loop_invariant_fold peaks distance positions Hsorted [] _ []
                ltac:(simpl; exact Hnodup)
                ltac:(intros j Hj; apply Hpos; exact Hj)
                (loop_invariant_init peaks distance)) as Hinv.
  simpl app in Hinv. fold order in Hinv.
  fold (SciPy.select_by_peak_distance peaks priority distance) in Hinv.
  destruct Hinv as (H1 & H2 & H3).
  apply sorted_lt_ext.
  - apply mask_sorted, Hsorted.
  - apply sorted_filter, sorted_lt_seq.
  - intros i. rewrite mask_spec, ordered_by_index_spec. split.
    + intros (k & Hk & Hki & Hkf). split.
      * assert (Hin : In i peaks) by (rewrite <- Hki; apply nth_In; exact Hk).
        apply select_by_height_spec in Hin. destruct Hin as [Hmid _].
        apply plateau_midpoint_range in Hmid. lia.
      * rewrite <- Hki. apply H2; [apply Hpos; exact Hk | exact Hkf].
    + intros (_ & Hi). destruct (H3 i Hi) as (k & Hk & Hki & Hkf).
      exists k. split; [apply Hpos; exact Hk | split; assumption].
Qed.

(* ===================================================================== *)
(** * Further properties of the detector *)
(* ===================================================================== *)

(** The flags [_select_by_peak_distance] returns, against the scan over
    the same order. *)
Lemma select_by_peak_distance_invariant (peaks : list nat) (distance_ : Z) :
  StronglySorted lt peaks ->
  forall (priority : list Q),
    length priority = length peaks ->
    loop_invariant peaks distance_ (rev (SciPy.argsort priority))
      (SciPy.select_by_peak_distance peaks priority distance_)
      (accept_in_order distance_
         (map (fun j => nth j peaks O) (rev (SciPy.argsort priority))) []).
Proof.
  intros Hsorted priority Hlen.
  assert (Hperm : Permutation (rev (SciPy.argsort priority)) (seq 0 (length peaks))).
  { rewrite <- Permutation_rev, argsort_perm, Hlen. reflexivity. }
  apply (loop_invariant_fold peaks distance_ _ Hsorted [] _ []).
  - simpl. apply (Permutation_NoDup (Permutation_sym Hperm)), List.seq_NoDup.
  - intros j Hj. apply (Permutation_in _ Hperm), List.in_seq in Hj. lia.
  - apply loop_invariant_init.
Qed.

Lemma find_peaks_sorted (x : list Q) (height : Q) (distance : Z) (peaks : list nat) :
  SciPy.find_peaks x height distance = Returned peaks -> StronglySorted lt peaks.
Proof.
  unfold SciPy.find_peaks. destruct (distance <? 1)%Z; [discriminate |].
  intros [= <-]. apply mask_sorted, sorted_filter, local_maxima_1d_sorted.
Qed.

Lemma find_peaks_candidates (x : list Q) (height : Q) (distance : Z) (peaks : list nat) :
  SciPy.find_peaks x height distance = Returned peaks ->
  forall p, In p peaks -> SciPy.plateau_midpoint x p /\ height <= SciPy.at_ x p.
Proof.
  unfold SciPy.find_peaks. destruct (distance <? 1)%Z; [discriminate |].
  intros [= <-] p Hp. apply mask_In in Hp. apply select_by_height_spec. exact Hp.
Qed.

(** Any two peaks [find_peaks] returns are at least [distance] apart. *)
Lemma find_peaks_apart (x : list Q) (height : Q) (distance : Z) (peaks : list nat) :
  SciPy.find_peaks x height distance = Returned peaks ->
  forall p q, In p peaks -> In q peaks -> p <> q -> closer_than distance p q = false.
Proof.
  unfold SciPy.find_peaks. destruct (distance <? 1)%Z; [discriminate |].
  intros [= <-] p q Hp Hq Hpq.
  set (cands := SciPy.select_by_height x height (SciPy.local_maxima_1d x)) in *.
  assert (Hsorted : StronglySorted lt cands)
    by (apply sorted_filter, local_maxima_1d_sorted).
  destruct (select_by_peak_distance_invariant cands distance Hsorted
              (map (SciPy.at_ x) cands) (length_map _ _)) as (H1 & H2 & H3).
  apply mask_spec in Hp, Hq.
  destruct Hp as (k & Hk & Hkp & Hkf). destruct Hq as (k' & Hk' & Hkq & Hkf').
  assert (Hin : In q (accept_in_order distance
                        (map (fun j => nth j cands O)
                             (rev (SciPy.argsort (map (SciPy.at_ x) cands)))) [])).
  { rewrite <- Hkq. apply H2; [| exact Hkf'].
    apply (Permutation_in (l := seq 0 (length cands))).
    - rewrite <- Permutation_rev, argsort_perm, length_map. reflexivity.
    - apply List.in_seq. lia. }
  rewrite H1 in Hkf. apply andb_true_iff in Hkf. destruct Hkf as [_ Hnb].
  apply negb_true_iff in Hnb. rewrite Hkp in Hnb. unfold blocked in Hnb.
  destruct (closer_than distance p q) eqn:E; [| reflexivity].
  assert (Hex : existsb (fun a => negb (a =? p)%nat && closer_than distance p a)
                        (accept_in_order distance
                           (map (fun j => nth j cands O)
                                (rev (SciPy.argsort (map (SciPy.at_ x) cands)))) [])
                = true).
  { apply existsb_exists. exists q. split; [exact Hin |].
    rewrite E, andb_true_r. apply negb_true_iff, Nat.eqb_neq. congruence. }
  congruence.
Qed.

(** In increasing order the peaks of [find_peaks] step by at least
    [distance]. *)
Lemma find_peaks_steps (x : list Q) (height : Q) (distance : Z) (peaks : list nat) :
  SciPy.find_peaks x height distance = Returned peaks ->
  StronglySorted (fun p q => (Z.of_nat p + distance <= Z.of_nat q)%Z) peaks.
Proof.
  intros Hfp.
  pose proof (find_peaks_sorted _ _ _ _ Hfp) as Hs.
  pose proof (find_peaks_apart _ _ _ _ Hfp) as Ha.
  clear Hfp. induction Hs as [| p peaks Hs IH Hall]; [constructor |].
  constructor.
  - apply IH. intros a b Hin1 Hin2. apply Ha; right; assumption.
  - apply List.Forall_forall. intros q Hq.
    rewrite List.Forall_forall in Hall. pose proof (Hall q Hq) as Hlt.
    assert (Hc : closer_than distance p q = false).
    { apply Ha; [left; reflexivity | right; exact Hq | lia]. }
    unfold closer_than in Hc. apply Z.ltb_ge in Hc. lia.
Qed.

(** What the peak loop returns: swings built from buffer items at positions
    of [peaks], in the order of [peaks], none with an acceleration that
    overflows. *)
Lemma filter_peaks_events (peaks : list nat) (d : SwingDetector)
      (detected : list SwingPeak) (d' : SwingDetector) (events : list SwingPeak) :
  filter_peaks d peaks detected = (d', Returned events) ->
  exists new,
    events = detected ++ new /\
    buffer d' = buffer d /\
    List.Forall (fun e => In (peak_index e) peaks /\
                          buffer d !! peak_index e = Some (sensor_data e) /\
                          e = swing_peak_at (peak_index e) (sensor_data e)) new /\
    (forall R : nat -> nat -> Prop,
        StronglySorted R peaks ->
        StronglySorted (fun a b => R (peak_index a) (peak_index b)) new).
Proof.
  revert d detected. induction peaks as [| p peaks IH]; intros d detected Hrun.
  - simpl in Hrun. injection Hrun as <- <-. exists []. rewrite app_nil_r.
    split; [reflexivity |]. split; [reflexivity |].
    split; [constructor | intros; constructor].
  - cbn [filter_peaks] in Hrun.
    destruct (buffer d !! p) as [s |] eqn:Hs; [| discriminate].
    destruct (too_close d (timestamp s)).
    + destruct (IH d detected Hrun) as (new & Hev & Hbuf & Hall & Hsort).
      exists new. split; [exact Hev |]. split; [exact Hbuf |]. split.
      * eapply List.Forall_impl; [| exact Hall].
        intros e (H1 & H2 & H3). split; [right; exact H1 | split; assumption].
      * intros R HR. apply Hsort. inversion HR; assumption.
    + destruct (acceleration_overflows s); [discriminate |].
      destruct (IH (record_peak d (timestamp s)) (detected ++ [swing_peak_at p s]) Hrun)
        as (new & Hev & Hbuf & Hall & Hsort).
      exists (swing_peak_at p s :: new).
      rewrite Hev, <- app_assoc. split; [reflexivity |]. split; [exact Hbuf |]. split.
      * constructor.
        -- simpl. split; [left; reflexivity | split; [exact Hs | reflexivity]].
        -- eapply List.Forall_impl; [| exact Hall].
           intros e (H1 & H2 & H3). split; [right; exact H1 | split; assumption].
      * intros R HR. inversion HR as [| ? ? HR' Hhead]; subst.
        constructor; [apply Hsort; exact HR' |].
        apply List.Forall_forall. intros e He.
        rewrite List.Forall_forall in Hall, Hhead.
        simpl. apply Hhead. apply (Hall e He).
Qed.

Lemma at_map_lookup (l : list SensorSample) (i : nat) (s : SensorSample) :
  l !! i = Some s -> SciPy.at_ (map rotation_magnitude l) i = rotation_magnitude s.
Proof.
  unfold SciPy.at_. revert i. induction l as [| a l IH]; intros i H.
  - destruct i; discriminate.
  - destruct i as [| i]; simpl in *; [congruence | apply IH; exact H].
Qed.

(** What one call of [process_batch] returns. *)
Lemma process_batch_events (d : SwingDetector) (samples : list SensorSample)
      (d' : SwingDetector) (events : list SwingPeak) :
  process_batch d samples = (d', Returned events) ->
  let magnitudes := map rotation_magnitude (buffer d') in
  List.Forall (fun e => buffer d' !! peak_index e = Some (sensor_data e) /\
                        e = swing_peak_at (peak_index e) (sensor_data e) /\
                        SciPy.plateau_midpoint magnitudes (peak_index e) /\
                        threshold d <= peak_rotation_magnitude e) events /\
  StronglySorted (apart (min_distance d)) events /\
  StronglySorted (fun a b => (peak_index a < peak_index b)%nat) events.
Proof.
  intros Hrun magnitudes. subst magnitudes.
  destruct samples as [| s0 samples].
  { simpl in Hrun. injection Hrun as <- <-. repeat split; constructor. }
  unfold process_batch in Hrun.
  set (d1 := add_samples d (s0 :: samples)) in *.
  destruct (Z.of_nat (length (buffer d1)) <? min_distance d1 * 2)%Z.
  { injection Hrun as <- <-. repeat split; constructor. }
  destruct (existsb rotation_overflows (buffer d1)); [discriminate |].
  destruct (SciPy.find_peaks (map rotation_magnitude (buffer d1)) (threshold d1)
                             (min_distance d1)) as [peaks | e] eqn:Efp;
    [| discriminate].
  destruct (filter_peaks_events peaks d1 [] d' events Hrun)
    as (new & Hev & Hbuf & Hall & Hsort).
  simpl in Hev. subst new.
  split.
  - eapply List.Forall_impl; [| exact Hall].
    intros e (Hin & Hlook & Hswing). rewrite Hbuf.
    split; [exact Hlook |]. split; [exact Hswing |].
    destruct (find_peaks_candidates _ _ _ _ Efp _ Hin) as [Hmid Hheight].
    split; [exact Hmid |].
    rewrite (at_map_lookup _ _ _ Hlook) in Hheight.
    rewrite Hswing. simpl. exact Hheight.
  - split.
    + apply (Hsort (fun p q => (Z.of_nat p + min_distance d <= Z.of_nat q)%Z)).
      exact (find_peaks_steps _ _ _ _ Efp).
    + apply (Hsort lt). exact (find_peaks_sorted _ _ _ _ Efp).
Qed.


(** When the peak loop raises: on the acceleration of a buffer sample. *)
Lemma filter_peaks_raises (peaks : list nat) (d : SwingDetector)
      (detected : list SwingPeak) (d' : SwingDetector) (e : exn) :
  List.Forall (fun p => (p < length (buffer d))%nat) peaks ->
  filter_peaks d peaks detected = (d', Raised e) ->
  e = pow_overflow /\
  exists s, In s (buffer d) /\ acceleration_overflows s = true.
Proof.
  revert d detected. induction peaks as [| p peaks IH]; intros d detected Hrange Hrun.
  - discriminate.
  - inversion Hrange as [| ? ? Hp Hrest]; subst.
    cbn [filter_peaks] in Hrun.
    destruct (lookup_lt_is_Some_2 (buffer d) p Hp) as [s Hs]. rewrite Hs in Hrun.
    destruct (too_close d (timestamp s)); [exact (IH d detected Hrest Hrun) |].
    destruct (acceleration_overflows s) eqn:Eacc.
    + injection Hrun as _ <-. split; [reflexivity |].
      exists s. split; [| exact Eacc].
      apply list_elem_of_In, list_elem_of_lookup. eauto.
    + exact (IH (record_peak d (timestamp s)) _ Hrest Hrun).
Qed.



(** X2.  Every swing a call returns is read off the window as the call
    leaves it: it sits at [peak_index] there, carries that sample's
    timestamp and magnitudes, reaches the threshold, and is the midpoint of
    a strict local maximum (possibly flat) of the window's rotation
    magnitudes. *)
Theorem emitted_swings_are_window_peaks
        (d : SwingDetector) (samples : list SensorSample)
        (d' : SwingDetector) (events : list SwingPeak) (e : SwingPeak) :
  process_batch d samples = (d', Returned events) ->
  In e events ->
  buffer d' !! peak_index e = Some (sensor_data e) /\
  peak_timestamp e = timestamp (sensor_data e) /\
  peak_rotation_magnitude e = rotation_magnitude (sensor_data e) /\
  peak_acceleration_magnitude e = acceleration_magnitude (sensor_data e) /\
  threshold d <= peak_rotation_magnitude e /\
  SciPy.plateau_midpoint (map rotation_magnitude (buffer d')) (peak_index e).
Proof.
  intros Hrun He.
  destruct (process_batch_events d samples d' events Hrun) as (Hall & _).
  rewrite List.Forall_forall in Hall.
  destruct (Hall e He) as (Hlook & Hswing & Hmid & Hthr).
  split; [exact Hlook |].
  split; [rewrite Hswing; reflexivity |].
  split; [rewrite Hswing; reflexivity |].
  split; [rewrite Hswing; reflexivity |].
  split; assumption.
Qed.

(** X3.  The swings one call returns come by increasing window position,
    and any two of them are at least [min_distance] positions apart. *)
Theorem swings_of_one_call_are_apart (d : SwingDetector) (samples : list SensorSample) :
  let events := returned_events (process_batch d samples).2 in
  StronglySorted (apart (min_distance d)) events /\
  StronglySorted (fun a b => (peak_index a < peak_index b)%nat) events.
Proof.
  intros events. subst events.
  destruct (process_batch d samples) as [d' [events | e]] eqn:Hrun; simpl.
  - destruct (process_batch_events d samples d' events Hrun) as (_ & H1 & H2).
    split; assumption.
  - split; constructor.
Qed.

Lemma deque_append_In {A : Type} (maxlen : nat) (dq : list A) (item x : A) :
  In x (deque_append maxlen dq item) -> In x (dq ++ [item]).
Proof.
  unfold deque_append. destruct (maxlen <? length (dq ++ [item]))%nat; [| tauto].
  destruct (dq ++ [item]) as [| y l]; simpl; tauto.
Qed.

Lemma deque_extend_In {A : Type} (maxlen : nat) (items dq : list A) (x : A) :
  In x (deque_extend maxlen dq items) -> In x (dq ++ items).
Proof.
  unfold deque_extend. revert dq. induction items as [| a items IH]; intros dq H; simpl in H.
  - rewrite app_nil_r. exact H.
  - apply IH in H. apply in_app_or in H. destruct H as [H | H].
    + apply deque_append_In in H. apply in_app_or in H.
      apply in_or_app. destruct H as [H | [<- | []]]; [left; exact H | right; left; reflexivity].
    + apply in_or_app. right. right. exact H.
Qed.

(** X4.  When no sample of the window, once the batch is appended, reaches
    the threshold, the call returns no swing and leaves the peak
    bookkeeping as it was. *)
Theorem quiet_window_no_swing (d : SwingDetector) (samples : list SensorSample) :
  List.Forall (fun s => rotation_magnitude s < threshold d)
              (deque_extend (buffer_size d) (buffer d) samples) ->
  returned_events (process_batch d samples).2 = [] /\
  last_peak_timestamp (process_batch d samples).1 = last_peak_timestamp d /\
  total_peaks_detected (process_batch d samples).1 = total_peaks_detected d.
Proof.
  intros Hquiet. destruct samples as [| s0 samples]; [repeat split; reflexivity |].
  unfold process_batch.
  set (d1 := add_samples d (s0 :: samples)).
  change (deque_extend (buffer_size d) (buffer d) (s0 :: samples)) with (buffer d1)
    in Hquiet.
  destruct (Z.of_nat (length (buffer d1)) <? min_distance d1 * 2)%Z;
    [repeat split; reflexivity |].
  destruct (existsb rotation_overflows (buffer d1)); [repeat split; reflexivity |].
  destruct (SciPy.find_peaks (map rotation_magnitude (buffer d1)) (threshold d1)
                             (min_distance d1)) as [peaks | e] eqn:Efp;
    [| repeat split; reflexivity].
  assert (Hnone : peaks = []).
  { destruct peaks as [| p peaks]; [reflexivity |]. exfalso.
    destruct (find_peaks_candidates _ _ _ _ Efp p) as [_ Hheight]; [left; reflexivity |].
    apply find_peaks_in_range in Efp. rewrite length_map in Efp.
    inversion Efp as [| ? ? Hp _]; subst.
    destruct (lookup_lt_is_Some_2 (buffer d1) p Hp) as [s Hs].
    rewrite (at_map_lookup _ _ _ Hs) in Hheight.
    rewrite List.Forall_forall in Hquiet.
    assert (Hin : In s (buffer d1))
      by (apply list_elem_of_In, list_elem_of_lookup; eauto).
    apply Hquiet in Hin. change (threshold d1) with (threshold d) in Hheight. lra. }
  rewrite Hnone. repeat split; reflexivity.
Qed.

(** X5.  When a call returns, [total_peaks_detected] has grown by the
    number of swings it returned.  When it raises, on the acceleration of a
    later peak, the peaks accepted before it stay counted though no swing
    is returned.  So over any calls the counter never decreases and is at
    least the number of swings handed to the caller. *)
Theorem peak_counter_counts_emitted_swings
        (d : SwingDetector) (samples : list SensorSample)
        (batches : list (list SensorSample)) :
  let run := process_batch d samples in
  (forall events, run.2 = Returned events ->
                  total_peaks_detected run.1
                  = (total_peaks_detected d + length events)%nat) /\
  (total_peaks_detected d <= total_peaks_detected run.1)%nat /\
  (total_peaks_detected d + length (ingest_all d batches).2
   <= total_peaks_detected (ingest_all d batches).1)%nat.
Proof.
  intros run. subst run.
  destruct (process_batch_spec d samples)
    as (d' & o & accepted & Hrun & Ho & _ & Hcount & _).
  rewrite Hrun. cbn [fst snd].
  split; [| split; [lia |]].
  - intros events ->. destruct Ho as [[= ->] | [e He]]; [exact Hcount | discriminate].
  - destruct (ingest_all_spec batches d)
      as (d2 & events & accepted2 & Hrun2 & Hlen & _ & Hcount2 & _).
    rewrite Hrun2. cbn [fst snd]. lia.
Qed.

Lemma filter_peaks_all_close (peaks : list nat) (d : SwingDetector)
      (detected : list SwingPeak) :
  List.Forall (fun p => (p < length (buffer d))%nat) peaks ->
  (forall s, In s (buffer d) -> too_close d (timestamp s) = true) ->
  filter_peaks d peaks detected = (d, Returned detected).
Proof.
  intros Hrange Hclose. induction Hrange as [| p peaks Hp Hrange IH]; [reflexivity |].
  cbn [filter_peaks].
  destruct (lookup_lt_is_Some_2 (buffer d) p Hp) as [s Hs]. rewrite Hs.
  rewrite Hclose; [exact IH |].
  apply list_elem_of_In, list_elem_of_lookup. eauto.
Qed.

Lemma process_batch_all_close (d : SwingDetector) (samples : list SensorSample) :
  (forall s, In s (buffer d ++ samples) -> too_close d (timestamp s) = true) ->
  returned_events (process_batch d samples).2 = [] /\
  last_peak_timestamp (process_batch d samples).1 = last_peak_timestamp d.
Proof.
  intros Hstale. destruct samples as [| s0 samples]; [split; reflexivity |].
  unfold process_batch.
  set (d1 := add_samples d (s0 :: samples)).
  destruct (Z.of_nat (length (buffer d1)) <? min_distance d1 * 2)%Z;
    [split; reflexivity |].
  destruct (existsb rotation_overflows (buffer d1)); [split; reflexivity |].
  destruct (SciPy.find_peaks (map rotation_magnitude (buffer d1)) (threshold d1)
                             (min_distance d1)) as [peaks | e] eqn:Efp;
    [| split; reflexivity].
  apply find_peaks_in_range in Efp. rewrite length_map in Efp.
  rewrite (filter_peaks_all_close peaks d1 [] Efp); [split; reflexivity |].
  intros s Hs. change (too_close d1 (timestamp s)) with (too_close d (timestamp s)).
  apply Hstale. apply (deque_extend_In (buffer_size d)). exact Hs.
Qed.

Lemma ingest_all_all_close
        (d : SwingDetector) (batches : list (list SensorSample)) :
  List.Forall (fun s => too_close d (timestamp s) = true) (buffer d ++ concat batches) ->
  (ingest_all d batches).2 = [] /\
  last_peak_timestamp (ingest_all d batches).1 = last_peak_timestamp d.
Proof.
  revert d. induction batches as [| b batches IH]; intros d Hstale.
  - split; reflexivity.
  - rewrite List.Forall_forall in Hstale.
    destruct (process_batch_all_close d b) as [Hnone Hlast].
    { intros s Hs. apply Hstale. simpl. rewrite app_assoc.
      apply in_or_app. left. exact Hs. }
    destruct (process_batch_spec d b)
      as (d1 & o & accepted & Hrun & _ & _ & _ & Hbuf & _ & Hset).
    rewrite Hrun in Hnone, Hlast. simpl in Hnone, Hlast.
    destruct Hset as (_ & _ & _ & _ & Hmpi & _).
    destruct (IH d1) as [Hnone2 Hlast2].
    { apply List.Forall_forall. intros s Hs. unfold too_close. rewrite Hlast, Hmpi.
      apply Hstale. simpl. rewrite app_assoc.
      apply in_app_or in Hs. apply in_or_app. destruct Hs as [Hs | Hs]; [left | right; exact Hs].
      rewrite Hbuf in Hs. apply (deque_extend_In (buffer_size d)). exact Hs. }
    cbn [ingest_all]. rewrite Hrun.
    destruct (ingest_all d1 batches) as [d2 events]. simpl in *.
    rewrite Hnone, Hnone2, Hlast2. split; [reflexivity | exact Hlast].
Qed.

(** X6.  While the test of the gate,
    [timestamp - last_peak_timestamp < min_peak_interval], holds of every
    sample in the window and in the batches, no call returns a swing,
    whatever the rotation, and [last_peak_timestamp] stays where it is. *)
Theorem stale_timestamps_yield_no_swing
        (d : SwingDetector) (batches : list (list SensorSample)) :
  List.Forall (fun s => float_lt (float_sub (timestamp s) (last_peak_timestamp d))
                                 (Finite (min_peak_interval d)) = true)
              (buffer d ++ concat batches) ->
  (ingest_all d batches).2 = [] /\
  last_peak_timestamp (ingest_all d batches).1 = last_peak_timestamp d.
Proof. apply ingest_all_all_close. Qed.

(** X7.  [reset] on a detector that has processed any batches gives back
    the detector its constructor made, started at the time of the reset. *)
Theorem reset_restores_new_detector
        (buffer_size : nat) (threshold : Q) (min_distance : Z)
        (height_multiplier t0 now : Q) (batches : list (list SensorSample)) :
  let d0 := SwingDetector_init buffer_size threshold min_distance height_multiplier t0 in
  reset (ingest_all d0 batches).1 now
  = SwingDetector_init buffer_size threshold min_distance height_multiplier now.
Proof.
  intros d0.
  destruct (ingest_all_spec batches d0)
    as (d' & events & accepted & Hrun & _ & _ & _ & _ & _ & Hset).
  rewrite Hrun. simpl fst.
  destruct Hset as (H1 & H2 & H3 & H4 & H5 & _).
  unfold reset, SwingDetector_init. rewrite H1, H2, H3, H4, H5. reflexivity.
Qed.

(** X9.  On a detector made by the constructor the buffer occupancy that
    [get_statistics] reports is the smaller of the capacity and the number
    of samples processed, whatever the batches were. *)
Theorem occupancy_is_min_of_capacity_and_count
        (capacity : nat) (threshold : Q) (min_distance : Z)
        (height_multiplier t0 now : Q) (batches : list (list SensorSample)) :
  let d0 := SwingDetector_init capacity threshold min_distance height_multiplier t0 in
  let stats := get_statistics (ingest_all d0 batches).1 now in
  stat_buffer_size stats = Nat.min capacity (stat_total_samples_processed stats) /\
  stat_buffer_capacity stats = capacity.
Proof.
  intros d0 stats. subst stats.
  destruct (ingest_all_spec batches d0)
    as (d' & events & accepted & Hrun & _ & _ & _ & Hbuf & Htot & Hset).
  rewrite Hrun. simpl fst. unfold get_statistics.
  cbn [stat_buffer_size stat_total_samples_processed stat_buffer_capacity].
  destruct Hset as (Hbs & _).
  rewrite Hbuf, Htot, Hbs. simpl.
  rewrite deque_extend_last_n by (simpl; lia). simpl.
  rewrite last_n_length. split; reflexivity.
Qed.

(** X10.  Rounding to the nearest double never reverses an order and
    leaves zero at zero.  The estimated speed, the rotation magnitude
    multiplied by the arm and racket length and by the factor to mph, then
    never decreases when the rotation magnitude grows; so a swing the
    detector returns, whose magnitude reaches the threshold, is estimated at
    least as fast as any swing whose magnitude is not above the threshold. *)
Theorem emitted_swing_speed_bound
        (d : SwingDetector) (samples : list SensorSample)
        (d' : SwingDetector) (events : list SwingPeak) (e : SwingPeak) :
  (forall a b : Q, a <= b -> fl a <= fl b) ->
  0 <= fl 0 ->
  process_batch d samples = (d', Returned events) ->
  In e events ->
  (forall p q : SwingPeak,
      peak_rotation_magnitude p <= peak_rotation_magnitude q ->
      estimate_swing_speed p <= estimate_swing_speed q) /\
  (forall p : SwingPeak,
      peak_rotation_magnitude p <= threshold d ->
      estimate_swing_speed p <= estimate_swing_speed e).
Proof.
  intros Hmono Hzero Hrun He.
  assert (Hpos : forall x, 0 <= x -> 0 <= fl x).
  { intros x Hx. apply Qle_trans with (fl 0); [exact Hzero | apply Hmono; exact Hx]. }
  assert (Hest : forall p q : SwingPeak,
             peak_rotation_magnitude p <= peak_rotation_magnitude q ->
             estimate_swing_speed p <= estimate_swing_speed q).
  { intros p q Hpq. unfold estimate_swing_speed.
    assert (Harm : 0 <= fl (6 # 10)) by (apply Hpos; lra).
    assert (Hracket : 0 <= fl (7 # 10)) by (apply Hpos; lra).
    assert (Hfactor : 0 <= fl (2237 # 1000)) by (apply Hpos; lra).
    assert (Htotal : 0 <= fl (fl (6 # 10) + fl (7 # 10))) by (apply Hpos; lra).
    apply Hmono. apply Qmult_le_compat_r; [| exact Hfactor].
    apply Hmono. apply Qmult_le_compat_r; [exact Hpq | exact Htotal]. }
  split; [exact Hest |].
  intros p Hp. apply Hest.
  destruct (process_batch_events d samples d' events Hrun) as (Hall & _).
  rewrite List.Forall_forall in Hall.
  destruct (Hall e He) as (_ & _ & _ & Hthr). lra.
Qed.

(* ===================================================================== *)
(** * Further properties of the store and of the message loop *)
(* ===================================================================== *)







(** X13.  [insert_raw_sensor_buffer] only ever appends: the sessions and
    shots tables are untouched, the stored raw rows stay in place, and at
    most one row is added; an empty batch adds none. *)
Theorem raw_insert_only_appends
        (db : Database) (uuid session_id : string) (samples : list SensorSampleModel) :
  let db' := insert_raw_sensor_buffer db uuid session_id samples in
  sessions db' = sessions db /\ shots db' = shots db /\
  (exists new, raw_sensor_buffer db' = raw_sensor_buffer db ++ new
               /\ (length new <= 1)%nat
               /\ (samples = [] -> new = [])
               /\ List.Forall (fun r => raw_session_id r = session_id
                                        /\ raw_sample_count r = length samples) new).
Proof.
  intros db'. subst db'. unfold insert_raw_sensor_buffer.
  assert (Hsame : sessions db = sessions db /\ shots db = shots db /\
                  exists new, raw_sensor_buffer db = raw_sensor_buffer db ++ new
                              /\ (length new <= 1)%nat
                              /\ (samples = [] -> new = [])
                              /\ List.Forall (fun r => raw_session_id r = session_id
                                                       /\ raw_sample_count r = length samples) new).
  { split; [reflexivity |]. split; [reflexivity |].
    exists []. rewrite app_nil_r. repeat split; [simpl; lia | constructor]. }
  destruct samples as [| s0 rest]; [exact Hsame |].
  destruct (List.find _ (raw_sensor_buffer db)); [exact Hsame |].
  destruct (schema_admits_raw db _); [| exact Hsame].
  cbn [sessions shots raw_sensor_buffer].
  split; [reflexivity |]. split; [reflexivity |].
  eexists. split; [reflexivity |]. split; [simpl; lia |].
  split; [discriminate |]. constructor; [| constructor]. split; reflexivity.
Qed.

(** X14.  [update_session_end] never adds or removes a session row and
    never touches the shots or raw tables.  When the session has no row
    nothing changes; otherwise every row of the session gets the end time
    (truncated) and the shot count, and the rows of other sessions stay as
    they are. *)
Theorem update_session_end_effect
        (db : Database) (session_id : string) (end_time : Q) (shot_count : nat) :
  let db' := update_session_end db session_id end_time shot_count in
  map ses_session_id (sessions db') = map ses_session_id (sessions db) /\
  shots db' = shots db /\ raw_sensor_buffer db' = raw_sensor_buffer db /\
  ((forall r, In r (sessions db) -> ses_session_id r <> session_id) -> db' = db) /\
  (forall r', In r' (sessions db') -> ses_session_id r' = session_id ->
              (exists r, In r (sessions db) /\ ses_session_id r = session_id) /\
              ses_end_time r' = Some (int_of_float end_time) /\
              ses_shot_count r' = Some shot_count) /\
  (forall r, In r (sessions db) -> ses_session_id r <> session_id -> In r (sessions db')).
Proof.
  intros db'. subst db'. unfold update_session_end.
  destruct (List.find _ (sessions db)) as [row |] eqn:Efind.
  - cbn [sessions shots raw_sensor_buffer].
    apply List.find_some in Efind. destruct Efind as [Hrow Hid].
    apply String.eqb_eq in Hid.
    split.
    { rewrite map_map. apply map_ext. intros r.
      destruct (String.eqb (ses_session_id r) session_id); reflexivity. }
    split; [reflexivity |]. split; [reflexivity |].
    split; [intros Hnone; exfalso; apply (Hnone row Hrow Hid) |].
    split.
    + intros r' Hin Hid'. apply List.in_map_iff in Hin.
      destruct Hin as (r & Hr & Hin).
      destruct (String.eqb_spec (ses_session_id r) session_id) as [Heq | Hne].
      * subst r'. split; [eauto | split; reflexivity].
      * subst r'. congruence.
    + intros r Hin Hne. apply List.in_map_iff. exists r.
      split; [| exact Hin].
      destruct (String.eqb_spec (ses_session_id r) session_id); [congruence | reflexivity].
  - split; [reflexivity |]. split; [reflexivity |]. split; [reflexivity |].
    split; [reflexivity |]. split.
    + intros r' Hin Hid. exfalso.
      apply (List.find_none _ _ Efind) in Hin.
      apply String.eqb_neq in Hin. congruence.
    + intros r Hin _. exact Hin.
Qed.


(** X15.  A connection that sends only malformed frames (undecodable
    text, invalid batches, unknown types, starts without a session id) is
    answered with one error per frame and changes nothing: the loop goes on
    and the registry, the database and the connection state stay as they
    were. *)
Theorem malformed_frames_change_nothing
        (realtime : bool) (srv : Server) (frames : list (Env * Message)) :
  List.Forall (fun frame => malformed frame.2 = true) frames ->
  (websocket_loop realtime srv frames).1 = srv /\
  length (websocket_loop realtime srv frames).2 = length frames /\
  List.Forall (fun r => is_error r = true) (websocket_loop realtime srv frames).2.
Proof.
  intros Hall. induction Hall as [| [env message] frames Hm Hall IH].
  - repeat split; constructor.
  - cbn [websocket_loop].
    assert (Hstep : exists msg, websocket_step realtime env srv message
                                = (srv, [ErrorResponse msg])).
    { destruct message as [err | [sid |] device | sid device samples | err | sid | ty];
        simpl in Hm; try discriminate; cbn [websocket_step]; eauto.
      cbn [falsy]. rewrite Hm. eauto. }
    destruct Hstep as [msg ->].
    destruct (websocket_loop realtime srv frames) as [srv2 sent'].
    simpl in *. destruct IH as (H1 & H2 & H3).
    split; [exact H1 |]. split; [lia |]. constructor; [reflexivity | exact H3].
Qed.

Lemma service_detector_default (now : Q) : service_detector (SwingDetector_default now).
Proof. unfold service_detector. simpl. repeat split. lia. Qed.

Lemma service_detector_process (d : SwingDetector) (samples : list SensorSample) :
  service_detector d -> service_detector (process_batch d samples).1.
Proof.
  intros (Hbs & Hth & Hmd & Hmpi & Hlen).
  destruct (process_batch_spec d samples)
    as (d' & o & accepted & Hrun & _ & _ & _ & Hbuf & _ & Hset).
  rewrite Hrun. simpl. destruct Hset as (H1 & H2 & H3 & _ & H5 & _).
  unfold service_detector. rewrite H1, H2, H3, H5, Hbuf, Hbs.
  rewrite deque_extend_last_n by lia. rewrite last_n_length.
  repeat split; try assumption. lia.
Qed.

(** What [process_batch] can raise. *)
Lemma process_batch_raises (d : SwingDetector) (samples : list SensorSample) (e : exn) :
  (process_batch d samples).2 = Raised e ->
  e = pow_overflow \/ ((min_distance d < 1)%Z /\ exists msg, e = ValueError msg).
Proof.
  destruct samples as [| s0 samples]; [discriminate |].
  unfold process_batch.
  set (d1 := add_samples d (s0 :: samples)).
  destruct (Z.of_nat (length (buffer d1)) <? min_distance d1 * 2)%Z; [discriminate |].
  destruct (existsb rotation_overflows (buffer d1)); [intros [= <-]; left; reflexivity |].
  destruct (SciPy.find_peaks (map rotation_magnitude (buffer d1)) (threshold d1)
                             (min_distance d1)) as [peaks | e'] eqn:Efp.
  - apply find_peaks_in_range in Efp. rewrite length_map in Efp.
    destruct (filter_peaks d1 peaks []) as [d' o] eqn:Erun. simpl.
    intros ->. left. exact (proj1 (filter_peaks_raises _ _ _ _ _ Efp Erun)).
  - simpl. intros [= <-]. right. split.
    + apply find_peaks_raises in Efp. exact Efp.
    + unfold SciPy.find_peaks in Efp.
      destruct (min_distance d1 <? 1)%Z; [| discriminate].
      injection Efp as <-. eauto.
Qed.

(** X16.  Every detector the message loop keeps has the settings the loop
    creates it with (capacity 300, threshold 2.0, distance 50, interval 0.5)
    and a window within capacity: if that holds of the registry it holds
    after any frames, in either mode. *)
Theorem registry_keeps_service_detectors
        (realtime : bool) (srv : Server) (frames : list (Env * Message)) :
  map_Forall (fun _ d => service_detector d) (active_sessions srv) ->
  map_Forall (fun _ d => service_detector d)
             (active_sessions (websocket_loop realtime srv frames).1).
Proof.
  revert srv. induction frames as [| [env message] frames IH]; intros srv Hok.
  - exact Hok.
  - cbn [websocket_loop].
    assert (Hstep : map_Forall (fun _ d => service_detector d)
                      (active_sessions (websocket_step realtime env srv message).1)).
    { destruct message as [err | [sid |] device | sid device samples | err | [sid |] | ty];
        cbn [websocket_step]; try exact Hok.
      - destruct (falsy (Some sid)); [exact Hok |].
        cbn [fst active_sessions]. apply map_Forall_insert_2; [| exact Hok].
        apply (service_detector_default (time_time env)).
      - set (detector := match active_sessions srv !! sid with
                         | Some detector => detector
                         | None => SwingDetector_default (time_time env)
                         end).
        assert (Hd : service_detector detector).
        { subst detector. destruct (active_sessions srv !! sid) eqn:E.
          - apply (Hok _ _ E).
          - apply service_detector_default. }
        destruct realtime.
        + pose proof (service_detector_process detector
                        (map to_sensor_sample samples) Hd) as Hd'.
          destruct (process_batch detector (map to_sensor_sample samples))
            as [detector' result].
          simpl in Hd'.
          destruct result as [detected | e].
          * destruct (send_swings _ sid detector' detected) as [[db' sent] sending].
            cbn [fst active_sessions]. apply map_Forall_insert_2; assumption.
          * cbn [fst active_sessions]. apply map_Forall_insert_2; assumption.
        + cbn [fst active_sessions]. apply map_Forall_insert_2; assumption.
      - destruct (active_sessions srv !! sid); [| exact Hok].
        cbn [fst active_sessions]. apply map_Forall_delete. exact Hok. }
    destruct (websocket_step realtime env srv message) as [srv1 sent].
    specialize (IH srv1 Hstep).
    destruct (websocket_loop realtime srv1 frames) as [srv2 sent'].
    exact IH.
Qed.

(** X17.  How a valid sensor batch is answered on such a registry.  With
    detection disabled nothing is sent.  With detection enabled, when
    [process_batch] raises, which it can only do with [OverflowError] on a
    reading of [2 ** 512] or more, the answer is one error message; when it
    returns, the answer is one [swing_detected] message for each swing up to
    the first whose shot id cannot be made, in order, followed by one error
    message if there is such a swing. *)
Theorem sensor_batch_answers
        (realtime : bool) (env : Env) (srv : Server) (session_id device : string)
        (samples : list SensorSampleModel) :
  map_Forall (fun _ d => service_detector d) (active_sessions srv) ->
  let detector := default (SwingDetector_default (time_time env))
                          (active_sessions srv !! session_id) in
  let run := process_batch detector (map to_sensor_sample samples) in
  let answer :=
    (websocket_step realtime env srv (SensorBatch session_id device samples)).2 in
  let sent_for (peak : SwingPeak) (response : Response) :=
    exists shot_id,
      format_shot_id (peak_timestamp peak) (total_peaks_detected run.1) = Returned shot_id /\
      response = SwingDetected session_id (swing_data_of shot_id peak) in
  (realtime = false -> answer = []) /\
  (realtime = true ->
   (forall e, run.2 = Raised e ->
              e = pow_overflow /\
              answer = [ErrorResponse (String.append "Processing error: " (str_exn e))]) /\
   (forall events, run.2 = Returned events ->
      exists done rest sent,
        events = done ++ rest /\ Forall2 sent_for done sent /\
        (rest = [] /\ answer = sent \/
         exists e peak rest',
           rest = peak :: rest' /\
           format_shot_id (peak_timestamp peak) (total_peaks_detected run.1) = Raised e /\
           answer = sent ++ [ErrorResponse (String.append "Processing error: "
                                                          (str_exn e))]))).
Proof.
  intros Hok detector run answer sent_for.
  assert (Hd : service_detector detector).
  { subst detector. destruct (active_sessions srv !! session_id) eqn:E; simpl.
    - apply (Hok _ _ E).
    - apply service_detector_default. }
  subst answer. cbn [websocket_step].
  replace (match active_sessions srv !! session_id with
           | Some detector0 => detector0
           | None => SwingDetector_default (time_time env)
           end) with detector
    by (subst detector; destruct (active_sessions srv !! session_id); reflexivity).
  split; [intros ->; reflexivity |]. intros ->.
  pose proof (process_batch_raises detector (map to_sensor_sample samples)) as Hraise.
  fold run in Hraise. subst sent_for.
  destruct (process_batch detector (map to_sensor_sample samples))
    as [detector' result] eqn:Erun.
  subst run. cbn [fst snd] in *. split.
  - intros e ->. destruct (Hraise e eq_refl) as [-> | [Hmd _]].
    + split; reflexivity.
    + destruct Hd as (_ & _ & Hmd' & _). lia.
  - intros events ->.
    destruct (send_swings_spec events
                (insert_raw_sensor_buffer (database srv) (uuid4_hex12 env) session_id
                   (map to_sample_dict (map to_sensor_sample samples)))
                session_id detector')
      as (db' & sent & result & done & rest & new & Hrun & Hsplit & Hsent & Hres & _).
    rewrite Hrun. cbn [snd].
    exists done, rest, sent. split; [exact Hsplit |]. split; [exact Hsent |].
    destruct Hres as [[-> ->] | (e & peak & rest' & -> & -> & Hfail)].
    + left. split; reflexivity.
    + right. exists e, peak, rest'. repeat split. exact Hfail.
Qed.

Lemma insert_session_shots (db : Database) (session_id device : string) (t : Q) :
  shots (insert_session db session_id device t) = shots db.
Proof. unfold insert_session. destruct (schema_admits_session db _); reflexivity. Qed.

Lemma insert_raw_shots (db : Database) (uuid session_id : string)
      (samples : list SensorSampleModel) :
  shots (insert_raw_sensor_buffer db uuid session_id samples) = shots db.
Proof.
  unfold insert_raw_sensor_buffer. destruct samples; [reflexivity |].
  destruct (List.find _ _); [reflexivity |].
  destruct (schema_admits_raw db _); reflexivity.
Qed.

Lemma update_session_end_shots (db : Database) (session_id : string) (t : Q) (n : nat) :
  shots (update_session_end db session_id t n) = shots db.
Proof. unfold update_session_end. destruct (List.find _ _); reflexivity. Qed.

(** One frame handled with detection disabled. *)
Lemma disabled_step (env : Env) (srv : Server) (message : Message) :
  let after := websocket_step ENABLE_REALTIME_SWING_DETECTION env srv message in
  shots (database after.1) = shots (database srv) /\
  List.Forall (fun r => is_swing_detected r = false) after.2 /\
  (map_Forall (fun _ d => unused d) (active_sessions srv) ->
   map_Forall (fun _ d => unused d) (active_sessions after.1) /\
   forall sid stats, In (SessionEnded sid stats) after.2 ->
                     stat_total_samples_processed stats = O /\
                     stat_total_peaks_detected stats = O /\
                     stat_buffer_size stats = O).
Proof.
  unfold ENABLE_REALTIME_SWING_DETECTION.
  destruct message as [err | [sid |] device | sid device samples | err | [sid |] | ty];
    cbn [websocket_step];
    try (split; [reflexivity |];
         split; [repeat constructor |];
         intros Hun; split; [exact Hun |];
         intros s st [H | []]; discriminate).
  - destruct (falsy (Some sid)).
    + split; [reflexivity |]. split; [repeat constructor |].
      intros Hun. split; [exact Hun |]. intros s st [H | []]; discriminate.
    + cbn [fst snd database active_sessions].
      split; [apply insert_session_shots |]. split; [repeat constructor |].
      intros Hun. split.
      * apply map_Forall_insert_2; [| exact Hun]. repeat split.
      * intros s st [H | []]; discriminate.
  - cbn [fst snd database active_sessions].
    split; [apply insert_raw_shots |]. split; [constructor |].
    intros Hun. split; [| intros s st []].
    apply map_Forall_insert_2; [| exact Hun].
    destruct (active_sessions srv !! sid) eqn:E; [apply (Hun _ _ E) | repeat split].
  - destruct (active_sessions srv !! sid) as [detector |] eqn:E.
    + cbn [fst snd database active_sessions].
      split; [apply update_session_end_shots |]. split; [repeat constructor |].
      intros Hun. split; [apply map_Forall_delete; exact Hun |].
      intros s st [H | []]. injection H as _ <-.
      destruct (Hun _ _ E) as (H1 & H2 & H3).
      unfold get_statistics. simpl. rewrite H1, H2, H3. repeat split.
    + split; [reflexivity |]. split; [constructor |].
      intros Hun. split; [exact Hun | intros s st []].
  - split; [reflexivity |]. split; [constructor |].
    intros Hun. split; [exact Hun | intros s st []].
Qed.

(** X18.  With real-time detection disabled (the shipped configuration) no
    sequence of frames makes the service send a [swing_detected] message or
    write a row to the shots table. *)
Theorem disabled_mode_never_detects (srv : Server) (frames : list (Env * Message)) :
  let after := websocket_loop ENABLE_REALTIME_SWING_DETECTION srv frames in
  shots (database after.1) = shots (database srv) /\
  List.Forall (fun r => is_swing_detected r = false) after.2.
Proof.
  revert srv. induction frames as [| [env message] frames IH]; intros srv.
  - split; [reflexivity | constructor].
  - cbn [websocket_loop].
    destruct (disabled_step env srv message) as (H1 & H2 & _).
    destruct (websocket_step ENABLE_REALTIME_SWING_DETECTION env srv message)
      as [srv1 sent].
    specialize (IH srv1).
    destruct (websocket_loop ENABLE_REALTIME_SWING_DETECTION srv1 frames)
      as [srv2 sent'].
    simpl in *. destruct IH as [IH1 IH2].
    split; [congruence | apply List.Forall_app; split; assumption].
Qed.

(** X19.  With real-time detection disabled, starting from a registry of
    detectors that have processed nothing (the empty registry at start-up),
    detectors never process anything: whatever batches are sent, every
    [session_ended] message reports 0 samples processed, 0 peaks and an
    empty buffer. *)
Theorem disabled_mode_reports_no_samples (srv : Server) (frames : list (Env * Message)) :
  map_Forall (fun _ d => unused d) (active_sessions srv) ->
  let after := websocket_loop ENABLE_REALTIME_SWING_DETECTION srv frames in
  map_Forall (fun _ d => unused d) (active_sessions after.1) /\
  forall sid stats, In (SessionEnded sid stats) after.2 ->
                    stat_total_samples_processed stats = O /\
                    stat_total_peaks_detected stats = O /\
                    stat_buffer_size stats = O.
Proof.
  revert srv. induction frames as [| [env message] frames IH]; intros srv Hun.
  - split; [exact Hun | intros sid stats []].
  - cbn [websocket_loop].
    destruct (disabled_step env srv message) as (_ & _ & H3).
    destruct (H3 Hun) as [Hun1 Hrep1].
    destruct (websocket_step ENABLE_REALTIME_SWING_DETECTION env srv message)
      as [srv1 sent].
    specialize (IH srv1 Hun1).
    destruct (websocket_loop ENABLE_REALTIME_SWING_DETECTION srv1 frames)
      as [srv2 sent'].
    simpl in *. destruct IH as [IH1 IH2].
    split; [exact IH1 |].
    intros sid stats Hin. apply in_app_or in Hin.
    destruct Hin as [Hin | Hin]; [apply (Hrep1 sid stats Hin) | apply (IH2 sid stats Hin)].
Qed.

(** X20.  A disconnect removes the connection's current session from the
    registry and does nothing else: the other sessions and the whole
    database stay as they were (the end of the session is not written to the
    sessions table), and a second clean-up changes nothing. *)
Theorem disconnect_cleans_current_session (srv : Server) :
  let after := handle_disconnect srv in
  database after = database srv /\
  current_session_id after = current_session_id srv /\
  (forall sid, current_session_id srv = Some sid -> sid <> EmptyString ->
               active_sessions after !! sid = None) /\
  (forall sid, current_session_id srv <> Some sid ->
               active_sessions after !! sid = active_sessions srv !! sid) /\
  handle_disconnect after = after.
Proof.
  destruct srv as [m db [cur |]]; unfold handle_disconnect;
    cbn [current_session_id active_sessions database falsy].
  - destruct (String.eqb cur EmptyString) eqn:Ee.
    + cbn [current_session_id active_sessions database falsy]. rewrite Ee.
      split; [reflexivity |]. split; [reflexivity |].
      split; [| split; reflexivity].
      intros sid [= <-] Hne. apply String.eqb_eq in Ee. congruence.
    + destruct (m !! cur) as [d |] eqn:E;
        cbn [current_session_id active_sessions database falsy]; rewrite Ee.
      * rewrite lookup_delete_eq.
        split; [reflexivity |]. split; [reflexivity |].
        split; [intros sid [= <-] _; apply lookup_delete_eq |].
        split; [| reflexivity].
        intros sid Hsid. apply lookup_delete_ne. congruence.
      * rewrite E.
        split; [reflexivity |]. split; [reflexivity |].
        split; [intros sid [= <-] _; exact E |]. split; reflexivity.
  - split; [reflexivity |]. split; [reflexivity |].
    split; [intros sid H; discriminate |]. split; reflexivity.
Qed.


(* ===================================================================== *)
(** * Properties of the query endpoints *)
(* ===================================================================== *)

Section OrderBy.

Context {A : Type} (before : A -> A -> bool).
Hypothesis before_asym : forall a b, before a b = true -> before b a = false.
Hypothesis not_before_trans :
  forall a b c, before b a = false -> before c b = false -> before c a = false.

Lemma insert_by_perm (a : A) (sorted : list A) :
  Permutation (insert_by before a sorted) (a :: sorted).
Proof.
  induction sorted as [| b rest IH]; simpl; [reflexivity |].
  destruct (before a b); [reflexivity |]. rewrite IH. apply perm_swap.
Qed.

Lemma order_by_fold_perm (l acc : list A) :
  Permutation (fold_left (fun sorted a => insert_by before a sorted) l acc) (l ++ acc).
Proof.
  revert acc. induction l as [| a l IH]; intros acc; simpl; [reflexivity |].
  rewrite IH, insert_by_perm. symmetry. apply Permutation_middle.
Qed.

Lemma order_by_perm (l : list A) : Permutation (order_by before l) l.
Proof. unfold order_by. rewrite order_by_fold_perm, app_nil_r. reflexivity. Qed.

Lemma insert_by_sorted (a : A) (sorted : list A) :
  StronglySorted (fun x y => before y x = false) sorted ->
  StronglySorted (fun x y => before y x = false) (insert_by before a sorted).
Proof.
  intros Hs. induction Hs as [| b rest Hs IH Hall]; simpl.
  - constructor; constructor.
  - destruct (before a b) eqn:E.
    + constructor; [constructor; assumption |].
      constructor; [apply before_asym; exact E |].
      eapply List.Forall_impl; [| exact Hall]. intros x Hx. simpl in Hx.
      apply (not_before_trans a b x); [apply before_asym; exact E | exact Hx].
    + constructor; [exact IH |].
      apply List.Forall_forall. intros x Hx.
      apply (Permutation_in _ (insert_by_perm a rest)) in Hx.
      destruct Hx as [<- | Hx]; [exact E |].
      rewrite List.Forall_forall in Hall. apply Hall. exact Hx.
Qed.

Lemma order_by_sorted (l : list A) :
  StronglySorted (fun x y => before y x = false) (order_by before l).
Proof.
  unfold order_by.
  assert (H : forall l acc,
             StronglySorted (fun x y => before y x = false) acc ->
             StronglySorted (fun x y => before y x = false)
               (fold_left (fun sorted a => insert_by before a sorted) l acc)).
  { clear l. induction l as [| a l IH]; intros acc Hacc; simpl; [exact Hacc |].
    apply IH, insert_by_sorted, Hacc. }
  apply H. constructor.
Qed.

End OrderBy.



(** X23.  [get_session] answers in one of three ways.  A session in the
    registry is reported active with its detector's statistics, whatever the
    database holds.  Otherwise a session with a row in the sessions table is
    reported from that row, with exactly the shots stored for it, by
    ascending sequence number.  Otherwise the answer is HTTP 404. *)
Theorem get_session_answers (srv : Server) (now : Q) (session_id : string) :
  match get_session srv now session_id with
  | AnswerActive sid statistics =>
      sid = session_id /\
      exists detector, active_sessions srv !! session_id = Some detector
                       /\ statistics = get_statistics detector now
  | AnswerCompleted info reported =>
      active_sessions srv !! session_id = None /\
      si_session_id info = session_id /\
      (exists row, In row (sessions (database srv)) /\ info = session_info row) /\
      exists rows,
        reported = map shot_info rows /\
        Permutation rows
          (List.filter (fun r => String.eqb (shot_session_id r) session_id)
                       (shots (database srv))) /\
        StronglySorted (fun a b => (shot_sequence_number a <= shot_sequence_number b)%nat)
                       rows
  | AnswerHttpError status_code detail =>
      status_code = 404%nat /\
      active_sessions srv !! session_id = None /\
      forall row, In row (sessions (database srv)) -> ses_session_id row <> session_id
  end.
Proof.
  unfold get_session.
  destruct (active_sessions srv !! session_id) as [detector |]; [eauto |].
  destruct (List.find _ (sessions (database srv))) as [row |] eqn:Efind.
  - apply List.find_some in Efind. destruct Efind as [Hin Hid].
    apply String.eqb_eq in Hid.
    split; [reflexivity |]. split; [exact Hid |]. split; [eauto |].
    exists (session_shots (database srv) session_id). unfold session_shots.
    split; [reflexivity |]. split; [apply order_by_perm |].
    set (before := fun a b : ShotRow =>
                     (shot_sequence_number a <? shot_sequence_number b)%nat).
    assert (H : StronglySorted (fun x y => before y x = false)
                  (order_by before
                     (List.filter (fun r => String.eqb (shot_session_id r) session_id)
                                  (shots (database srv))))).
    { apply order_by_sorted; unfold before.
      - intros a b H. apply Nat.ltb_lt in H. apply Nat.ltb_ge. lia.
      - intros a b c H1 H2. apply Nat.ltb_ge in H1, H2. apply Nat.ltb_ge. lia. }
    induction H as [| a l Hs IH Hall]; constructor; [exact IH |].
    eapply List.Forall_impl; [| exact Hall]. intros b Hb. simpl in Hb.
    unfold before in Hb. apply Nat.ltb_ge in Hb. exact Hb.
  - split; [reflexivity |]. split; [reflexivity |].
    intros row Hin. apply (List.find_none _ _ Efind) in Hin.
    apply String.eqb_neq. exact Hin.
Qed.

Lemma insert_raw_sessions (db : Database) (uuid session_id : string)
      (samples : list SensorSampleModel) :
  sessions (insert_raw_sensor_buffer db uuid session_id samples) = sessions db.
Proof.
  unfold insert_raw_sensor_buffer. destruct samples; [reflexivity |].
  destruct (List.find _ _); [reflexivity |].
  destruct (schema_admits_raw db _); reflexivity.
Qed.

Lemma update_session_end_ids (db : Database) (session_id : string) (t : Q) (n : nat) :
  map ses_session_id (sessions (update_session_end db session_id t n))
  = map ses_session_id (sessions db).
Proof.
  unfold update_session_end. destruct (List.find _ _); [| reflexivity].
  cbn [sessions]. rewrite map_map. apply map_ext. intros r.
  destruct (String.eqb (ses_session_id r) session_id); reflexivity.
Qed.

Lemma non_start_keeps_session_ids (realtime : bool) (env : Env) (srv : Server)
      (message : Message) :
  is_session_start message = false ->
  map ses_session_id (sessions (database (websocket_step realtime env srv message).1))
  = map ses_session_id (sessions (database srv)).
Proof.
  intros Hns.
  destruct message as [err | sid device | sid device samples | err | [sid |] | ty];
    try discriminate; cbn [websocket_step]; try reflexivity.
  - destruct realtime.
    + destruct (process_batch _ _) as [detector' result].
      destruct result as [detected | e].
      * destruct (send_swings_spec detected
                    (insert_raw_sensor_buffer (database srv) (uuid4_hex12 env) sid
                       (map to_sample_dict (map to_sensor_sample samples)))
                    sid detector')
          as (db' & sent & sending & done & rest & new & Hrun & _ & _ & _ & Hs & _).
        rewrite Hrun.
        cbn [fst database] in *. rewrite Hs, insert_raw_sessions. reflexivity.
      * cbn [fst database]. rewrite insert_raw_sessions. reflexivity.
    + cbn [fst database]. rewrite insert_raw_sessions. reflexivity.
  - destruct (active_sessions srv !! sid); [| reflexivity].
    cbn [fst database]. apply update_session_end_ids.
Qed.

(** X24.  Only a [session_start] frame writes a sessions row.  A session
    that was opened by its first sensor batch has none, so once it is no
    longer active [get_session] answers 404 for it: over frames without a
    [session_start], a session id absent from the sessions table stays
    absent. *)
Theorem auto_started_session_is_never_stored
        (realtime : bool) (srv : Server) (frames : list (Env * Message))
        (now : Q) (session_id : string) :
  List.Forall (fun frame => is_session_start frame.2 = false) frames ->
  (forall row, In row (sessions (database srv)) -> ses_session_id row <> session_id) ->
  let after := (websocket_loop realtime srv frames).1 in
  map ses_session_id (sessions (database after))
  = map ses_session_id (sessions (database srv)) /\
  (active_sessions after !! session_id = None ->
   get_session after now session_id
   = AnswerHttpError 404 (String.append "Session not found: " session_id)).
Proof.
  intros Hframes Habsent after. subst after.
  assert (Hids : map ses_session_id
                     (sessions (database (websocket_loop realtime srv frames).1))
                 = map ses_session_id (sessions (database srv))).
  { clear Habsent. revert srv.
    induction Hframes as [| [env message] frames Hm Hframes IH]; intros srv;
      [reflexivity |].
    cbn [websocket_loop].
    pose proof (non_start_keeps_session_ids realtime env srv message Hm) as Hstep.
    destruct (websocket_step realtime env srv message) as [srv1 sent].
    specialize (IH srv1).
    destruct (websocket_loop realtime srv1 frames) as [srv2 sent'].
    simpl in *. congruence. }
  split; [exact Hids |].
  intros Hinactive. unfold get_session. rewrite Hinactive.
  destruct (List.find _ _) as [row |] eqn:Efind; [| reflexivity].
  exfalso. apply List.find_some in Efind. destruct Efind as [Hin Hid].
  apply String.eqb_eq in Hid.
  assert (Hin' : In session_id
                    (map ses_session_id
                         (sessions (database (websocket_loop realtime srv frames).1)))).
  { rewrite <- Hid. apply List.in_map. exact Hin. }
  rewrite Hids in Hin'. apply List.in_map_iff in Hin'.
  destruct Hin' as (r & Hr & Hrin). apply (Habsent r Hrin Hr).
Qed.

(* ===================================================================== *)
(** * Properties of the CSV import *)
(* ===================================================================== *)

Lemma range_step_concat {A : Type} (step m : nat) (l : list A) :
  concat (map (fun i => take step (drop i l)) (map (fun k => (k * step)%nat) (seq 0 m)))
  = take (m * step) l.
Proof.
  induction m as [| m IH]; [reflexivity |].
  rewrite seq_S, !map_app, concat_app, IH. simpl.
  rewrite app_nil_r, take_take_drop. f_equal. lia.
Qed.

Lemma csv_batches_concat (batch_size : nat) (samples : list SensorSample) :
  (0 < batch_size)%nat -> concat (csv_batches batch_size samples) = samples.
Proof.
  intros Hpos. unfold csv_batches, range_step.
  rewrite range_step_concat. apply take_ge.
  pose proof (Nat.div_mod_eq (length samples + batch_size - 1) batch_size) as Hdm.
  pose proof (Nat.mod_upper_bound (length samples + batch_size - 1) batch_size
                ltac:(lia)) as Hub.
  nia.
Qed.

(** X25.  The batches [process_csv_file] feeds to the detector are
    consecutive slices of the samples: put end to end they give back the
    samples, none is empty and none is longer than the batch size. *)
Theorem csv_batches_partition (batch_size : nat) (samples : list SensorSample) :
  (0 < batch_size)%nat ->
  concat (csv_batches batch_size samples) = samples /\
  List.Forall (fun batch => (1 <= length batch <= batch_size)%nat)
              (csv_batches batch_size samples).
Proof.
  intros Hpos. split; [apply csv_batches_concat; exact Hpos |].
  unfold csv_batches, range_step.
  set (m := ((length samples + batch_size - 1) / batch_size)%nat).
  assert (Hm2 : forall k, (k < m)%nat -> (k * batch_size < length samples)%nat).
  { intros k Hk.
    pose proof (Nat.div_mod_eq (length samples + batch_size - 1) batch_size) as Hdm.
    fold m in Hdm. nia. }
  apply List.Forall_forall. intros batch Hin.
  apply List.in_map_iff in Hin. destruct Hin as (i & <- & Hi).
  apply List.in_map_iff in Hi. destruct Hi as (k & <- & Hk).
  apply List.in_seq in Hk. specialize (Hm2 k ltac:(lia)).
  rewrite length_take, length_drop. lia.
Qed.



(* ===================================================================== *)
(** * The debounce test on finite timestamps *)
(* ===================================================================== *)

Lemma StronglySorted_app_cross {A} (R : A -> A -> Prop) (l1 l2 : list A) :
  StronglySorted R l1 -> StronglySorted R l2 ->
  List.Forall (fun a => List.Forall (R a) l2) l1 ->
  StronglySorted R (l1 ++ l2).
Proof.
  intros H1 H2. induction H1 as [| a l1 H1 IH Hhead]; intros Hcross; [exact H2 |].
  simpl. constructor.
  - apply IH. exact (List.Forall_inv_tail Hcross).
  - apply List.Forall_app. split; [exact Hhead | exact (List.Forall_inv Hcross)].
Qed.

Section FiniteTimestamps.

(** Rounding to the nearest double keeps the order of the reals and does
    not lift zero. *)
Hypothesis fl_monotone : forall a b : Q, a <= b -> fl a <= fl b.
Hypothesis fl_zero : fl 0 <= 0.

Variable interval : Q.
Hypothesis interval_positive : 0 < interval.

Lemma passed_gate_later (a b : Q) : interval <= fl (b - a) -> a < b.
Proof.
  intros H. destruct (Qlt_le_dec a b) as [Hlt | Hge]; [exact Hlt |].
  assert (Hfl : fl (b - a) <= fl 0) by (apply fl_monotone; lra). lra.
Qed.

Lemma passed_gate_trans (a b c : Q) :
  passed_gate interval a b -> passed_gate interval b c -> passed_gate interval a c.
Proof.
  unfold passed_gate. intros H1 H2.
  pose proof (passed_gate_later _ _ H1). pose proof (passed_gate_later _ _ H2).
  apply Qle_trans with (fl (c - b)); [exact H2 |]. apply fl_monotone. lra.
Qed.

Lemma passed_gate_last (prev : Q) (ts : list Q) :
  StronglySorted (passed_gate interval) (prev :: ts) ->
  (List.last ts prev = prev /\ ts = [] \/ passed_gate interval prev (List.last ts prev)) /\
  List.Forall (fun t => t = List.last ts prev \/ passed_gate interval t (List.last ts prev)) ts.
Proof.
  revert prev. induction ts as [| t ts IH]; intros prev Hs.
  - split; [left; split; reflexivity | constructor].
  - apply StronglySorted_inv in Hs. destruct Hs as [Hs' Hall].
    destruct (IH t Hs') as [Hlast Hrest].
    assert (Heq : List.last (t :: ts) prev = List.last ts t).
    { destruct ts as [| u ts]; [reflexivity |].
      change (List.last (t :: u :: ts) prev) with (List.last (u :: ts) prev).
      apply last_cons_default. }
    rewrite Heq. pose proof (List.Forall_inv Hall) as Hpt.
    split.
    + right. destruct Hlast as [[-> _] | Hlast]; [exact Hpt |].
      exact (passed_gate_trans _ _ _ Hpt Hlast).
    + constructor.
      * destruct Hlast as [[-> _] | Hlast]; [left; reflexivity | right; exact Hlast].
      * exact Hrest.
Qed.

(** The stamps the peak loop accepts, on a buffer of finite stamps. *)
Lemma filter_peaks_finite (peaks : list nat) (d : SwingDetector)
      (detected : list SwingPeak) (prev : Q) :
  min_peak_interval d = interval ->
  List.Forall (fun p => (p < length (buffer d))%nat) peaks ->
  List.Forall (fun s => exists t, timestamp s = Finite t) (buffer d) ->
  last_peak_timestamp d = Finite prev ->
  exists d' o ts,
    filter_peaks d peaks detected = (d', o) /\
    last_peak_timestamp d' = Finite (List.last ts prev) /\
    StronglySorted (passed_gate interval) (prev :: ts) /\
    (forall events, o = Returned events ->
                    exists new, events = detected ++ new /\
                                map peak_timestamp new = map Finite ts).
Proof.
  intros Hint Hrange Hfin. revert d detected prev Hint Hrange Hfin.
  induction peaks as [| p peaks IH]; intros d detected prev Hint Hrange Hfin Hprev.
  - exists d, (Returned detected), []. simpl.
    split; [reflexivity |]. split; [exact Hprev |].
    split; [constructor; constructor |].
    intros events [= <-]. exists []. rewrite app_nil_r. split; reflexivity.
  - pose proof (List.Forall_inv Hrange) as Hp. pose proof (List.Forall_inv_tail Hrange) as Hrest.
    cbn [filter_peaks].
    destruct (lookup_lt_is_Some_2 (buffer d) p Hp) as [s Hs]. rewrite Hs.
    assert (Hin : In s (buffer d))
      by (apply list_elem_of_In, list_elem_of_lookup; eauto).
    rewrite List.Forall_forall in Hfin. destruct (Hfin s Hin) as [t Ht].
    destruct (too_close d (timestamp s)) eqn:Eclose.
    { apply IH; try assumption. apply List.Forall_forall. exact Hfin. }
    destruct (acceleration_overflows s).
    { exists d, (Raised pow_overflow), []. simpl.
      split; [reflexivity |]. split; [exact Hprev |].
      split; [constructor; constructor | discriminate]. }
    assert (Hpass : passed_gate interval prev t).
    { unfold too_close in Eclose. rewrite Ht, Hprev in Eclose.
      cbn [float_sub float_lt] in Eclose. apply Qlt_bool_false in Eclose.
      unfold passed_gate. rewrite <- Hint. exact Eclose. }
    destruct (IH (record_peak d (timestamp s)) (detected ++ [swing_peak_at p s]) t)
      as (d' & o & ts & Hrun & Hlast & Hsorted & Hret);
      [exact Hint | exact Hrest | apply List.Forall_forall; exact Hfin
       | simpl; exact Ht |].
    exists d', o, (t :: ts). rewrite Hrun.
    split; [reflexivity |].
    split.
    { rewrite Hlast. f_equal. destruct ts as [| u ts]; [reflexivity |].
      change (List.last (t :: u :: ts) prev) with (List.last (u :: ts) prev).
      symmetry. apply last_cons_default. }
    split.
    { constructor; [exact Hsorted |].
      constructor; [exact Hpass |].
      pose proof (proj2 (StronglySorted_inv Hsorted)) as Hall.
      eapply List.Forall_impl; [| exact Hall].
      intros u Hu. exact (passed_gate_trans _ _ _ Hpass Hu). }
    intros events Ho. destruct (Hret events Ho) as (new & -> & Hnew).
    exists (swing_peak_at p s :: new). rewrite <- app_assoc.
    split; [reflexivity |]. simpl. rewrite Ht, Hnew. reflexivity.
Qed.

(** One call on finite stamps: what it accepts, and what it returns, which
    is all of it or, when it raises, nothing. *)
Lemma process_batch_finite (d : SwingDetector) (samples : list SensorSample) (prev : Q) :
  min_peak_interval d = interval ->
  List.Forall (fun s => exists t, timestamp s = Finite t) (buffer d ++ samples) ->
  last_peak_timestamp d = Finite prev ->
  exists ts returned,
    last_peak_timestamp (process_batch d samples).1 = Finite (List.last ts prev) /\
    StronglySorted (passed_gate interval) (prev :: ts) /\
    map peak_timestamp (returned_events (process_batch d samples).2) = map Finite returned /\
    (returned = ts \/ returned = []).
Proof.
  intros Hint Hfin Hprev.
  assert (Hnone : forall d1 o, last_peak_timestamp d1 = last_peak_timestamp d ->
                               returned_events o = [] ->
                               exists ts returned,
                                 last_peak_timestamp (d1, o).1 = Finite (List.last ts prev) /\
                                 StronglySorted (passed_gate interval) (prev :: ts) /\
                                 map peak_timestamp (returned_events (d1, o).2)
                                 = map Finite returned /\
                                 (returned = ts \/ returned = [])).
  { intros d1 o Hd1 Ho. exists [], []. cbn [fst snd]. rewrite Hd1, Ho.
    split; [exact Hprev |]. split; [constructor; constructor |].
    split; [reflexivity | left; reflexivity]. }
  destruct samples as [| s0 samples]; [apply Hnone; reflexivity |].
  unfold process_batch.
  set (d1 := add_samples d (s0 :: samples)).
  destruct (Z.of_nat (length (buffer d1)) <? min_distance d1 * 2)%Z;
    [apply Hnone; reflexivity |].
  destruct (existsb rotation_overflows (buffer d1)); [apply Hnone; reflexivity |].
  destruct (SciPy.find_peaks (map rotation_magnitude (buffer d1)) (threshold d1)
                             (min_distance d1)) as [peaks | e] eqn:Efp;
    [| apply Hnone; reflexivity].
  apply find_peaks_in_range in Efp. rewrite length_map in Efp.
  destruct (filter_peaks_finite peaks d1 [] prev Hint Efp)
    as (d' & o & ts & Hrun & Hlast & Hsorted & Hret).
  { apply List.Forall_forall. intros s Hs.
    rewrite List.Forall_forall in Hfin. apply Hfin.
    apply (deque_extend_In (buffer_size d)). exact Hs. }
  { exact Hprev. }
  rewrite Hrun. cbn [fst snd].
  destruct o as [events | e].
  - destruct (Hret events eq_refl) as (new & Hev & Hnew). simpl in Hev. rewrite <- Hev in Hnew.
    exists ts, ts. split; [exact Hlast |]. split; [exact Hsorted |].
    split; [exact Hnew | left; reflexivity].
  - exists ts, []. split; [exact Hlast |]. split; [exact Hsorted |].
    split; [reflexivity | right; reflexivity].
Qed.

Lemma ingest_all_finite (batches : list (list SensorSample)) (d : SwingDetector) (prev : Q) :
  min_peak_interval d = interval ->
  List.Forall (fun s => exists t, timestamp s = Finite t) (buffer d ++ concat batches) ->
  last_peak_timestamp d = Finite prev ->
  exists ts last,
    map peak_timestamp (ingest_all d batches).2 = map Finite ts /\
    last_peak_timestamp (ingest_all d batches).1 = Finite last /\
    StronglySorted (passed_gate interval) (prev :: ts) /\
    (last = prev \/ passed_gate interval prev last) /\
    List.Forall (fun t => t = last \/ passed_gate interval t last) ts.
Proof.
  revert d prev. induction batches as [| b batches IH]; intros d prev Hint Hfin Hprev.
  - exists [], prev. simpl. split; [reflexivity |]. split; [exact Hprev |].
    split; [constructor; constructor |]. split; [left; reflexivity | constructor].
  - rewrite List.Forall_forall in Hfin.
    destruct (process_batch_finite d b prev Hint) as (ts1 & ret1 & Hlast1 & Hs1 & Hret1 & Hsub);
      [apply List.Forall_forall; intros s Hs; apply Hfin; simpl; rewrite app_assoc;
       apply in_or_app; left; exact Hs
      | exact Hprev |].
    destruct (process_batch_spec d b)
      as (d1 & o & accepted & Hrun & _ & _ & _ & Hbuf & _ & Hset).
    rewrite Hrun in Hlast1, Hret1. cbn [fst snd] in Hlast1, Hret1.
    destruct Hset as (_ & _ & _ & _ & Hmpi & _).
    destruct (IH d1 (List.last ts1 prev)) as (ts2 & last & Hev2 & Hlast2 & Hs2 & Hrel2 & Hall2).
    { rewrite Hmpi. exact Hint. }
    { apply List.Forall_forall. intros s Hs. apply Hfin. simpl. rewrite app_assoc.
      apply in_app_or in Hs. apply in_or_app.
      destruct Hs as [Hs | Hs]; [left | right; exact Hs].
      rewrite Hbuf in Hs. apply (deque_extend_In (buffer_size d)). exact Hs. }
    { exact Hlast1. }
    destruct (passed_gate_last prev ts1 Hs1) as [Hp1 Hall1].
    set (last1 := List.last ts1 prev) in *.
    assert (Hprev_last : last = prev \/ passed_gate interval prev last).
    { destruct Hp1 as [[-> _] | Hp1]; [exact Hrel2 |].
      right. destruct Hrel2 as [-> | Hrel2]; [exact Hp1 |].
      exact (passed_gate_trans _ _ _ Hp1 Hrel2). }
    assert (Hprev_ts2 : List.Forall (passed_gate interval prev) ts2).
    { pose proof (proj2 (StronglySorted_inv Hs2)) as Hall.
      destruct Hp1 as [[-> _] | Hp1]; [exact Hall |].
      eapply List.Forall_impl; [| exact Hall].
      intros u Hu. exact (passed_gate_trans _ _ _ Hp1 Hu). }
    assert (Hsorted2 : StronglySorted (passed_gate interval) ts2)
      by exact (proj1 (StronglySorted_inv Hs2)).
    exists (ret1 ++ ts2), last.
    cbn [ingest_all]. rewrite Hrun.
    destruct (ingest_all d1 batches) as [d2 events2]. cbn [fst snd] in *.
    split; [rewrite !map_app, Hret1, Hev2; reflexivity |].
    split; [exact Hlast2 |].
    destruct Hsub as [-> | ->].
    + split.
      { constructor.
        - clear Hall1. pose proof (proj1 (StronglySorted_inv Hs1)) as Hsorted1.
          assert (Hcross : List.Forall
                             (fun t => List.Forall (passed_gate interval t) ts2) ts1).
          { pose proof (proj2 (passed_gate_last prev ts1 Hs1)) as Hall1.
            fold last1 in Hall1.
            eapply List.Forall_impl; [| exact Hall1].
            intros t Ht. pose proof (proj2 (StronglySorted_inv Hs2)) as Hall.
            destruct Ht as [-> | Ht]; [exact Hall |].
            eapply List.Forall_impl; [| exact Hall].
            intros u Hu. exact (passed_gate_trans _ _ _ Ht Hu). }
          exact (StronglySorted_app_cross _ _ _ Hsorted1 Hsorted2 Hcross).
        - apply List.Forall_app. split; [| exact Hprev_ts2].
          exact (proj2 (StronglySorted_inv Hs1)). }
      split; [exact Hprev_last |].
      apply List.Forall_app. split; [| exact Hall2].
      eapply List.Forall_impl; [| exact Hall1].
      intros t [-> | Ht].
      * destruct Hrel2 as [-> | Hrel2]; [left; reflexivity | right; exact Hrel2].
      * right. destruct Hrel2 as [-> | Hrel2]; [exact Ht |].
        exact (passed_gate_trans _ _ _ Ht Hrel2).
    + simpl. split; [constructor; assumption |].
      split; [exact Hprev_last | exact Hall2].
Qed.

End FiniteTimestamps.

(** X29.  Rounding keeps the order of the reals and does not lift zero.
    On a detector whose [min_peak_interval] is positive and whose
    [last_peak_timestamp] is finite, fed batches whose timestamps are all
    finite, in any order: the timestamps of the swings returned over the
    calls are finite and strictly increase from [last_peak_timestamp] on, and
    the difference of any two of them, and of each and the
    [last_peak_timestamp] the calls started from, rounds to no less than
    [min_peak_interval]; [last_peak_timestamp] ends finite, not below where
    it started and not below any of them. *)
Theorem finite_timestamps_are_spaced
        (d : SwingDetector) (batches : list (list SensorSample)) (prev : Q) :
  (forall a b : Q, a <= b -> fl a <= fl b) ->
  fl 0 <= 0 ->
  0 < min_peak_interval d ->
  last_peak_timestamp d = Finite prev ->
  List.Forall (fun s => exists t, timestamp s = Finite t) (buffer d ++ concat batches) ->
  exists ts last,
    map peak_timestamp (ingest_all d batches).2 = map Finite ts /\
    last_peak_timestamp (ingest_all d batches).1 = Finite last /\
    StronglySorted (fun a b => a < b /\ min_peak_interval d <= fl (b - a)) (prev :: ts) /\
    prev <= last /\
    List.Forall (fun t => t <= last) ts.
Proof.
  intros Hmono Hzero Hpos Hprev Hfin.
  destruct (ingest_all_finite Hmono Hzero (min_peak_interval d) Hpos batches d prev
              eq_refl Hfin Hprev)
    as (ts & last & Hev & Hlast & Hsorted & Hrel & Hall).
  pose proof (passed_gate_later Hmono Hzero (min_peak_interval d) Hpos) as Hlater.
  exists ts, last. split; [exact Hev |]. split; [exact Hlast |].
  split.
  { clear -Hsorted Hlater. induction Hsorted as [| a l Hs IH Hhead]; [constructor |].
    constructor; [exact IH |].
    eapply List.Forall_impl; [| exact Hhead].
    intros b Hb. split; [apply Hlater; exact Hb | exact Hb]. }
  split.
  { destruct Hrel as [-> | Hrel]; [lra |]. apply Hlater in Hrel. lra. }
  eapply List.Forall_impl; [| exact Hall].
  intros t [-> | Ht]; [lra |]. apply Hlater in Ht. lra.
Qed.

End Model.

(* ===================================================================== *)
(** * Runs on concrete inputs *)
(* ===================================================================== *)

Abbreviation detect := (process_batch exact_sqrt no_rounding).
Abbreviation detect_all := (ingest_all exact_sqrt no_rounding).
Abbreviation serve :=
  (websocket_step exact_sqrt no_rounding no_text plain_shot_id (fun _ => no_text)
                  no_text no_text no_text admit_all admit_all admit_all).
Abbreviation serve_all :=
  (websocket_loop exact_sqrt no_rounding no_text plain_shot_id (fun _ => no_text)
                  no_text no_text no_text admit_all admit_all admit_all).

(** A property of every element of a list, decided by running its test. *)
Lemma Forall_by_test {A : Type} (f : A -> bool) (l : list A) :
  forallb f l = true -> List.Forall (fun x => f x = true) l.
Proof.
  intros H. apply List.Forall_forall. intros x Hx.
  exact (proj1 (forallb_forall _ l) H x Hx).
Qed.

(** A bound on every element of a list, decided by running the comparison. *)
Lemma Forall_Qlt_by_test {A : Type} (f g : A -> Q) (l : list A) :
  forallb (fun x => Qlt_bool (f x) (g x)) l = true ->
  List.Forall (fun x => f x < g x) l.
Proof.
  intros H. apply List.Forall_forall. intros x Hx.
  apply Qlt_bool_true. exact (proj1 (forallb_forall _ l) H x Hx).
Qed.

(** C1, the procedure as specified against the code: on the rising
    sequence 1, 2, 2, 3 with threshold 2 the specification makes position 1 a
    candidate and accepts it, while [find_peaks] returns no peak. *)
Lemma step_is_no_peak :
  SciPy.find_peaks [1; 2; 2; 3] 2 1 = Returned []
  /\ spec_peaks [1; 2; 2; 3] 2 1 = [1%nat].
Proof. split; vm_compute; reflexivity. Qed.

Lemma find_peaks_procedure_witness :
  (1 <= 3)%Z /\
  exists order : list nat,
    List.NoDup order /\
    (forall i, In i order <->
               SciPy.plateau_midpoint [0; 3; 0; 4; 4; 0; 3; 0] i
               /\ 2 <= SciPy.at_ [0; 3; 0; 4; 4; 0; 3; 0] i) /\
    StronglySorted (fun i j => SciPy.at_ [0; 3; 0; 4; 4; 0; 3; 0] j
                               <= SciPy.at_ [0; 3; 0; 4; 4; 0; 3; 0] i) order /\
    SciPy.find_peaks [0; 3; 0; 4; 4; 0; 3; 0] 2 3
    = Returned (ordered_by_index 8 (accept_in_order 3 order [])).
Proof.
  split; [lia |].
  apply (find_peaks_procedure [0; 3; 0; 4; 4; 0; 3; 0] 2 3). lia.
Defined.

(** C2, batching against one call: with the default detector a pulse in
    the first 100 samples is detected when they arrive as a batch of their
    own, and is missed when they arrive together with 300 later samples,
    which push it out of the window before detection runs. *)
Lemma batching_changes_events :
  let first := pulse_stream 100000 100 (Nat.eqb 50) in
  let later := pulse_stream 100100 300 (fun _ => false) in
  let many := detect_all (SwingDetector_default 0) [first; later] in
  let one := detect (SwingDetector_default 0) (first ++ later) in
  map peak_index many.2 = [50%nat] /\ one.2 = Returned [] /\
  total_peaks_detected many.1 = 1%nat /\ total_peaks_detected one.1 = 0%nat.
Proof. vm_compute. repeat split; reflexivity. Qed.

(** C4, at an input where the code departs from it: for samples stamped
    from 0.00 s on with a pulse at 0.30 s, [find_peaks] yields one candidate,
    at position 30; it is the first candidate of the session, and the new
    detector skips it, 0.30 - 0.0 being below 0.5: no event is returned and
    [last_peak_timestamp] stays 0. *)
Lemma first_peak_can_be_skipped :
  let samples := pulse_stream 0 100 (Nat.eqb 30) in
  let d1 := add_samples (SwingDetector_default 0) samples in
  SciPy.find_peaks (map (rotation_magnitude exact_sqrt no_rounding) (buffer d1))
                   (threshold d1) (min_distance d1) = Returned [30%nat]
  /\ detect (SwingDetector_default 0) samples = (d1, Returned []).
Proof. vm_compute. split; reflexivity. Qed.

Lemma debounce_gate_witness :
  let d := add_samples (SwingDetector_default 0) (pulse_stream 100000 100 (Nat.eqb 50)) in
  let s := sample_at (100050 # 100) 3 in
  buffer d !! 50%nat = Some s /\
  acceleration_overflows s = false /\
  ((filter_peaks exact_sqrt no_rounding d [50%nat] []
      = (record_peak d (timestamp s),
         Returned [swing_peak_at exact_sqrt no_rounding 50 s])
    <-> too_close no_rounding d (timestamp s) = false) /\
   (filter_peaks exact_sqrt no_rounding d [50%nat] [] = (d, Returned [])
    <-> too_close no_rounding d (timestamp s) = true) /\
   last_peak_timestamp (record_peak d (timestamp s)) = timestamp s /\
   (forall t last : Q,
       timestamp s = Finite t -> last_peak_timestamp d = Finite last ->
       (too_close no_rounding d (timestamp s) = false
        <-> min_peak_interval d <= no_rounding (t - last))) /\
   (forall buffer_size threshold min_distance height_multiplier now,
       let d0 := SwingDetector_init buffer_size threshold min_distance
                                    height_multiplier now in
       last_peak_timestamp d0 = Finite 0 /\ min_peak_interval d0 = 1 # 2)).
Proof.
  split; [vm_compute; reflexivity |].
  split; [vm_compute; reflexivity |].
  apply (debounce_gate exact_sqrt no_rounding); vm_compute; reflexivity.
Defined.

(** C7, as it is worded: a detector whose window holds 99 samples, fewer
    than [2 * min_distance = 100], is given one more sample; the window then
    holds 100, detection runs, and the pulse at position 50 is returned. *)
Lemma short_window_before_append_detects :
  let d := (detect (SwingDetector_default 0) (pulse_stream 100000 99 (Nat.eqb 50))).1 in
  (Z.of_nat (length (buffer d)) < 2 * min_distance d)%Z /\
  map peak_index (returned_events (detect d (pulse_stream 100099 1 (fun _ => false))).2)
  = [50%nat].
Proof. vm_compute. split; reflexivity. Qed.

Lemma insufficient_window_defers_witness :
  let batches := [pulse_stream 100000 40 (Nat.eqb 20); pulse_stream 100040 40 (Nat.eqb 20)] in
  let samples := pulse_stream 100080 10 (fun _ => false) in
  let d := (detect_all (SwingDetector_init 300 2 50 1 0) batches).1 in
  let window := last_n 300 (concat batches ++ samples) in
  (Z.of_nat (length window) < 2 * 50)%Z /\
  exists d',
    detect d samples = (d', Returned []) /\
    buffer d' = window /\
    total_samples_processed d' = (length (concat batches) + length samples)%nat /\
    total_peaks_detected d' = total_peaks_detected d /\
    last_peak_timestamp d' = last_peak_timestamp d.
Proof.
  split; [vm_compute; reflexivity |].
  apply (insufficient_window_defers exact_sqrt no_rounding 300 2 50 1 0
           [pulse_stream 100000 40 (Nat.eqb 20); pulse_stream 100040 40 (Nat.eqb 20)]
           (pulse_stream 100080 10 (fun _ => false))).
  vm_compute. reflexivity.
Defined.

(** C10, at an input where the code departs from it.  Three hundred
    samples stamped a millisecond apart from 1000.000 s on carry pulses at
    positions 50, 150 and 250, which [find_peaks] reports.  The gate lets
    the first through and holds back the other two, 0.1 s and 0.2 s after
    it.  With the sample at position 150 stamped NaN instead, the test
    [nan - 1000.05 < 0.5] is false and the peak is accepted;
    [last_peak_timestamp] is then NaN, the test is false again for the
    third peak, and three events are returned: the timestamps 1000.05, NaN,
    1000.25 do not increase, and two swings 0.2 s apart are both emitted. *)
Lemma nan_timestamp_opens_the_gate :
  let pulses i := (i =? 50)%nat || (i =? 150)%nat || (i =? 250)%nat in
  let samples := fast_pulse_stream 1000000 300 pulses in
  let with_nan := <[150%nat := stamped NaN (sample_at 0 3)]> samples in
  let d1 := add_samples (SwingDetector_default 0) with_nan in
  SciPy.find_peaks (map (rotation_magnitude exact_sqrt no_rounding) (buffer d1))
                   (threshold d1) (min_distance d1)
  = Returned [50%nat; 150%nat; 250%nat] /\
  map peak_timestamp (returned_events (detect (SwingDetector_default 0) samples).2)
  = [Finite (1000050 # 1000)] /\
  map peak_timestamp (returned_events (detect (SwingDetector_default 0) with_nan).2)
  = [Finite (1000050 # 1000); NaN; Finite (1000250 # 1000)] /\
  last_peak_timestamp (detect (SwingDetector_default 0) with_nan).1
  = Finite (1000250 # 1000).
Proof. vm_compute. repeat split; reflexivity. Qed.

(** Two infinite timestamps: both peaks are accepted, [inf - inf] being
    NaN, and the emitted timestamps do not increase. *)
Example infinite_timestamps_repeat :
  let pulses i := (i =? 50)%nat || (i =? 150)%nat in
  let samples := map (stamped PosInf) (pulse_stream 100000 200 pulses) in
  map peak_timestamp (returned_events (detect (SwingDetector_default 0) samples).2)
  = [PosInf; PosInf].
Proof. vm_compute. reflexivity. Qed.

(** Two pulses a second apart, in two batches: two events. *)
Example two_pulses_two_events :
  map peak_timestamp
      (detect_all (SwingDetector_default 0)
                  [pulse_stream 100000 100 (Nat.eqb 50);
                   pulse_stream 100100 100 (Nat.eqb 50)]).2
  = [Finite (100050 # 100); Finite (100150 # 100)].
Proof. vm_compute. reflexivity. Qed.

(** Two pulses a second apart in two batches, stamped with finite times. *)
Lemma finite_timestamps_are_spaced_witness :
  let d := SwingDetector_default 0 in
  let batches := [pulse_stream 100000 100 (Nat.eqb 50);
                  pulse_stream 100100 100 (Nat.eqb 50)] in
  (forall a b : Q, a <= b -> no_rounding a <= no_rounding b) /\
  no_rounding 0 <= 0 /\
  0 < min_peak_interval d /\
  last_peak_timestamp d = Finite 0 /\
  List.Forall (fun s => exists t, timestamp s = Finite t) (buffer d ++ concat batches) /\
  exists ts last,
    map peak_timestamp (detect_all d batches).2 = map Finite ts /\
    last_peak_timestamp (detect_all d batches).1 = Finite last /\
    StronglySorted (fun a b => a < b /\ min_peak_interval d <= no_rounding (b - a))
                   (0 :: ts) /\
    0 <= last /\
    List.Forall (fun t => t <= last) ts.
Proof.
  assert (Hfin : List.Forall (fun s => exists t, timestamp s = Finite t)
                             (buffer (SwingDetector_default 0)
                              ++ concat [pulse_stream 100000 100 (Nat.eqb 50);
                                         pulse_stream 100100 100 (Nat.eqb 50)])).
  { eapply List.Forall_impl;
      [| apply (Forall_by_test
                  (fun s => match timestamp s with Finite _ => true | _ => false end));
         vm_compute; reflexivity].
    intros s Hs. cbv beta in Hs.
    destruct (timestamp s) as [t | | |]; [exists t; reflexivity | | |];
      discriminate Hs. }
  split; [intros a b H; exact H |].
  split; [discriminate |].
  split; [reflexivity |].
  split; [reflexivity |].
  split; [exact Hfin |].
  apply (finite_timestamps_are_spaced exact_sqrt no_rounding (SwingDetector_default 0)
           [pulse_stream 100000 100 (Nat.eqb 50); pulse_stream 100100 100 (Nat.eqb 50)] 0).
  - intros a b H; exact H.
  - discriminate.
  - reflexivity.
  - reflexivity.
  - exact Hfin.
Defined.

(** C5, a second start of an active session: after a start and a batch of
    ten samples with detection enabled the detector of the session has
    counted ten samples and holds them; a second start of the same session
    leaves a detector that has seen none. *)
Lemma second_start_discards_detector :
  let batch := map to_sample_dict (pulse_stream 100000 10 (fun _ => false)) in
  let srv1 := (serve_all true empty_server
                 [(env_at 1000, SessionStart (Some "s") "AppleWatch");
                  (env_at 1001, SensorBatch "s" "AppleWatch" batch)]).1 in
  let srv2 := (serve true (env_at 1002) srv1 (SessionStart (Some "s") "AppleWatch")).1 in
  (total_samples_processed <$> active_sessions srv1 !! "s") = Some 10%nat /\
  (length <$> (buffer <$> active_sessions srv1 !! "s")) = Some 10%nat /\
  (total_samples_processed <$> active_sessions srv2 !! "s") = Some 0%nat /\
  (buffer <$> active_sessions srv2 !! "s") = Some [].
Proof. vm_compute. repeat split; reflexivity. Qed.

Lemma session_start_replaces_witness :
  "s" <> EmptyString /\
  (let after := serve false (env_at 1000) empty_server (SessionStart (Some "s") "AppleWatch") in
   active_sessions after.1 !! "s"
     = Some (SwingDetector_init 300 2 50 1 (time_time (env_at 1000))) /\
   (forall other, other <> "s" ->
                  active_sessions after.1 !! other = active_sessions empty_server !! other) /\
   current_session_id after.1 = Some "s" /\
   after.2 = [SessionStarted "s" (String.append "Session " (String.append "s" " started"))]).
Proof.
  split; [discriminate |].
  apply (session_start_replaces exact_sqrt no_rounding no_text plain_shot_id
           (fun _ => no_text) no_text no_text no_text admit_all admit_all admit_all).
  discriminate.
Defined.

(** C6, the end of a session that was never started: nothing is sent. *)
Lemma unknown_end_sends_nothing :
  serve false (env_at 1000) empty_server (SessionEnd (Some "ghost")) = (empty_server, []).
Proof. reflexivity. Qed.

Lemma session_end_unknown_is_silent_witness :
  active_sessions empty_server !! "ghost" = None /\
  (serve false (env_at 1000) empty_server (SessionEnd (Some "ghost")) = (empty_server, []) /\
   serve false (env_at 1000) empty_server (SessionEnd None) = (empty_server, []) /\
   (forall (env0 : Env) (srv0 : Server),
       let ended := (serve false env0 srv0 (SessionEnd (Some "ghost"))).1 in
       serve false (env_at 1000) ended (SessionEnd (Some "ghost")) = (ended, []))).
Proof.
  split; [reflexivity |].
  apply (session_end_unknown_is_silent exact_sqrt no_rounding no_text plain_shot_id
           (fun _ => no_text) no_text no_text no_text admit_all admit_all admit_all).
  reflexivity.
Defined.

(** C8, at an input where the code departs from it: a session is
    started, sends one batch of ten samples and ends.  With detection
    disabled, as configured, the batch is stored (one raw row of ten
    samples), yet the [session_ended] message carries the statistics of a
    detector that was never fed: no sample processed, an empty buffer.  With
    detection enabled the same frames report ten samples. *)
Lemma disabled_session_end_reports_no_samples :
  let batch := map to_sample_dict (pulse_stream 100000 10 (fun _ => false)) in
  let frames := [(env_at 1000, SessionStart (Some "s") "AppleWatch");
                 (env_at 1001, SensorBatch "s" "AppleWatch" batch);
                 (env_at 1002, SessionEnd (Some "s"))] in
  let off := serve_all ENABLE_REALTIME_SWING_DETECTION empty_server frames in
  let on := serve_all true empty_server frames in
  map raw_sample_count (raw_sensor_buffer (database off.1)) = [10%nat] /\
  (exists stats, List.last off.2 (ErrorResponse EmptyString) = SessionEnded "s" stats /\
                 stat_total_samples_processed stats = 0%nat /\
                 stat_buffer_size stats = 0%nat) /\
  (exists stats, List.last on.2 (ErrorResponse EmptyString) = SessionEnded "s" stats /\
                 stat_total_samples_processed stats = 10%nat /\
                 stat_buffer_size stats = 10%nat).
Proof.
  split; [vm_compute; reflexivity |].
  split; eexists; (split; [vm_compute; reflexivity |]); split; reflexivity.
Qed.



(** The run of the witness above ends with one record. *)
Example one_record_after_two_calls :
  let s1 := to_sample_dict (sample_at 10 0) in
  let rest1 := [to_sample_dict (sample_at 11 0); to_sample_dict (sample_at 12 0)] in
  let s2 := to_sample_dict (sample_at 12 0) in
  let rest2 := [to_sample_dict (sample_at 10 0)] in
  let db1 := insert_raw_sensor_buffer no_text admit_all (database empty_server)
                                      "a" "s" (s1 :: rest1) in
  let db2 := insert_raw_sensor_buffer no_text admit_all db1 "b" "s" (s2 :: rest2) in
  map raw_buffer_id (raw_sensor_buffer db2) = ["buffer_a"].
Proof. vm_compute. reflexivity. Qed.

(** ** Runs of the further properties *)

(** A reading of [2 ** 512] makes [process_batch] raise where the same
    batch without it returns its swing. *)
Example overflowing_reading_raises :
  let samples := pulse_stream 100000 100 (Nat.eqb 50) in
  let huge := <[10%nat := sample_at (100010 # 100) (inject_Z (2 ^ 512))]> samples in
  map peak_index (returned_events (detect (SwingDetector_default 0) samples).2) = [50%nat] /\
  (detect (SwingDetector_default 0) huge).2 = Raised pow_overflow.
Proof. vm_compute. split; reflexivity. Qed.

(** Two pulses a second apart, the sample of the second with an
    acceleration of [2 ** 512]: the first peak is accepted and counted, the
    second raises, and the caller gets no swing. *)
Example counted_but_not_returned :
  let pulses i := (i =? 50)%nat || (i =? 150)%nat in
  let samples := pulse_stream 100000 200 pulses in
  let huge := <[150%nat := accelerated (inject_Z (2 ^ 512)) (sample_at (100150 # 100) 3)]>
                samples in
  let run := detect (SwingDetector_default 0) huge in
  run.2 = Raised pow_overflow /\
  total_peaks_detected run.1 = 1%nat /\
  last_peak_timestamp run.1 = Finite (100050 # 100).
Proof. vm_compute. repeat split; reflexivity. Qed.

Lemma emitted_swings_are_window_peaks_witness :
  let d := SwingDetector_default 0 in
  let samples := pulse_stream 100000 100 (Nat.eqb 50) in
  let e := swing_peak_at exact_sqrt no_rounding 50 (sample_at (100050 # 100) 3) in
  let d' := (detect d samples).1 in
  detect d samples = (d', Returned [e]) /\
  In e [e] /\
  (buffer d' !! peak_index e = Some (sensor_data e) /\
   peak_timestamp e = timestamp (sensor_data e) /\
   peak_rotation_magnitude e = rotation_magnitude exact_sqrt no_rounding (sensor_data e) /\
   peak_acceleration_magnitude e
   = acceleration_magnitude exact_sqrt no_rounding (sensor_data e) /\
   threshold d <= peak_rotation_magnitude e /\
   SciPy.plateau_midpoint (map (rotation_magnitude exact_sqrt no_rounding) (buffer d'))
                          (peak_index e)).
Proof.
  split; [vm_compute; reflexivity |].
  split; [left; reflexivity |].
  apply (emitted_swings_are_window_peaks exact_sqrt no_rounding (SwingDetector_default 0)
           (pulse_stream 100000 100 (Nat.eqb 50))
           (detect (SwingDetector_default 0) (pulse_stream 100000 100 (Nat.eqb 50))).1
           [swing_peak_at exact_sqrt no_rounding 50 (sample_at (100050 # 100) 3)]).
  - vm_compute; reflexivity.
  - left; reflexivity.
Defined.

Lemma quiet_window_no_swing_witness :
  let d := SwingDetector_default 0 in
  let samples := pulse_stream 100000 100 (fun i => Nat.eqb i 50) in
  let quiet := map (fun s => sample_at (finite_value (timestamp s)) (rotation_x s / 2))
                   samples in
  List.Forall (fun s => rotation_magnitude exact_sqrt no_rounding s < threshold d)
              (deque_extend (buffer_size d) (buffer d) quiet) /\
  (returned_events (detect d quiet).2 = [] /\
   last_peak_timestamp (detect d quiet).1 = last_peak_timestamp d /\
   total_peaks_detected (detect d quiet).1 = total_peaks_detected d).
Proof.
  split.
  - apply (Forall_Qlt_by_test (rotation_magnitude exact_sqrt no_rounding) (fun _ => 2)).
    vm_compute; reflexivity.
  - apply (quiet_window_no_swing exact_sqrt no_rounding).
    apply (Forall_Qlt_by_test (rotation_magnitude exact_sqrt no_rounding) (fun _ => 2)).
    vm_compute; reflexivity.
Defined.

Lemma stale_timestamps_yield_no_swing_witness :
  let d := (detect (SwingDetector_default 0) (pulse_stream 100000 100 (Nat.eqb 50))).1 in
  let batches := [pulse_stream 100060 40 (Nat.eqb 20)] in
  List.Forall (fun s => float_lt (float_sub no_rounding (timestamp s)
                                            (last_peak_timestamp d))
                                 (Finite (min_peak_interval d)) = true)
              (buffer d ++ concat batches) /\
  ((detect_all d batches).2 = [] /\
   last_peak_timestamp (detect_all d batches).1 = last_peak_timestamp d).
Proof.
  split.
  - apply (Forall_by_test
             (fun s => float_lt (float_sub no_rounding (timestamp s)
                                           (Finite (100050 # 100)))
                                (Finite (1 # 2)))).
    vm_compute; reflexivity.
  - apply (stale_timestamps_yield_no_swing exact_sqrt no_rounding).
    apply (Forall_by_test
             (fun s => float_lt (float_sub no_rounding (timestamp s)
                                           (Finite (100050 # 100)))
                                (Finite (1 # 2)))).
    vm_compute; reflexivity.
Defined.

Lemma emitted_swing_speed_bound_witness :
  let d := SwingDetector_default 0 in
  let samples := pulse_stream 100000 100 (Nat.eqb 50) in
  let e := swing_peak_at exact_sqrt no_rounding 50 (sample_at (100050 # 100) 3) in
  let d' := (detect d samples).1 in
  (forall a b : Q, a <= b -> no_rounding a <= no_rounding b) /\
  0 <= no_rounding 0 /\
  detect d samples = (d', Returned [e]) /\
  In e [e] /\
  ((forall p q : SwingPeak,
       peak_rotation_magnitude p <= peak_rotation_magnitude q ->
       estimate_swing_speed no_rounding p <= estimate_swing_speed no_rounding q) /\
   (forall p : SwingPeak,
       peak_rotation_magnitude p <= threshold d ->
       estimate_swing_speed no_rounding p <= estimate_swing_speed no_rounding e)).
Proof.
  split; [intros a b H; exact H |].
  split; [discriminate |].
  split; [vm_compute; reflexivity |].
  split; [left; reflexivity |].
  apply (emitted_swing_speed_bound exact_sqrt no_rounding (SwingDetector_default 0)
           (pulse_stream 100000 100 (Nat.eqb 50))
           (detect (SwingDetector_default 0) (pulse_stream 100000 100 (Nat.eqb 50))).1
           [swing_peak_at exact_sqrt no_rounding 50 (sample_at (100050 # 100) 3)]).
  - intros a b H; exact H.
  - discriminate.
  - vm_compute; reflexivity.
  - left; reflexivity.
Defined.


Lemma malformed_frames_change_nothing_witness :
  let frames := [(env_at 1000, InvalidJson "Expecting value");
                 (env_at 1001, SessionStart None "AppleWatch");
                 (env_at 1002, OtherType "ping");
                 (env_at 1003, SensorBatchInvalid "field required")] in
  List.Forall (fun frame => malformed frame.2 = true) frames /\
  ((serve_all false empty_server frames).1 = empty_server /\
   length (serve_all false empty_server frames).2 = length frames /\
   List.Forall (fun r => is_error r = true) (serve_all false empty_server frames).2).
Proof.
  split; [repeat constructor |].
  apply (malformed_frames_change_nothing exact_sqrt no_rounding no_text plain_shot_id
           (fun _ => no_text) no_text no_text no_text admit_all admit_all admit_all).
  repeat constructor.
Defined.

Lemma registry_keeps_service_detectors_witness :
  let batch := map to_sample_dict (pulse_stream 100000 100 (Nat.eqb 50)) in
  let frames := [(env_at 1000, SessionStart (Some "s") "AppleWatch");
                 (env_at 1001, SensorBatch "s" "AppleWatch" batch);
                 (env_at 1002, SensorBatch "t" "AppleWatch" batch)] in
  map_Forall (fun _ d => service_detector d) (active_sessions empty_server) /\
  map_Forall (fun _ d => service_detector d)
             (active_sessions (serve_all true empty_server frames).1).
Proof.
  split; [apply map_Forall_empty |].
  apply (registry_keeps_service_detectors exact_sqrt no_rounding no_text plain_shot_id
           (fun _ => no_text) no_text no_text no_text admit_all admit_all admit_all).
  apply map_Forall_empty.
Defined.

(** A batch whose timestamps count nanoseconds, under a
    [datetime.fromtimestamp] that refuses years past 9999: the swing is
    detected and counted, its shot id cannot be made, and the frame is
    answered with an error and no [swing_detected]; no shot is stored. *)
Example nanosecond_stamps_lose_the_swing :
  let samples :=
    map (fun s => to_sample_dict
                    (stamped (Finite (finite_value (timestamp s) * 1000000000)) s))
        (pulse_stream 100000 100 (Nat.eqb 50)) in
  let after :=
    websocket_step exact_sqrt no_rounding no_text shot_id_to_year_9999 (fun _ => no_text)
                   no_text no_text no_text admit_all admit_all admit_all
                   true (env_at 1000) empty_server (SensorBatch "s" "AppleWatch" samples) in
  after.2 = [ErrorResponse "Processing error: "] /\
  shots (database after.1) = [] /\
  (total_peaks_detected <$> active_sessions after.1 !! "s") = Some 1%nat.
Proof. vm_compute. repeat split; reflexivity. Qed.

Lemma sensor_batch_answers_witness :
  let samples := map to_sample_dict (pulse_stream 100000 100 (Nat.eqb 50)) in
  let detector := default (SwingDetector_default (time_time (env_at 1000)))
                          (active_sessions empty_server !! "s") in
  let run := detect detector (map to_sensor_sample samples) in
  let answer :=
    (websocket_step exact_sqrt no_rounding no_text shot_id_to_year_9999 (fun _ => no_text)
                    no_text no_text no_text admit_all admit_all admit_all
                    true (env_at 1000) empty_server
                    (SensorBatch "s" "AppleWatch" samples)).2 in
  let sent_for (peak : SwingPeak) (response : Response) :=
    exists shot_id,
      shot_id_to_year_9999 (peak_timestamp peak) (total_peaks_detected run.1)
      = Returned shot_id /\
      response = SwingDetected "s" (swing_data_of no_rounding shot_id peak) in
  map_Forall (fun _ d => service_detector d) (active_sessions empty_server) /\
  ((true = false -> answer = []) /\
   (true = true ->
    (forall e, run.2 = Raised e ->
               e = pow_overflow /\
               answer = [ErrorResponse (String.append "Processing error: " (no_text e))]) /\
    (forall events, run.2 = Returned events ->
       exists done rest sent,
         events = done ++ rest /\ Forall2 sent_for done sent /\
         (rest = [] /\ answer = sent \/
          exists e peak rest',
            rest = peak :: rest' /\
            shot_id_to_year_9999 (peak_timestamp peak) (total_peaks_detected run.1)
            = Raised e /\
            answer = sent ++ [ErrorResponse (String.append "Processing error: "
                                                           (no_text e))])))).
Proof.
  split; [apply map_Forall_empty |].
  apply (sensor_batch_answers exact_sqrt no_rounding no_text shot_id_to_year_9999
           (fun _ => no_text) no_text no_text no_text admit_all admit_all admit_all
           true (env_at 1000) empty_server "s" "AppleWatch").
  apply map_Forall_empty.
Defined.

Lemma disabled_mode_reports_no_samples_witness :
  let batch := map to_sample_dict (pulse_stream 100000 100 (Nat.eqb 50)) in
  let frames := [(env_at 1000, SessionStart (Some "s") "AppleWatch");
                 (env_at 1001, SensorBatch "s" "AppleWatch" batch);
                 (env_at 1002, SessionEnd (Some "s"))] in
  map_Forall (fun _ d => unused d) (active_sessions empty_server) /\
  (let after := serve_all ENABLE_REALTIME_SWING_DETECTION empty_server frames in
   map_Forall (fun _ d => unused d) (active_sessions after.1) /\
   forall sid stats, In (SessionEnded sid stats) after.2 ->
                     stat_total_samples_processed stats = O /\
                     stat_total_peaks_detected stats = O /\
                     stat_buffer_size stats = O).
Proof.
  split; [apply map_Forall_empty |].
  apply (disabled_mode_reports_no_samples exact_sqrt no_rounding no_text plain_shot_id
           (fun _ => no_text) no_text no_text no_text admit_all admit_all admit_all).
  apply map_Forall_empty.
Defined.

Lemma auto_started_session_is_never_stored_witness :
  let batch := map to_sample_dict (pulse_stream 100000 100 (Nat.eqb 50)) in
  let frames := [(env_at 1001, SensorBatch "s" "AppleWatch" batch);
                 (env_at 1002, SessionEnd (Some "s"))] in
  List.Forall (fun frame => is_session_start frame.2 = false) frames /\
  (forall row, In row (sessions (database empty_server)) -> ses_session_id row <> "s") /\
  (let after := (serve_all true empty_server frames).1 in
   map ses_session_id (sessions (database after))
   = map ses_session_id (sessions (database empty_server)) /\
   (active_sessions after !! "s" = None ->
    get_session no_rounding no_text after 1003 "s"
    = AnswerHttpError 404 (String.append "Session not found: " "s"))).
Proof.
  split; [repeat constructor |].
  split; [intros row [] |].
  apply (auto_started_session_is_never_stored exact_sqrt no_rounding no_text plain_shot_id
           (fun _ => no_text) no_text no_text no_text admit_all admit_all admit_all no_text).
  - repeat constructor.
  - intros row [].
Defined.

Lemma csv_batches_partition_witness :
  let samples := pulse_stream 0 250 (fun _ => false) in
  (0 < 100)%nat /\
  (concat (csv_batches 100 samples) = samples /\
   List.Forall (fun batch => (1 <= length batch <= 100)%nat) (csv_batches 100 samples)).
Proof.
  split; [lia |].
  apply (csv_batches_partition 100). lia.
Defined.

(** A connection that sends one batch under the empty session id and
    closes leaves the detector it auto-started in the registry. *)
Example empty_session_id_outlives_connection :
  let batch := map to_sample_dict (pulse_stream 100000 10 (fun _ => false)) in
  let closed := (websocket_endpoint exact_sqrt no_rounding no_text plain_shot_id
                   (fun _ => no_text) no_text no_text no_text admit_all admit_all admit_all
                   false empty_server
                   [(env_at 1000, SensorBatch EmptyString "AppleWatch" batch)]).1 in
  current_session_id closed = Some EmptyString /\
  dom (active_sessions closed) = {[ EmptyString ]}.
Proof. vm_compute. split; reflexivity. Qed.
